(** * Recipe cost calculator: validation, cost engine and recipe repository

    A shallow embedding of [src/index.ts].  The validators and the repository
    functions take [any]-typed payloads, so they are modelled over untyped
    JavaScript values; the cost engine is declared over the [Recipe]
    interface and is modelled over typed records.  JavaScript numbers are
    IEEE 754 binary64 values: they are Rocq's primitive [float]s. *)

From Stdlib Require Import ZArith List String Ascii Bool Lia Floats Uint63.
From Stdlib Require Import DecimalString.
From Stdlib Require HexadecimalString.
From Stdlib Require Import Permutation Sorted.
Import ListNotations.

#[local] Open Scope string_scope.
#[local] Open Scope list_scope.

(** Decimal literals such as [0.2] denote, as in JavaScript, the nearest
    binary64 value. *)
#[local] Set Warnings "-inexact-float,-register-all".

(* ================================================================== *)
(** * JavaScript values and exceptions *)
(* ================================================================== *)

Module JS.

(** A run-time value: what [request.json()] yields, plus [undefined], which
    reading a missing property produces. *)
Inductive value : Type :=
| VUndefined
| VNull
| VBool (b : bool)
| VNum (x : float)
| VStr (s : string)
| VArr (elems : list value)
| VObj (props : list (string * value)).

(** Exceptions: the [TypeError] of the runtime and the [Error] the program
    throws itself. *)
Inductive exn : Type :=
| TypeError
| Error (message : string).

(** A computation either returns or throws. *)
Inductive result (A : Type) : Type :=
| Ok (a : A)
| Throw (e : exn).

Arguments Ok {A} a.
Arguments Throw {A} e.

Definition bind {A B : Type} (c : result A) (k : A -> result B) : result B :=
  match c with
  | Ok a => k a
  | Throw e => Throw e
  end.

Notation "'let*' x ':=' c 'in' k" := (bind c (fun x => k))
  (at level 10, x name, c at level 100, k at level 200).

(** The number of an array or string length. *)
Definition number_of_nat (n : nat) : float :=
  PrimFloat.of_uint63 (Uint63.of_Z (Z.of_nat n)).

(** ToBoolean: [undefined], [null], [false], [0], [-0], [NaN] and the empty
    string are falsy. *)
Definition truthy (v : value) : bool :=
  match v with
  | VUndefined | VNull => false
  | VBool b => b
  | VNum x => negb (PrimFloat.is_zero x || PrimFloat.is_nan x)
  | VStr s => negb (s =? "")
  | VArr _ | VObj _ => true
  end.

Definition typeof (v : value) : string :=
  match v with
  | VUndefined => "undefined"
  | VNull => "object"
  | VBool _ => "boolean"
  | VNum _ => "number"
  | VStr _ => "string"
  | VArr _ | VObj _ => "object"
  end.

(** [v === undefined]. *)
Definition is_undefined (v : value) : bool :=
  match v with
  | VUndefined => true
  | _ => false
  end.

(** The own properties of an object, in the order they were written.  Should
    a key occur twice, the later entry is the property, as [JSON.parse] has
    it for a repeated key. *)
Fixpoint lookup (k : string) (props : list (string * value)) : option value :=
  match props with
  | [] => None
  | (k', v) :: rest =>
      match lookup k rest with
      | Some x => Some x
      | None => if k =? k' then Some v else None
      end
  end.

(** Property access [v.k], for the property names the program reads: none of
    them is defined on a prototype, and of them arrays and strings define
    only [length] (counted in [ascii] characters for a string).  Reading a
    property of [undefined] or [null] throws. *)
Definition get (v : value) (k : string) : result value :=
  match v with
  | VUndefined | VNull => Throw TypeError
  | VBool _ | VNum _ => Ok VUndefined
  | VStr s =>
      Ok (if k =? "length" then VNum (number_of_nat (String.length s))
          else VUndefined)
  | VArr l =>
      Ok (if k =? "length" then VNum (number_of_nat (List.length l))
          else VUndefined)
  | VObj props =>
      Ok (match lookup k props with
          | Some x => x
          | None => VUndefined
          end)
  end.

(** The operator [k in v], for the same property names: it throws unless
    its right operand is an object. *)
Definition has_property (k : string) (v : value) : result bool :=
  match v with
  | VObj props =>
      Ok (match lookup k props with
          | Some _ => true
          | None => false
          end)
  | VArr _ => Ok (k =? "length")
  | _ => Throw TypeError
  end.

(** [Array.prototype.some]: left to right, stopping at the first element
    the callback accepts; an exception of the callback propagates. *)
Fixpoint some (p : value -> result bool) (l : list value) : result bool :=
  match l with
  | [] => Ok false
  | x :: rest => let* b := p x in if b then Ok true else some p rest
  end.

(** [Array.prototype.filter] over an array of strings. *)
Fixpoint filter (p : string -> result bool) (l : list string)
  : result (list string) :=
  match l with
  | [] => Ok []
  | x :: rest =>
      let* b := p x in
      let* kept := filter p rest in
      Ok (if b then x :: kept else kept)
  end.

(** [Array.prototype.join]. *)
Definition join (sep : string) (l : list string) : string :=
  String.concat sep l.

(** Iterating [for (const x of v)]: arrays yield their elements, strings
    their characters, anything else is not iterable. *)
Definition iterate (v : value) : result (list value) :=
  match v with
  | VArr l => Ok l
  | VStr s => Ok (map (fun c => VStr (String c EmptyString)) (list_ascii_of_string s))
  | _ => Throw TypeError
  end.

Definition has_key (k : string) (props : list (string * value)) : bool :=
  existsb (fun kv => k =? fst kv) props.

(** Writing a property: an existing key keeps its position, a new key goes
    last. *)
Definition set_prop (k : string) (v : value) (props : list (string * value))
  : list (string * value) :=
  if has_key k props
  then map (fun kv => if k =? fst kv then (k, v) else kv) props
  else props ++ [(k, v)].

(** The decimal name of an array index. *)
Definition index_name (i : nat) : string :=
  NilEmpty.string_of_uint (Nat.to_uint i).

Fixpoint indexed (i : nat) (l : list value) : list (string * value) :=
  match l with
  | [] => []
  | x :: rest => (index_name i, x) :: indexed (S i) rest
  end.

(** The own enumerable properties an object spread [...v] copies. *)
Definition own_props (v : value) : list (string * value) :=
  match v with
  | VObj props => props
  | VArr l => indexed 0 l
  | VStr s =>
      indexed 0 (map (fun c => VStr (String c EmptyString)) (list_ascii_of_string s))
  | _ => []
  end.

(** [{...target, ...v}]: the properties of [v] written over [target]. *)
Definition spread (target : list (string * value)) (v : value)
  : list (string * value) :=
  fold_left (fun acc kv => set_prop (fst kv) (snd kv) acc) (own_props v) target.

End JS.

Import JS.

(* ================================================================== *)
(** * Validation *)
(* ================================================================== *)

(** The validators' result [{ valid, message? }]. *)
Record Validation : Type := mkValidation {
  valid : bool;
  message : option string
}.

Definition accept : Validation := mkValidation true None.
Definition reject (msg : string) : Validation := mkValidation false (Some msg).

Definition requiredFields : list string :=
  [ "name"; "weight"; "dimensions"; "yield_percentage";
    "waste_factor"; "unit_of_measure"; "inventory_location";
    "parts"; "labor" ].

Definition dimensions_message : string :=
  "Invalid dimensions object. Must include length, width, height, and unit".
Definition parts_message : string :=
  "Invalid parts array. Each part must have name, quantity, and cost_per_unit".
Definition labor_message : string :=
  "Invalid labor array. Each labor item must have type, cost_per_hour, and hours_needed".

(** [typeof dims !== 'object' || !dims.length || !dims.width || !dims.height
    || !dims.unit], the disjunction both validators share. *)
Definition dims_incomplete (dims : value) : result bool :=
  if negb (typeof dims =? "object") then Ok true else
  let* l := get dims "length" in
  if negb (truthy l) then Ok true else
  let* w := get dims "width" in
  if negb (truthy w) then Ok true else
  let* h := get dims "height" in
  if negb (truthy h) then Ok true else
  let* u := get dims "unit" in
  Ok (negb (truthy u)).

(** The callback of [recipe.parts.some]:
    [!part.name || part.quantity === undefined || part.cost_per_unit === undefined]. *)
Definition part_malformed (part : value) : result bool :=
  let* n := get part "name" in
  if negb (truthy n) then Ok true else
  let* q := get part "quantity" in
  if is_undefined q then Ok true else
  let* c := get part "cost_per_unit" in
  Ok (is_undefined c).

(** The callback of [recipe.labor.some]:
    [!labor.type || labor.cost_per_hour === undefined || labor.hours_needed === undefined]. *)
Definition labor_malformed (labor : value) : result bool :=
  let* t := get labor "type" in
  if negb (truthy t) then Ok true else
  let* c := get labor "cost_per_hour" in
  if is_undefined c then Ok true else
  let* h := get labor "hours_needed" in
  Ok (is_undefined h).

(** [!Array.isArray(v) || v.some(malformed)]. *)
Definition bad_array (malformed : value -> result bool) (v : value)
  : result bool :=
  match v with
  | VArr l => some malformed l
  | _ => Ok true
  end.

Definition validateRecipe (recipe : value) : result Validation :=
  let* missingFields :=
    JS.filter (fun field => let* b := has_property field recipe in Ok (negb b))
              requiredFields in
  if (0 <? List.length missingFields)%nat then
    Ok (reject ("Missing required fields: " ++ join ", " missingFields))
  else
  let* dims := get recipe "dimensions" in
  let* bad_dims := if negb (truthy dims) then Ok true else dims_incomplete dims in
  if bad_dims then Ok (reject dimensions_message) else
  let* parts := get recipe "parts" in
  let* bad_parts := bad_array part_malformed parts in
  if bad_parts then Ok (reject parts_message) else
  let* labor := get recipe "labor" in
  let* bad_labor := bad_array labor_malformed labor in
  if bad_labor then Ok (reject labor_message) else
  Ok accept.

Definition validatePartialRecipe (recipe : value) : result Validation :=
  let* dims := get recipe "dimensions" in
  let* bad_dims :=
    if is_undefined dims then Ok false
    else if truthy dims then dims_incomplete dims else Ok false in
  if bad_dims then Ok (reject dimensions_message) else
  let* parts := get recipe "parts" in
  let* bad_parts :=
    if is_undefined parts then Ok false else bad_array part_malformed parts in
  if bad_parts then Ok (reject parts_message) else
  let* labor := get recipe "labor" in
  let* bad_labor :=
    if is_undefined labor then Ok false else bad_array labor_malformed labor in
  if bad_labor then Ok (reject labor_message) else
  let* weight := get recipe "weight" in
  if negb (is_undefined weight)
     && match weight with
        | VNum x => (x <? 0)%float
        | _ => true
        end
  then Ok (reject "Weight must be a positive number") else
  let* yield_percentage := get recipe "yield_percentage" in
  if negb (is_undefined yield_percentage)
     && match yield_percentage with
        | VNum x => (x <? 0)%float || (100 <? x)%float
        | _ => true
        end
  then Ok (reject "Yield percentage must be a number between 0 and 100") else
  let* waste_factor := get recipe "waste_factor" in
  if negb (is_undefined waste_factor)
     && match waste_factor with
        | VNum x => (x <? 0)%float || (1 <=? x)%float
        | _ => true
        end
  then Ok (reject "Waste factor must be a number between 0 and 1") else
  Ok accept.

(* ================================================================== *)
(** * Cost engine *)
(* ================================================================== *)

Module Cost.

#[local] Open Scope float_scope.

(** A property an interface declares with type [A].  The interfaces are
    erased at run time, so the property may also be missing or [null]; the
    cost engine tests two of them with [||], and those two are given this
    type.  The others are modelled at their declared type. *)
Inductive optional (A : Type) : Type :=
| undefined
| null
| present (a : A).

Arguments undefined {A}.
Arguments null {A}.
Arguments present {A} a.

Module Part.
Record t : Type := mk {
  name : string;
  quantity : float;
  cost_per_unit : float
}.
End Part.

Module Labor.
Record t : Type := mk {
  type : string;
  cost_per_hour : float;
  hours_needed : float
}.
End Labor.

Module Dimensions.
Record t : Type := mk {
  length : float;
  width : float;
  height : float;
  unit : string
}.
End Dimensions.

Module Recipe.
Record t : Type := mk {
  id : string;
  name : string;
  weight : float;
  dimensions : Dimensions.t;
  yield_percentage : float;
  waste_factor : optional float;
  unit_of_measure : optional string;
  inventory_location : string;
  parts : list Part.t;
  labor : list Labor.t;
  created_at : string;
  updated_at : string
}.
End Recipe.

Module CostSummary.
Record t : Type := mk {
  subtotal : float;
  waste_factor : optional float;
  waste_amount : float;
  total : float;
  currency : string;
  unit_of_measure : string
}.
End CostSummary.

Module RecipeCostBreakdown.
Record t : Type := mk {
  recipe_id : string;
  recipe_name : string;
  cost_summary : CostSummary.t
}.
End RecipeCostBreakdown.

(** [Array.prototype.reduce] with an initial value. *)
Definition reduce {A B : Type} (f : B -> A -> B) (init : B) (l : list A) : B :=
  fold_left f l init.

(** [x || d] for a number: [0], [-0] and [NaN] are falsy, as are a missing
    and a [null] property. *)
Definition number_or (x : optional float) (d : float) : float :=
  match x with
  | present n => if PrimFloat.is_zero n || PrimFloat.is_nan n then d else n
  | _ => d
  end.

(** [s || d] for a string: the empty string is falsy. *)
Definition string_or (s : optional string) (d : string) : string :=
  match s with
  | present str => if (str =? "")%string then d else str
  | _ => d
  end.

(** [calculateRecipeCost]; [None] is a call with no recipe ([!recipe]). *)
Definition calculateRecipeCost (recipe : option Recipe.t)
  : result RecipeCostBreakdown.t :=
  match recipe with
  | None => Throw (Error "Recipe is required for cost calculation")
  | Some recipe =>
      let partsCost :=
        reduce (fun total part =>
                  total + (Part.quantity part * Part.cost_per_unit part))
               0 (Recipe.parts recipe) in
      let laborCost :=
        reduce (fun total job =>
                  total + (Labor.hours_needed job * Labor.cost_per_hour job))
               0 (Recipe.labor recipe) in
      let subtotal := partsCost + laborCost in
      let costWithWaste :=
        subtotal / (1 - number_or (Recipe.waste_factor recipe) 0) in
      let wasteAmount := costWithWaste - subtotal in
      Ok {| RecipeCostBreakdown.recipe_id := Recipe.id recipe;
            RecipeCostBreakdown.recipe_name := Recipe.name recipe;
            RecipeCostBreakdown.cost_summary :=
              {| CostSummary.subtotal := subtotal;
                 CostSummary.waste_factor := Recipe.waste_factor recipe;
                 CostSummary.waste_amount := wasteAmount;
                 CostSummary.total := costWithWaste;
                 CostSummary.currency := "USD";
                 CostSummary.unit_of_measure :=
                   string_or (Recipe.unit_of_measure recipe) "piece" |} |}
  end.

(** One element of [summary], the per-recipe line of the fleet report. *)
Module SummaryItem.
Record t : Type := mk {
  recipe_id : string;
  recipe_name : string;
  total_cost : float;
  parts_cost : float;
  labor_cost : float;
  unit_of_measure : string
}.
End SummaryItem.

(** The [totals] object of the fleet report.  [total_recipes] is
    [summary.length], kept as the natural number it is. *)
Module Totals.
Record t : Type := mk {
  total_parts_cost : float;
  total_labor_cost : float;
  grand_total : float;
  average_cost_per_recipe : float;
  total_recipes : nat;
  currency : string
}.
End Totals.

Module FleetSummary.
Record t : Type := mk {
  recipes : list SummaryItem.t;
  totals : Totals.t
}.
End FleetSummary.

(** [Array.prototype.map] with a callback that may throw. *)
Fixpoint map_result {A B : Type} (f : A -> result B) (l : list A)
  : result (list B) :=
  match l with
  | [] => Ok []
  | x :: rest =>
      let* y := f x in
      let* ys := map_result f rest in
      Ok (y :: ys)
  end.

(** The callback of [recipes.map] in the branch of [fetch] for
    [GET /api/recipes/cost/summary]. *)
Definition summary_item (recipe : Recipe.t) : result SummaryItem.t :=
  let* cost := calculateRecipeCost (Some recipe) in
  Ok {| SummaryItem.recipe_id := Recipe.id recipe;
        SummaryItem.recipe_name := Recipe.name recipe;
        SummaryItem.total_cost :=
          CostSummary.total (RecipeCostBreakdown.cost_summary cost);
        SummaryItem.parts_cost :=
          reduce (fun sum part =>
                    sum + (Part.quantity part * Part.cost_per_unit part))
                 0 (Recipe.parts recipe);
        SummaryItem.labor_cost :=
          reduce (fun sum labor =>
                    sum + (Labor.hours_needed labor * Labor.cost_per_hour labor))
                 0 (Recipe.labor recipe);
        SummaryItem.unit_of_measure :=
          CostSummary.unit_of_measure (RecipeCostBreakdown.cost_summary cost) |}.

(** The body that branch of [fetch] sends, from the recipes
    [getAllRecipes] returned. *)
Definition cost_summary_report (recipes : list Recipe.t)
  : result FleetSummary.t :=
  let* summary := map_result summary_item recipes in
  let grandTotal :=
    reduce (fun total item => total + SummaryItem.total_cost item) 0 summary in
  Ok {| FleetSummary.recipes := summary;
        FleetSummary.totals :=
          {| Totals.total_parts_cost :=
               reduce (fun sum item => sum + SummaryItem.parts_cost item) 0 summary;
             Totals.total_labor_cost :=
               reduce (fun sum item => sum + SummaryItem.labor_cost item) 0 summary;
             Totals.grand_total := grandTotal;
             Totals.average_cost_per_recipe :=
               if (0 <? List.length summary)%nat
               then grandTotal / number_of_nat (List.length summary)
               else 0;
             Totals.total_recipes := List.length summary;
             Totals.currency := "USD" |} |}.

End Cost.

(* ================================================================== *)
(** * Recipe repository *)
(* ================================================================== *)

Module Store.

(** The three tables the SQL statements of the source name, with the
    columns those statements list.  [id] and [recipe_id] are always bound to
    the string [generateUUID] returned or the path carried, and the stamps
    to a [toISOString] string; every other cell holds the value the code
    binds to it, as the code binds it.  What the binding and the schema then
    make of a value is theirs and is not modelled: the binding refuses some
    values (an [undefined], an object) with an exception and turns a boolean
    into 1 or 0, and the schema types its columns.  So the statements about
    writes say which values the code binds to which columns, and those that
    depend on a write are stated for the runs that return. *)
Module RecipeRow.
Record t : Type := mk {
  id : string;
  name : value;
  weight : value;
  length_unit : value;
  width : value;
  height : value;
  dimension_unit : value;
  yield_percentage : value;
  waste_factor : value;
  unit_of_measure : value;
  inventory_location : value;
  created_at : string;
  updated_at : string
}.
End RecipeRow.

Module PartRow.
Record t : Type := mk {
  recipe_id : string;
  name : value;
  quantity : value;
  cost_per_unit : value
}.
End PartRow.

Module LaborRow.
Record t : Type := mk {
  recipe_id : string;
  type : value;
  cost_per_hour : value;
  hours_needed : value
}.
End LaborRow.

Record DB : Type := mkDB {
  recipes : list RecipeRow.t;
  recipe_parts : list PartRow.t;
  recipe_labor : list LaborRow.t
}.

(** An [async] function over the store: it threads the tables and may
    throw; what it wrote before throwing stays written (the statements are
    not wrapped in a transaction). *)
Definition M (A : Type) : Type := DB -> DB * result A.

Definition ret {A : Type} (a : A) : M A := fun db => (db, Ok a).

Definition bindM {A B : Type} (c : M A) (k : A -> M B) : M B :=
  fun db =>
    match c db with
    | (db', Ok a) => k a db'
    | (db', Throw e) => (db', Throw e)
    end.

Definition lift {A : Type} (r : result A) : M A := fun db => (db, r).

Notation "'let!' x ':=' c 'in' k" := (bindM c (fun x => k))
  (at level 10, x name, c at level 100, k at level 200).

(** [for (const x of l) { await body(x) }]. *)
Fixpoint for_each {A : Type} (body : A -> M unit) (l : list A) : M unit :=
  match l with
  | [] => ret tt
  | x :: rest => let! _ := body x in for_each body rest
  end.

(** ** The result of a statement *)

(** What [run()] resolves to.  The statements go through the D1 binding
    (its calls are [prepare], [bind], [first], [all] and [run]), whose result
    holds [success], [meta] and [results]: the number of rows the statement
    changed is [meta.changes]. *)
Module RunResult.
Record t : Type := mk {
  success : bool;
  meta_changes : nat
}.

(** [result.changes]: the result has no property of this name, [changes]
    being a property of [meta]; reading it gives [undefined]. *)
Definition changes (result : t) : Cost.optional float := Cost.undefined.
End RunResult.

(** ** The SQL statements *)

(** [SELECT * FROM recipes WHERE id = ?], [.first()]. *)
Definition select_recipe (id : string) : M (option RecipeRow.t) :=
  fun db => (db, Ok (find (fun r => RecipeRow.id r =? id) (recipes db))).

(** [SELECT name, quantity, cost_per_unit FROM recipe_parts WHERE recipe_id = ?]. *)
Definition select_parts (id : string) : M (list PartRow.t) :=
  fun db =>
    (db, Ok (List.filter (fun r => PartRow.recipe_id r =? id) (recipe_parts db))).

(** [SELECT type, cost_per_hour, hours_needed FROM recipe_labor WHERE recipe_id = ?]. *)
Definition select_labor (id : string) : M (list LaborRow.t) :=
  fun db =>
    (db, Ok (List.filter (fun r => LaborRow.recipe_id r =? id) (recipe_labor db))).

(** [INSERT INTO recipes (...) VALUES (...)]. *)
Definition insert_recipe (row : RecipeRow.t) : M unit :=
  fun db =>
    (mkDB (recipes db ++ [row]) (recipe_parts db) (recipe_labor db), Ok tt).

(** [INSERT INTO recipe_parts (recipe_id, name, quantity, cost_per_unit)]. *)
Definition insert_part (row : PartRow.t) : M unit :=
  fun db =>
    (mkDB (recipes db) (recipe_parts db ++ [row]) (recipe_labor db), Ok tt).

(** [INSERT INTO recipe_labor (recipe_id, type, cost_per_hour, hours_needed)]. *)
Definition insert_labor (row : LaborRow.t) : M unit :=
  fun db =>
    (mkDB (recipes db) (recipe_parts db) (recipe_labor db ++ [row]), Ok tt).

(** [UPDATE recipes SET name = ?, ..., updated_at = ? WHERE id = ?]: the
    row keeps its [id] and [created_at]. *)
Definition update_recipe (new : RecipeRow.t) (id : string) : M unit :=
  fun db =>
    (mkDB (map (fun r =>
                  if RecipeRow.id r =? id
                  then RecipeRow.mk (RecipeRow.id r)
                         (RecipeRow.name new) (RecipeRow.weight new)
                         (RecipeRow.length_unit new) (RecipeRow.width new)
                         (RecipeRow.height new) (RecipeRow.dimension_unit new)
                         (RecipeRow.yield_percentage new)
                         (RecipeRow.waste_factor new)
                         (RecipeRow.unit_of_measure new)
                         (RecipeRow.inventory_location new)
                         (RecipeRow.created_at r) (RecipeRow.updated_at new)
                  else r)
               (recipes db))
          (recipe_parts db) (recipe_labor db), Ok tt).

(** [DELETE FROM recipe_parts WHERE recipe_id = ?]. *)
Definition delete_parts (id : string) : M unit :=
  fun db =>
    (mkDB (recipes db)
          (List.filter (fun r => negb (PartRow.recipe_id r =? id)) (recipe_parts db))
          (recipe_labor db), Ok tt).

(** [DELETE FROM recipe_labor WHERE recipe_id = ?]. *)
Definition delete_labor (id : string) : M unit :=
  fun db =>
    (mkDB (recipes db) (recipe_parts db)
          (List.filter (fun r => negb (LaborRow.recipe_id r =? id)) (recipe_labor db)),
     Ok tt).

(** Modelled from the spec: the schema of the store (the declaration of the
    child tables and of their foreign key) is not in the source.  The spec
    has [recipe_parts] and [recipe_labor] "each foreign-keyed by recipe_id"
    and a recipe "deleted by id, cascading to its parts and labor rows", so
    [DELETE FROM recipes WHERE id = ?] removes the child rows of the deleted
    recipe as well.  The result counts the recipe rows deleted. *)
Definition delete_recipe (id : string) : M RunResult.t :=
  fun db =>
    let gone := List.filter (fun r => RecipeRow.id r =? id) (recipes db) in
    match gone with
    | [] => (db, Ok (RunResult.mk true 0))
    | _ :: _ =>
        (mkDB (List.filter (fun r => negb (RecipeRow.id r =? id)) (recipes db))
              (List.filter (fun r => negb (PartRow.recipe_id r =? id)) (recipe_parts db))
              (List.filter (fun r => negb (LaborRow.recipe_id r =? id)) (recipe_labor db)),
         Ok (RunResult.mk true (List.length gone)))
    end.

(** The same statement over a schema without the cascade, to tell what the
    statement of the source does by itself. *)
Definition delete_recipe_no_cascade (id : string) : M RunResult.t :=
  fun db =>
    (mkDB (List.filter (fun r => negb (RecipeRow.id r =? id)) (recipes db))
          (recipe_parts db) (recipe_labor db),
     Ok (RunResult.mk true
           (List.length (List.filter (fun r => RecipeRow.id r =? id) (recipes db))))).

(** ** The repository functions *)

(** [a || b]. *)
Definition or_else (a b : value) : value := if truthy a then a else b.

Definition part_object (r : PartRow.t) : value :=
  VObj [ ("name", PartRow.name r);
         ("quantity", PartRow.quantity r);
         ("cost_per_unit", PartRow.cost_per_unit r) ].

Definition labor_object (r : LaborRow.t) : value :=
  VObj [ ("type", LaborRow.type r);
         ("cost_per_hour", LaborRow.cost_per_hour r);
         ("hours_needed", LaborRow.hours_needed r) ].

Definition getRecipeById (id : string) : M value :=
  let! recipeResult := select_recipe id in
  match recipeResult with
  | None => ret VNull
  | Some row =>
      let! partsResult := select_parts id in
      let! laborResult := select_labor id in
      ret (VObj
        [ ("id", VStr (RecipeRow.id row));
          ("name", or_else (RecipeRow.name row) (VStr ""));
          ("weight", or_else (RecipeRow.weight row) (VNum 0));
          ("dimensions", VObj
             [ ("length", or_else (RecipeRow.length_unit row) (VNum 0));
               ("width", or_else (RecipeRow.width row) (VNum 0));
               ("height", or_else (RecipeRow.height row) (VNum 0));
               ("unit", or_else (RecipeRow.dimension_unit row) (VStr "")) ]);
          ("yield_percentage", or_else (RecipeRow.yield_percentage row) (VNum 0));
          ("waste_factor", or_else (RecipeRow.waste_factor row) (VNum 0));
          ("unit_of_measure", or_else (RecipeRow.unit_of_measure row) (VStr ""));
          ("inventory_location", or_else (RecipeRow.inventory_location row) (VStr ""));
          ("parts", VArr (map part_object partsResult));
          ("labor", VArr (map labor_object laborResult));
          ("created_at", or_else (VStr (RecipeRow.created_at row)) (VStr ""));
          ("updated_at", or_else (VStr (RecipeRow.updated_at row)) (VStr "")) ])
  end.

(** The values a recipe object binds to the columns of [recipes]. *)
Definition bound_row (recipe : value) (id created updated : string)
  : result RecipeRow.t :=
  let* name := get recipe "name" in
  let* weight := get recipe "weight" in
  let* d1 := get recipe "dimensions" in
  let* length := get d1 "length" in
  let* d2 := get recipe "dimensions" in
  let* width := get d2 "width" in
  let* d3 := get recipe "dimensions" in
  let* height := get d3 "height" in
  let* d4 := get recipe "dimensions" in
  let* unit := get d4 "unit" in
  let* yield_percentage := get recipe "yield_percentage" in
  let* waste_factor := get recipe "waste_factor" in
  let* unit_of_measure := get recipe "unit_of_measure" in
  let* inventory_location := get recipe "inventory_location" in
  Ok (RecipeRow.mk id name weight length width height unit yield_percentage
        waste_factor unit_of_measure inventory_location created updated).

(** The loop [for (const part of recipe.parts)] with its [INSERT]. *)
Definition insert_parts (recipe : value) (id : string) : M unit :=
  let! parts := lift (get recipe "parts") in
  let! elems := lift (iterate parts) in
  for_each (fun part =>
              let! n := lift (get part "name") in
              let! q := lift (get part "quantity") in
              let! c := lift (get part "cost_per_unit") in
              insert_part (PartRow.mk id n q c))
           elems.

(** The loop [for (const labor of recipe.labor)] with its [INSERT]. *)
Definition insert_labors (recipe : value) (id : string) : M unit :=
  let! labor := lift (get recipe "labor") in
  let! elems := lift (iterate labor) in
  for_each (fun job =>
              let! t := lift (get job "type") in
              let! c := lift (get job "cost_per_hour") in
              let! h := lift (get job "hours_needed") in
              insert_labor (LaborRow.mk id t c h))
           elems.

(** [createRecipe]; [id] is what [generateUUID()] returned and [now] what
    [new Date().toISOString()] returned. *)
Definition createRecipe (recipeData : value) (id now : string) : M value :=
  let! row := lift (bound_row recipeData id now now) in
  let! _ := insert_recipe row in
  let! _ := insert_parts recipeData id in
  let! _ := insert_labors recipeData id in
  getRecipeById id.

(** [updateRecipe]; [now] is what [new Date().toISOString()] returned. *)
Definition updateRecipe (id : string) (updateData : value) (now : string)
  : M value :=
  let! existingRecipe := getRecipeById id in
  if negb (truthy existingRecipe) then ret VNull else
  let updatedRecipe :=
    VObj (set_prop "updated_at" (VStr now)
            (set_prop "id" (VStr id)
               (spread (spread [] existingRecipe) updateData))) in
  let! row := lift (bound_row updatedRecipe id now now) in
  let! _ := update_recipe row id in
  let! new_parts := lift (get updateData "parts") in
  let! _ :=
    if negb (is_undefined new_parts)
    then let! _ := delete_parts id in insert_parts updatedRecipe id
    else ret tt in
  let! new_labor := lift (get updateData "labor") in
  let! _ :=
    if negb (is_undefined new_labor)
    then let! _ := delete_labor id in insert_labors updatedRecipe id
    else ret tt in
  getRecipeById id.

(** [deleteRecipe]: the statement, then [(result.changes || 0) > 0]. *)
Definition deleteRecipe (id : string) : M bool :=
  let! result := delete_recipe id in
  ret (0 <? Cost.number_or (RunResult.changes result) 0)%float.

(** ** The branches of [fetch] that write *)

Record Response : Type := mkResponse {
  status : nat;
  body : value
}.

Definition sendJSON (data : value) (status : nat) : Response :=
  mkResponse status data.

Definition error_body (msg : option string) : value :=
  VObj [ ("error", match msg with
                   | Some m => VStr m
                   | None => VUndefined
                   end) ].

(** [POST /api/recipes]. *)
Definition post_recipes (body : value) (id now : string) : M Response :=
  let! validation := lift (validateRecipe body) in
  if negb (valid validation)
  then ret (sendJSON (error_body (message validation)) 400)
  else
    let! newRecipe := createRecipe body id now in
    ret (sendJSON newRecipe 201).

(** [PUT /api/recipes/:id]. *)
Definition put_recipe (id : string) (body : value) (now : string) : M Response :=
  let! validation := lift (validatePartialRecipe body) in
  if negb (valid validation)
  then ret (sendJSON (error_body (message validation)) 400)
  else
    let! updatedRecipe := updateRecipe id body now in
    if negb (truthy updatedRecipe)
    then ret (sendJSON (error_body (Some "Recipe not found")) 404)
    else ret (sendJSON updatedRecipe 200).

(** [DELETE /api/recipes/:id]; the 204 response has no body. *)
Definition delete_recipe_route (id : string) : M Response :=
  let! deleted := deleteRecipe id in
  if negb deleted
  then ret (sendJSON (error_body (Some "Recipe not found")) 404)
  else ret (mkResponse 204 VNull).

(** The [try]/[catch] of [fetch]: an exception becomes the 500 response. *)
Definition catch_all (c : M Response) (db : DB) : DB * Response :=
  match c db with
  | (db', Ok r) => (db', r)
  | (db', Throw _) => (db', sendJSON (error_body (Some "Something went wrong!")) 500)
  end.

End Store.

(* ================================================================== *)
(** * Vocabulary of the statements *)
(* ================================================================== *)

Module CostSpec.
Import Cost.

#[local] Open Scope float_scope.

(** The number [1] as sign, mantissa and exponent: 2^52 × 2^-52. *)
Definition SFone : spec_float := S754_finite false 4503599627370496 (-52).

(** The floating-point sum of [terms], added left to right from [0]. *)
Fixpoint sum_from (acc : float) (terms : list float) : float :=
  match terms with
  | [] => acc
  | t :: rest => sum_from (acc + t) rest
  end.

Definition fsum (terms : list float) : float := sum_from 0 terms.

(** Σ quantity × cost_per_unit over the parts. *)
Definition parts_cost (r : Recipe.t) : float :=
  fsum (map (fun p => Part.quantity p * Part.cost_per_unit p) (Recipe.parts r)).

(** Σ hours_needed × cost_per_hour over the labor entries. *)
Definition labor_cost (r : Recipe.t) : float :=
  fsum (map (fun j => Labor.hours_needed j * Labor.cost_per_hour j) (Recipe.labor r)).

Definition subtotal_of (r : Recipe.t) : float := parts_cost r + labor_cost r.

(** The waste factor the total is computed with: [0] when the property is
    unset or falsy ([0], [-0], [NaN]). *)
Definition waste_factor_used (r : Recipe.t) : float :=
  match Recipe.waste_factor r with
  | undefined | null => 0
  | present x => if (x =? 0) || negb (x =? x) then 0 else x
  end.

Definition total_of (r : Recipe.t) : float :=
  subtotal_of r / (1 - waste_factor_used r).

(** The unit of measure reported: the recipe's, or ["piece"] when it is
    unset or empty. *)
Definition unit_reported (r : Recipe.t) : string :=
  match Recipe.unit_of_measure r with
  | undefined | null => "piece"
  | present s => if (s =? "")%string then "piece" else s
  end.

(** The waste factor is the number zero ([0] or [-0]). *)
Definition waste_factor_is_zero (r : Recipe.t) : Prop :=
  exists x, Recipe.waste_factor r = present x /\ (x =? 0) = true.

(** The example of the spec: parts [[{qty 2, cost 5}]], labor
    [[{hours 3, cost 20}]], and a recipe with the waste factor [w]. *)
Definition example_recipe (w : optional float) : Recipe.t :=
  {| Recipe.id := "r1";
     Recipe.name := "bracket";
     Recipe.weight := 1;
     Recipe.dimensions := Dimensions.mk 1 1 1 "cm";
     Recipe.yield_percentage := 100;
     Recipe.waste_factor := w;
     Recipe.unit_of_measure := present "";
     Recipe.inventory_location := "A1";
     Recipe.parts := [ Part.mk "bolt" 2 5 ];
     Recipe.labor := [ Labor.mk "assembly" 20 3 ];
     Recipe.created_at := "2024-01-01T00:00:00.000Z";
     Recipe.updated_at := "2024-01-01T00:00:00.000Z" |}.

(** A recipe whose only part costs [1e308 × 10], which overflows. *)
Definition overflowing_recipe : Recipe.t :=
  {| Recipe.id := "r2";
     Recipe.name := "hull";
     Recipe.weight := 1;
     Recipe.dimensions := Dimensions.mk 1 1 1 "m";
     Recipe.yield_percentage := 100;
     Recipe.waste_factor := present 0;
     Recipe.unit_of_measure := present "piece";
     Recipe.inventory_location := "B2";
     Recipe.parts := [ Part.mk "plate" 1e308 10 ];
     Recipe.labor := [];
     Recipe.created_at := "2024-01-01T00:00:00.000Z";
     Recipe.updated_at := "2024-01-01T00:00:00.000Z" |}.

(** A recipe with no waste factor whose two parts cost [1e308 × 10] and
    [-1e308 × 10]: Infinity and -Infinity, whose sum is NaN. *)
Definition cancelling_recipe : Recipe.t :=
  {| Recipe.id := "r3";
     Recipe.name := "ledger";
     Recipe.weight := 1;
     Recipe.dimensions := Dimensions.mk 1 1 1 "m";
     Recipe.yield_percentage := 100;
     Recipe.waste_factor := undefined;
     Recipe.unit_of_measure := present "piece";
     Recipe.inventory_location := "C3";
     Recipe.parts := [ Part.mk "plate" 1e308 10; Part.mk "refund" (-1e308) 10 ];
     Recipe.labor := [];
     Recipe.created_at := "2024-01-01T00:00:00.000Z";
     Recipe.updated_at := "2024-01-01T00:00:00.000Z" |}.

End CostSpec.

Module ValidationSpec.

(** The property [k] among [props], [undefined] when there is none. *)
Definition prop (props : list (string * value)) (k : string) : value :=
  match lookup k props with
  | Some x => x
  | None => VUndefined
  end.

(** The property [k] of a value, [undefined] where reading it would throw. *)
Definition field (v : value) (k : string) : value :=
  match get v k with
  | Ok x => x
  | Throw _ => VUndefined
  end.

(** An object in the sense of the [in] operator: an object or an array. *)
Definition is_object (v : value) : bool :=
  match v with
  | VObj _ | VArr _ => true
  | _ => false
  end.

Definition nullish (v : value) : bool :=
  match v with
  | VUndefined | VNull => true
  | _ => false
  end.

(** If [v] is an array, none of its elements is [null] or [undefined]. *)
Definition no_nullish_element (v : value) : bool :=
  match v with
  | VArr l => forallb (fun x => negb (nullish x)) l
  | _ => true
  end.

(** Every required field is a key of the payload. *)
Definition has_required (props : list (string * value)) : bool :=
  forallb (fun f => match lookup f props with
                    | Some _ => true
                    | None => false
                    end)
          requiredFields.

(** The shape rule of dimensions: an object whose [length], [width],
    [height] and [unit] are all truthy. *)
Definition dims_ok (dims : value) : bool :=
  match dims with
  | VObj d =>
      truthy (prop d "length") && truthy (prop d "width")
      && truthy (prop d "height") && truthy (prop d "unit")
  | _ => false
  end.

(** The shape rule of a part: a truthy [name], and [quantity] and
    [cost_per_unit] that are not [undefined]. *)
Definition part_ok (p : value) : bool :=
  match p with
  | VObj f =>
      truthy (prop f "name")
      && negb (is_undefined (prop f "quantity"))
      && negb (is_undefined (prop f "cost_per_unit"))
  | _ => false
  end.

(** The shape rule of a labor entry: a truthy [type], and [cost_per_hour]
    and [hours_needed] that are not [undefined]. *)
Definition labor_ok (j : value) : bool :=
  match j with
  | VObj f =>
      truthy (prop f "type")
      && negb (is_undefined (prop f "cost_per_hour"))
      && negb (is_undefined (prop f "hours_needed"))
  | _ => false
  end.

Definition all_ok (ok : value -> bool) (v : value) : bool :=
  match v with
  | VArr l => forallb ok l
  | _ => false
  end.

(** The payloads full validation is to accept. *)
Definition shape_ok (recipe : value) : bool :=
  match recipe with
  | VObj props =>
      has_required props
      && dims_ok (prop props "dimensions")
      && all_ok part_ok (prop props "parts")
      && all_ok labor_ok (prop props "labor")
  | _ => false
  end.

(** The first element of a list that is not well shaped, if there is one:
    where [some] stops. *)
Definition first_malformed (ok : value -> bool) (v : value) : option value :=
  match v with
  | VArr l => find (fun x => negb (ok x)) l
  | _ => None
  end.

(** The scan of a list reads a property of [null] or [undefined]: the
    first element that is not well shaped is one of the two. *)
Definition stumbles (ok : value -> bool) (v : value) : bool :=
  match first_malformed ok v with
  | Some x => nullish x
  | None => false
  end.

(** The payloads on which full validation raises: what is not an object
    ([null], [undefined], a primitive); and an object with every required
    field and well-shaped dimensions whose [parts] makes the scan stumble,
    or whose [parts] is well shaped throughout and whose [labor] makes the
    scan stumble. *)
Definition raises (recipe : value) : bool :=
  match recipe with
  | VObj props =>
      has_required props
      && dims_ok (prop props "dimensions")
      && (stumbles part_ok (prop props "parts")
          || (all_ok part_ok (prop props "parts")
              && stumbles labor_ok (prop props "labor")))
  | VArr _ => false
  | _ => true
  end.

(** A number, where the field is present, that passes [ok]. *)
Definition number_in (ok : float -> bool) (v : value) : bool :=
  is_undefined v
  || match v with
     | VNum x => ok x
     | _ => false
     end.

(** The payloads partial validation accepts: anything but [null] and
    [undefined] whose fields, where they are present, pass these tests.  A
    falsy [dimensions] ([null], [0], [false], the empty string) passes. *)
Definition partial_ok (recipe : value) : bool :=
  negb (nullish recipe)
  && (is_undefined (field recipe "dimensions")
      || negb (truthy (field recipe "dimensions"))
      || dims_ok (field recipe "dimensions"))
  && (is_undefined (field recipe "parts")
      || all_ok part_ok (field recipe "parts"))
  && (is_undefined (field recipe "labor")
      || all_ok labor_ok (field recipe "labor"))
  && number_in (fun x => negb (x <? 0)%float) (field recipe "weight")
  && number_in (fun x => negb (x <? 0)%float && negb (100 <? x)%float)
       (field recipe "yield_percentage")
  && number_in (fun x => negb (x <? 0)%float && negb (1 <=? x)%float)
       (field recipe "waste_factor").

(** A create payload with every required field. *)
Definition payload (dims waste_factor parts labor : value) : value :=
  VObj [ ("name", VStr "bracket");
         ("weight", VNum 1.5);
         ("dimensions", dims);
         ("yield_percentage", VNum 95);
         ("waste_factor", waste_factor);
         ("unit_of_measure", VStr "piece");
         ("inventory_location", VStr "A1");
         ("parts", parts);
         ("labor", labor) ].

Definition dims_of (length width height unit : value) : value :=
  VObj [ ("length", length); ("width", width); ("height", height); ("unit", unit) ].

Definition good_dims : value :=
  dims_of (VNum 10) (VNum 20) (VNum 30) (VStr "cm").

Definition part_of (name quantity cost_per_unit : value) : value :=
  VObj [ ("name", name); ("quantity", quantity); ("cost_per_unit", cost_per_unit) ].

Definition labor_of (type cost_per_hour hours_needed : value) : value :=
  VObj [ ("type", type); ("cost_per_hour", cost_per_hour);
         ("hours_needed", hours_needed) ].

End ValidationSpec.

Module StoreSpec.
Import Store.

(** A recipe with this id is stored. *)
Definition stored (id : string) (db : DB) : Prop :=
  In id (map RecipeRow.id (recipes db)).

(** The rows of [recipe_parts] keyed by [id], and the others. *)
Definition parts_rows (id : string) (db : DB) : list PartRow.t :=
  List.filter (fun r => PartRow.recipe_id r =? id) (recipe_parts db).

Definition other_parts_rows (id : string) (db : DB) : list PartRow.t :=
  List.filter (fun r => negb (PartRow.recipe_id r =? id)) (recipe_parts db).

(** The rows of [recipe_labor] keyed by [id], and the others. *)
Definition labor_rows (id : string) (db : DB) : list LaborRow.t :=
  List.filter (fun r => LaborRow.recipe_id r =? id) (recipe_labor db).

Definition other_labor_rows (id : string) (db : DB) : list LaborRow.t :=
  List.filter (fun r => negb (LaborRow.recipe_id r =? id)) (recipe_labor db).

(** [row] is the row a part of the payload is stored as under [id]. *)
Definition part_stored (id : string) (part : value) (row : PartRow.t) : Prop :=
  PartRow.recipe_id row = id /\
  get part "name" = Ok (PartRow.name row) /\
  get part "quantity" = Ok (PartRow.quantity row) /\
  get part "cost_per_unit" = Ok (PartRow.cost_per_unit row).

(** [row] is the row a labor entry of the payload is stored as under [id]. *)
Definition labor_stored (id : string) (job : value) (row : LaborRow.t) : Prop :=
  LaborRow.recipe_id row = id /\
  get job "type" = Ok (LaborRow.type row) /\
  get job "cost_per_hour" = Ok (LaborRow.cost_per_hour row) /\
  get job "hours_needed" = Ok (LaborRow.hours_needed row).

(** A store with two recipes, ["r1"] with two parts and one labor entry and
    ["r2"] with one part. *)
Definition example_db : DB :=
  {| recipes :=
       [ RecipeRow.mk "r1" (VStr "bracket") (VNum 1.5) (VNum 10) (VNum 20)
           (VNum 30) (VStr "cm") (VNum 95) (VNum 0.1) (VStr "piece") (VStr "A1")
           "2024-01-01T00:00:00.000Z" "2024-01-01T00:00:00.000Z";
         RecipeRow.mk "r2" (VStr "hinge") (VNum 0.5) (VNum 1) (VNum 2)
           (VNum 3) (VStr "cm") (VNum 90) (VNum 0.2) (VStr "piece") (VStr "B2")
           "2024-01-02T00:00:00.000Z" "2024-01-02T00:00:00.000Z" ];
     recipe_parts :=
       [ PartRow.mk "r1" (VStr "bolt") (VNum 2) (VNum 5);
         PartRow.mk "r2" (VStr "pin") (VNum 1) (VNum 3);
         PartRow.mk "r1" (VStr "nut") (VNum 2) (VNum 1) ];
     recipe_labor :=
       [ LaborRow.mk "r1" (VStr "assembly") (VNum 20) (VNum 3) ] |}.

Definition empty_db : DB := mkDB [] [] [].

(** The recipe object [getRecipeById] builds from a row of [recipes] and the
    child rows selected for it. *)
Definition recipe_object (row : RecipeRow.t) (partsResult : list PartRow.t)
           (laborResult : list LaborRow.t) : value :=
  VObj
    [ ("id", VStr (RecipeRow.id row));
      ("name", or_else (RecipeRow.name row) (VStr ""));
      ("weight", or_else (RecipeRow.weight row) (VNum 0));
      ("dimensions", VObj
         [ ("length", or_else (RecipeRow.length_unit row) (VNum 0));
           ("width", or_else (RecipeRow.width row) (VNum 0));
           ("height", or_else (RecipeRow.height row) (VNum 0));
           ("unit", or_else (RecipeRow.dimension_unit row) (VStr "")) ]);
      ("yield_percentage", or_else (RecipeRow.yield_percentage row) (VNum 0));
      ("waste_factor", or_else (RecipeRow.waste_factor row) (VNum 0));
      ("unit_of_measure", or_else (RecipeRow.unit_of_measure row) (VStr ""));
      ("inventory_location", or_else (RecipeRow.inventory_location row) (VStr ""));
      ("parts", VArr (map part_object partsResult));
      ("labor", VArr (map labor_object laborResult));
      ("created_at", or_else (VStr (RecipeRow.created_at row)) (VStr ""));
      ("updated_at", or_else (VStr (RecipeRow.updated_at row)) (VStr "")) ].

(** An update payload that carries a parts list only. *)
Definition parts_update : value :=
  VObj [ ("parts", VArr [ ValidationSpec.part_of (VStr "washer") (VNum 4) (VNum 0.5) ]) ].

(** An update payload that carries a waste factor only. *)
Definition waste_update (w : value) : value := VObj [ ("waste_factor", w) ].

(** A create payload, valid but for its waste factor [w]. *)
Definition create_payload (w : value) : value :=
  ValidationSpec.payload ValidationSpec.good_dims w
    (VArr [ ValidationSpec.part_of (VStr "bolt") (VNum 2) (VNum 5) ])
    (VArr [ ValidationSpec.labor_of (VStr "assembly") (VNum 20) (VNum 3) ]).

End StoreSpec.

Module RepositorySpec.
Import Store StoreSpec ValidationSpec.

(** [c] leaves a component of the store as it found it, however it ends. *)
Definition keeps {T A : Type} (proj : DB -> T) (c : M A) : Prop :=
  forall db, proj (fst (c db)) = proj db.

(** No row of any table is keyed by [id]. *)
Definition fresh (id : string) (db : DB) : Prop :=
  ~ stored id db /\ parts_rows id db = [] /\ labor_rows id db = [].

(** The first row of [recipes] with this id, the one [getRecipeById] reads. *)
Definition first_row (id : string) (db : DB) : option RecipeRow.t :=
  find (fun r => RecipeRow.id r =? id) (recipes db).

(** The value an update gives a column: the payload's own property when it
    has one, and otherwise the stored value as it is read back, a falsy one
    replaced by the default. *)
Definition merged (k : string) (data stored default : value) : value :=
  match lookup k (own_props data) with
  | Some x => x
  | None => or_else stored default
  end.

(** The same for a dimension column: a [dimensions] of the payload replaces
    the stored dimensions as a whole. *)
Definition merged_dim (k : string) (data stored default : value) : value :=
  match lookup "dimensions" (own_props data) with
  | Some d => field d k
  | None => or_else stored default
  end.

(** The row an update writes over [r], [first] being the row read. *)
Definition updated_row (first r : RecipeRow.t) (data : value) (now : string)
  : RecipeRow.t :=
  RecipeRow.mk (RecipeRow.id r)
    (merged "name" data (RecipeRow.name first) (VStr ""))
    (merged "weight" data (RecipeRow.weight first) (VNum 0))
    (merged_dim "length" data (RecipeRow.length_unit first) (VNum 0))
    (merged_dim "width" data (RecipeRow.width first) (VNum 0))
    (merged_dim "height" data (RecipeRow.height first) (VNum 0))
    (merged_dim "unit" data (RecipeRow.dimension_unit first) (VStr ""))
    (merged "yield_percentage" data (RecipeRow.yield_percentage first) (VNum 0))
    (merged "waste_factor" data (RecipeRow.waste_factor first) (VNum 0))
    (merged "unit_of_measure" data (RecipeRow.unit_of_measure first) (VStr ""))
    (merged "inventory_location" data (RecipeRow.inventory_location first) (VStr ""))
    (RecipeRow.created_at r) now.

(** The row of [recipes] a create payload is bound to. *)
Definition created_row (body : value) (id now : string) : RecipeRow.t :=
  RecipeRow.mk id
    (field body "name") (field body "weight")
    (field (field body "dimensions") "length")
    (field (field body "dimensions") "width")
    (field (field body "dimensions") "height")
    (field (field body "dimensions") "unit")
    (field body "yield_percentage") (field body "waste_factor")
    (field body "unit_of_measure") (field body "inventory_location")
    now now.

(** The row of [recipe_parts] a part is bound to: its three named
    properties, whatever else it carries. *)
Definition part_row (id : string) (part : value) : PartRow.t :=
  PartRow.mk id (field part "name") (field part "quantity")
    (field part "cost_per_unit").

(** The row of [recipe_labor] a labor entry is bound to. *)
Definition labor_row (id : string) (job : value) : LaborRow.t :=
  LaborRow.mk id (field job "type") (field job "cost_per_hour")
    (field job "hours_needed").

(** The store after a recipe with its child rows was added. *)
Definition with_recipe (db : DB) (row : RecipeRow.t) (ps : list PartRow.t)
           (js : list LaborRow.t) : DB :=
  mkDB (recipes db ++ [row]) (recipe_parts db ++ ps) (recipe_labor db ++ js).

(** A value [JSON.parse] can yield: no [undefined] and no [NaN] in it. *)
Fixpoint is_json (v : value) : bool :=
  match v with
  | VUndefined => false
  | VNull | VBool _ | VStr _ => true
  | VNum x => negb (PrimFloat.is_nan x)
  | VArr l => forallb is_json l
  | VObj props => forallb (fun kv => is_json (snd kv)) props
  end.

(** A waste factor within its range: a number [x] with [0 <= x < 1]. *)
Definition waste_ok (v : value) : bool :=
  match v with
  | VNum x => ((0 <=? x) && (x <? 1))%float
  | _ => false
  end.

(** Every stored recipe has its waste factor within range. *)
Definition waste_invariant (db : DB) : Prop :=
  forall row, In row (recipes db) -> waste_ok (RecipeRow.waste_factor row) = true.

End RepositorySpec.

(* ================================================================== *)
(** * Identifiers *)
(* ================================================================== *)

Module Uuid.

(** The integer part of a number, toward zero; 0 for [NaN] and the
    infinities. *)
Definition truncate (x : float) : Z :=
  match Prim2SF x with
  | S754_finite s m e =>
      let n := (if 0 <=? e then Z.pos m * 2 ^ e else Z.pos m / 2 ^ (- e))%Z in
      if s then (- n)%Z else n
  | _ => 0%Z
  end.

(** ToInt32, which [x | 0] applies: the integer part, wrapped modulo 2^32
    into the signed range. *)
Definition ToInt32 (x : float) : Z :=
  let n := (truncate x mod 2 ^ 32)%Z in
  if (n <? 2 ^ 31)%Z then n else (n - 2 ^ 32)%Z.

(** [v.toString(16)] for an integer: lower-case digits after the sign. *)
Definition toString16 (v : Z) : string :=
  match v with
  | Z0 => "0"
  | Zpos p => HexadecimalString.NilZero.string_of_uint (N.to_hex_uint (Npos p))
  | Zneg p =>
      "-" ++ HexadecimalString.NilZero.string_of_uint (N.to_hex_uint (Npos p))
  end.

(** The callback of [replace]: [c] is the character matched, [x] what
    [Math.random()] returned. *)
Definition replacement (c : ascii) (x : float) : string :=
  let r := ToInt32 (x * 16)%float in
  let v := if Ascii.eqb c "x" then r else Z.lor (Z.land r 3) 8 in
  toString16 v.

(** [template.replace(/[xy]/g, callback)]: [random i] is what the call
    number [i] of [Math.random()] returns. *)
Fixpoint replace_xy (template : string) (random : nat -> float) (i : nat)
  : string :=
  match template with
  | EmptyString => EmptyString
  | String c rest =>
      if Ascii.eqb c "x" || Ascii.eqb c "y"
      then replacement c (random i) ++ replace_xy rest random (S i)
      else String c (replace_xy rest random i)
  end.

Definition generateUUID (random : nat -> float) : string :=
  replace_xy "xxxxxxxx-xxxx-4xxx-yxxx-xxxxxxxxxxxx" random 0.

End Uuid.

(* ================================================================== *)
(** * The request handler *)
(* ================================================================== *)

Module Http.
Import Store.

(** A response body: none, a text, or [JSON.stringify] of a value, kept as
    the value. *)
Inductive Body : Type :=
| NoBody
| Text (text : string)
| Json (data : value).

Record Response : Type := respond {
  status : nat;
  headers : list (string * string);
  body : Body
}.

(** What [fetch] reads of a request: the method, the path of the URL, and
    what [request.json()] gives (it throws on a body that is not JSON). *)
Record Request : Type := mkRequest {
  method : string;
  pathname : string;
  json : result value
}.

(** What [fetch] takes from its surroundings besides the store: the verdict
    of the rate limiter on a key, what the calls of [Math.random()] return,
    and the time. *)
Record Env : Type := mkEnv {
  limit : string -> bool;
  random : nat -> float;
  now : string
}.

Definition handleCORS (request : Request) : option Response :=
  if method request =? "OPTIONS"
  then Some (respond 200
               [ ("Access-Control-Allow-Origin", "*");
                 ("Access-Control-Allow-Methods", "GET, POST, PUT, DELETE, OPTIONS");
                 ("Access-Control-Allow-Headers", "Content-Type") ]
               NoBody)
  else None.

Definition sendJSON (data : value) (status : nat) : Response :=
  respond status
    [ ("Content-Type", "application/json");
      ("Access-Control-Allow-Origin", "*") ]
    (Json data).

(** ** Strings *)

(** [s.startsWith(p)]. *)
Definition startsWith (s p : string) : bool := prefix p s.

(** [s.endsWith(suffix)]: some tail of [s] is [suffix]. *)
Fixpoint endsWith (s suffix : string) : bool :=
  (s =? suffix)
  || match s with
     | EmptyString => false
     | String _ rest => endsWith rest suffix
     end.

(** [s.split(sep)] for a separator of one character. *)
Fixpoint split (sep : ascii) (s : string) : list string :=
  match s with
  | EmptyString => [EmptyString]
  | String c rest =>
      if Ascii.eqb c sep then EmptyString :: split sep rest
      else match split sep rest with
           | [] => [String c EmptyString]
           | first :: others => String c first :: others
           end
  end.

(** ** Reading every recipe *)

(** [ORDER BY created_at DESC], the stamps compared as texts.  Among rows of
    one stamp the store may choose; here they keep the order of the table. *)
Fixpoint insert_desc (row : RecipeRow.t) (sorted : list RecipeRow.t)
  : list RecipeRow.t :=
  match sorted with
  | [] => [row]
  | r :: rest =>
      if (RecipeRow.created_at r <=? RecipeRow.created_at row)%string
      then row :: r :: rest
      else r :: insert_desc row rest
  end.

Definition order_by_created_at_desc (rows : list RecipeRow.t) : list RecipeRow.t :=
  fold_right insert_desc [] rows.

(** [SELECT * FROM recipes ORDER BY created_at DESC]. *)
Definition select_recipes : M (list RecipeRow.t) :=
  fun db => (db, Ok (order_by_created_at_desc (recipes db))).

(** The loop of [getAllRecipes], each turn pushing one recipe. *)
Fixpoint push_recipes (recipeRows : list RecipeRow.t) : M (list value) :=
  match recipeRows with
  | [] => ret []
  | recipeRow :: rest =>
      let! partsResult := select_parts (RecipeRow.id recipeRow) in
      let! laborResult := select_labor (RecipeRow.id recipeRow) in
      let recipe :=
        VObj
          [ ("id", VStr (RecipeRow.id recipeRow));
            ("name", or_else (RecipeRow.name recipeRow) (VStr ""));
            ("weight", or_else (RecipeRow.weight recipeRow) (VNum 0));
            ("dimensions", VObj
               [ ("length", or_else (RecipeRow.length_unit recipeRow) (VNum 0));
                 ("width", or_else (RecipeRow.width recipeRow) (VNum 0));
                 ("height", or_else (RecipeRow.height recipeRow) (VNum 0));
                 ("unit", or_else (RecipeRow.dimension_unit recipeRow) (VStr "")) ]);
            ("yield_percentage",
             or_else (RecipeRow.yield_percentage recipeRow) (VNum 0));
            ("waste_factor", or_else (RecipeRow.waste_factor recipeRow) (VNum 0));
            ("unit_of_measure",
             or_else (RecipeRow.unit_of_measure recipeRow) (VStr ""));
            ("inventory_location",
             or_else (RecipeRow.inventory_location recipeRow) (VStr ""));
            ("parts", VArr (map part_object partsResult));
            ("labor", VArr (map labor_object laborResult));
            ("created_at", or_else (VStr (RecipeRow.created_at recipeRow)) (VStr ""));
            ("updated_at", or_else (VStr (RecipeRow.updated_at recipeRow)) (VStr "")) ]
      in
      let! recipes := push_recipes rest in
      ret (recipe :: recipes)
  end.

Definition getAllRecipes : M (list value) :=
  let! recipeRows := select_recipes in
  push_recipes recipeRows.

(** ** Recipes at their declared types *)

(** The cost engine is modelled over the [Recipe] interface.  A recipe
    object is handed to it at the types the interface declares; an object
    with a field of another type is outside what is modelled ([None]). *)
Definition as_string (v : value) : option string :=
  match v with
  | VStr s => Some s
  | _ => None
  end.

Definition as_number (v : value) : option float :=
  match v with
  | VNum x => Some x
  | _ => None
  end.

Definition as_optional {A : Type} (typed : value -> option A) (v : value)
  : option (Cost.optional A) :=
  match v with
  | VUndefined => Some Cost.undefined
  | VNull => Some Cost.null
  | _ => option_map Cost.present (typed v)
  end.

Definition option_bind {A B : Type} (o : option A) (k : A -> option B) : option B :=
  match o with
  | Some a => k a
  | None => None
  end.

Notation "'let?' x ':=' o 'in' k" := (option_bind o (fun x => k))
  (at level 10, x name, o at level 100, k at level 200).

Fixpoint all_typed {A : Type} (typed : value -> option A) (l : list value)
  : option (list A) :=
  match l with
  | [] => Some []
  | v :: rest =>
      let? a := typed v in
      let? others := all_typed typed rest in
      Some (a :: others)
  end.

Definition as_array {A : Type} (typed : value -> option A) (v : value)
  : option (list A) :=
  match v with
  | VArr l => all_typed typed l
  | _ => None
  end.

Definition as_part (v : value) : option Cost.Part.t :=
  let? name := as_string (ValidationSpec.field v "name") in
  let? quantity := as_number (ValidationSpec.field v "quantity") in
  let? cost_per_unit := as_number (ValidationSpec.field v "cost_per_unit") in
  Some (Cost.Part.mk name quantity cost_per_unit).

Definition as_labor (v : value) : option Cost.Labor.t :=
  let? type := as_string (ValidationSpec.field v "type") in
  let? cost_per_hour := as_number (ValidationSpec.field v "cost_per_hour") in
  let? hours_needed := as_number (ValidationSpec.field v "hours_needed") in
  Some (Cost.Labor.mk type cost_per_hour hours_needed).

Definition as_dimensions (v : value) : option Cost.Dimensions.t :=
  let? length := as_number (ValidationSpec.field v "length") in
  let? width := as_number (ValidationSpec.field v "width") in
  let? height := as_number (ValidationSpec.field v "height") in
  let? unit := as_string (ValidationSpec.field v "unit") in
  Some (Cost.Dimensions.mk length width height unit).

Definition as_recipe (v : value) : option Cost.Recipe.t :=
  let? id := as_string (ValidationSpec.field v "id") in
  let? name := as_string (ValidationSpec.field v "name") in
  let? weight := as_number (ValidationSpec.field v "weight") in
  let? dimensions := as_dimensions (ValidationSpec.field v "dimensions") in
  let? yield_percentage := as_number (ValidationSpec.field v "yield_percentage") in
  let? waste_factor := as_optional as_number (ValidationSpec.field v "waste_factor") in
  let? unit_of_measure :=
    as_optional as_string (ValidationSpec.field v "unit_of_measure") in
  let? inventory_location :=
    as_string (ValidationSpec.field v "inventory_location") in
  let? parts := as_array as_part (ValidationSpec.field v "parts") in
  let? labor := as_array as_labor (ValidationSpec.field v "labor") in
  let? created_at := as_string (ValidationSpec.field v "created_at") in
  let? updated_at := as_string (ValidationSpec.field v "updated_at") in
  Some (Cost.Recipe.mk id name weight dimensions yield_percentage waste_factor
          unit_of_measure inventory_location parts labor created_at updated_at).

(** The objects the cost routes send. *)
Definition optional_number (o : Cost.optional float) : value :=
  match o with
  | Cost.undefined => VUndefined
  | Cost.null => VNull
  | Cost.present x => VNum x
  end.

Definition breakdown_value (b : Cost.RecipeCostBreakdown.t) : value :=
  let summary := Cost.RecipeCostBreakdown.cost_summary b in
  VObj
    [ ("recipe_id", VStr (Cost.RecipeCostBreakdown.recipe_id b));
      ("recipe_name", VStr (Cost.RecipeCostBreakdown.recipe_name b));
      ("cost_summary", VObj
         [ ("subtotal", VNum (Cost.CostSummary.subtotal summary));
           ("waste_factor", optional_number (Cost.CostSummary.waste_factor summary));
           ("waste_amount", VNum (Cost.CostSummary.waste_amount summary));
           ("total", VNum (Cost.CostSummary.total summary));
           ("currency", VStr (Cost.CostSummary.currency summary));
           ("unit_of_measure", VStr (Cost.CostSummary.unit_of_measure summary)) ]) ].

Definition item_value (item : Cost.SummaryItem.t) : value :=
  VObj
    [ ("recipe_id", VStr (Cost.SummaryItem.recipe_id item));
      ("recipe_name", VStr (Cost.SummaryItem.recipe_name item));
      ("total_cost", VNum (Cost.SummaryItem.total_cost item));
      ("parts_cost", VNum (Cost.SummaryItem.parts_cost item));
      ("labor_cost", VNum (Cost.SummaryItem.labor_cost item));
      ("unit_of_measure", VStr (Cost.SummaryItem.unit_of_measure item)) ].

Definition report_value (report : Cost.FleetSummary.t) : value :=
  let totals := Cost.FleetSummary.totals report in
  VObj
    [ ("recipes", VArr (map item_value (Cost.FleetSummary.recipes report)));
      ("totals", VObj
         [ ("total_parts_cost", VNum (Cost.Totals.total_parts_cost totals));
           ("total_labor_cost", VNum (Cost.Totals.total_labor_cost totals));
           ("grand_total", VNum (Cost.Totals.grand_total totals));
           ("average_cost_per_recipe",
            VNum (Cost.Totals.average_cost_per_recipe totals));
           ("total_recipes", VNum (number_of_nat (Cost.Totals.total_recipes totals)));
           ("currency", VStr (Cost.Totals.currency totals)) ]) ].

(** ** The handler *)

(** A step of the handler: as a step over the store, or outside what is
    modelled. *)
Definition H (A : Type) : Type := DB -> option (DB * result A).

Definition retH {A : Type} (a : A) : H A := fun db => Some (db, Ok a).

Definition bindH {A B : Type} (c : H A) (k : A -> H B) : H B :=
  fun db =>
    match c db with
    | Some (db', Ok a) => k a db'
    | Some (db', Throw e) => Some (db', Throw e)
    | None => None
    end.

(** An [await] of a repository function. *)
Definition await {A : Type} (c : M A) : H A := fun db => Some (c db).

(** A value read at its declared type. *)
Definition typed {A : Type} (o : option A) : H A :=
  fun db =>
    match o with
    | Some a => Some (db, Ok a)
    | None => None
    end.

Notation "'let^' x ':=' c 'in' k" := (bindH c (fun x => k))
  (at level 10, x name, c at level 100, k at level 200).

Definition dq : string := String (ascii_of_nat 34) EmptyString.

(** The page of [GET /]. *)
Definition info_page : string :=
  "
                    <!DOCTYPE html>
                    <html>
                    <head>
                        <title>Recipe Cost Calculator</title>
                        <meta charset=" ++ dq ++
  "UTF-8" ++ dq ++
  ">
                        <meta name=" ++ dq ++
  "viewport" ++ dq ++
  " content=" ++ dq ++
  "width=device-width, initial-scale=1.0" ++ dq ++
  ">
                    </head>
                    <body>
                        <h1>Recipe Cost Calculator API</h1>
                        <p>API is running. Use the endpoints below:</p>
                        <ul>
                            <li>GET /api/recipes - Get all recipes</li>
                            <li>POST /api/recipes - Create recipe</li>
                            <li>GET /api/recipes/:id - Get recipe</li>
                            <li>PUT /api/recipes/:id - Update recipe</li>
                            <li>DELETE /api/recipes/:id - Delete recipe</li>
                        </ul>
                    </body>
                    </html>
                ".

Definition not_found (what : string) : Response :=
  sendJSON (VObj [("error", VStr what)]) 404.

Definition validation_error (validation : Validation) : Response :=
  sendJSON (VObj [("error", match message validation with
                            | Some m => VStr m
                            | None => VUndefined
                            end)]) 400.

(** The branches of the [try] block, each under the test that guards it in
    [routes] below. *)

(** [GET /]. *)
Definition info_route : H Response :=
  retH (respond 200
          [ ("Content-Type", "text/html"); ("Access-Control-Allow-Origin", "*") ]
          (Text info_page)).

(** [GET /api/recipes/cost/summary]. *)
Definition cost_summary_route : H Response :=
  let^ recipes := await getAllRecipes in
  let^ typed_recipes := typed (all_typed as_recipe recipes) in
  let^ report := await (lift (Cost.cost_summary_report typed_recipes)) in
  retH (sendJSON (report_value report) 200).

(** [GET /api/recipes/:id/cost]. *)
Definition recipe_cost_route (pathname : string) : H Response :=
  let pathParts := split "/" pathname in
  let id := nth 3 pathParts "" in
  let^ recipe := await (getRecipeById id) in
  if negb (truthy recipe) then retH (not_found "Recipe not found") else
  let^ typed_recipe := typed (as_recipe recipe) in
  let^ costBreakdown :=
    await (lift (Cost.calculateRecipeCost (Some typed_recipe))) in
  retH (sendJSON (breakdown_value costBreakdown) 200).

(** [GET /api/recipes]. *)
Definition list_route : H Response :=
  let^ recipes := await getAllRecipes in
  retH (sendJSON (VArr recipes) 200).

(** [GET /api/recipes/:id]. *)
Definition recipe_route (pathname : string) : H Response :=
  let pathParts := split "/" pathname in
  let id := nth 3 pathParts "" in
  let^ recipe := await (getRecipeById id) in
  if negb (truthy recipe) then retH (not_found "Recipe not found")
  else retH (sendJSON recipe 200).

(** [POST /api/recipes]. *)
Definition create_route (request : Request) (env : Env) : H Response :=
  let^ body := await (lift (json request)) in
  let^ validation := await (lift (validateRecipe body)) in
  if negb (valid validation) then retH (validation_error validation) else
  let^ newRecipe :=
    await (createRecipe body (Uuid.generateUUID (random env)) (now env)) in
  retH (sendJSON newRecipe 201).

(** [PUT /api/recipes/:id]. *)
Definition update_route (request : Request) (env : Env) : H Response :=
  let pathParts := split "/" (pathname request) in
  let id := nth 3 pathParts "" in
  let^ body := await (lift (json request)) in
  let^ validation := await (lift (validatePartialRecipe body)) in
  if negb (valid validation) then retH (validation_error validation) else
  let^ updatedRecipe := await (updateRecipe id body (now env)) in
  if negb (truthy updatedRecipe) then retH (not_found "Recipe not found")
  else retH (sendJSON updatedRecipe 200).

(** [DELETE /api/recipes/:id]; the 204 response has neither body nor
    headers. *)
Definition delete_route (pathname : string) : H Response :=
  let pathParts := split "/" pathname in
  let id := nth 3 pathParts "" in
  let^ deleted := await (deleteRecipe id) in
  if negb deleted then retH (not_found "Recipe not found")
  else retH (respond 204 [] NoBody).

(** The body of the [try] block: the tests, in the order of the source.  A
    branch whose inner test on the number of path parts fails falls through
    to the tests after it. *)
Definition routes (request : Request) (env : Env) : H Response :=
  let method := method request in
  let pathname := pathname request in
  if (method =? "GET") && (pathname =? "/") then info_route
  else if (method =? "GET") && (pathname =? "/api/recipes/cost/summary") then
    cost_summary_route
  else if (method =? "GET") && startsWith pathname "/api/recipes/"
          && endsWith pathname "/cost" then
    recipe_cost_route pathname
  else if (method =? "GET") && (pathname =? "/api/recipes") then list_route
  else if (method =? "GET") && startsWith pathname "/api/recipes/"
          && (List.length (split "/" pathname) =? 4)%nat then
    recipe_route pathname
  else if (method =? "POST") && (pathname =? "/api/recipes") then
    create_route request env
  else if (method =? "PUT") && startsWith pathname "/api/recipes/"
          && (4 <=? List.length (split "/" pathname))%nat then
    update_route request env
  else if (method =? "DELETE") && startsWith pathname "/api/recipes/"
          && (4 <=? List.length (split "/" pathname))%nat then
    delete_route pathname
  else retH (not_found "Route not found").

(** [try { ... } catch (error) { ... }]: an exception becomes the 500
    response. *)
Definition try_catch (c : H Response) (db : DB) : option (DB * Response) :=
  match c db with
  | Some (db', Ok response) => Some (db', response)
  | Some (db', Throw _) =>
      Some (db', sendJSON (VObj [("error", VStr "Something went wrong!")]) 500)
  | None => None
  end.

(** [fetch]: the CORS preflight, the rate limit on the paths under [/api/],
    then the routes inside [try]. *)
Definition fetch (request : Request) (env : Env) (db : DB)
  : option (DB * Response) :=
  match handleCORS request with
  | Some corsResponse => Some (db, corsResponse)
  | None =>
      if startsWith (pathname request) "/api/"
         && negb (limit env (pathname request))
      then Some (db, respond 429 [ ("Access-Control-Allow-Origin", "*") ]
                       (Text ("429 Failure – rate limit exceeded for "
                              ++ pathname request)))
      else try_catch (routes request env) db
  end.

End Http.

(** ** Vocabulary of the statements about identifiers and requests *)

Module UuidSpec.

Definition hex_digit (c : ascii) : bool :=
  existsb (Ascii.eqb c) (list_ascii_of_string "0123456789abcdef").

(** The digits that mark the variant of RFC 4122. *)
Definition variant_digit (c : ascii) : bool :=
  existsb (Ascii.eqb c) (list_ascii_of_string "89ab").

(** [s] has the shape of [pattern]: a hexadecimal digit for each [x], a
    variant digit for each [y], and the character of the pattern itself
    elsewhere. *)
Fixpoint shaped (pattern s : string) : bool :=
  match pattern, s with
  | EmptyString, EmptyString => true
  | String p pattern', String c s' =>
      (if Ascii.eqb p "x" then hex_digit c
       else if Ascii.eqb p "y" then variant_digit c
       else Ascii.eqb p c)
      && shaped pattern' s'
  | _, _ => false
  end.

(** A version 4 identifier in its canonical text form. *)
Definition is_uuid_v4 (s : string) : bool :=
  shaped "xxxxxxxx-xxxx-4xxx-yxxx-xxxxxxxxxxxx" s.

(** What [Math.random] promises: every draw is in the interval from 0
    (included) to 1 (excluded). *)
Definition unit_draws (random : nat -> float) : Prop :=
  forall i, (0 <=? random i)%float = true /\ (random i <? 1)%float = true.

(** The characters [generateUUID] can write at all. *)
Definition uuid_char (c : ascii) : bool :=
  hex_digit c || Ascii.eqb c "-".

Definition uuid_text (s : string) : bool :=
  forallb uuid_char (list_ascii_of_string s).

(** [p] with [k] zero bits appended: the mantissa of a product by a power
    of two. *)
Fixpoint doubled (k : nat) (p : positive) : positive :=
  match k with
  | O => p
  | S k => xO (doubled k p)
  end.

End UuidSpec.

Module HttpSpec.
Import Store StoreSpec Http.

Definition cors_header : string * string :=
  ("Access-Control-Allow-Origin", "*").

(** The methods whose routes write to the store. *)
Definition writes (method : string) : bool :=
  (method =? "POST") || (method =? "PUT") || (method =? "DELETE").

(** The path of one recipe. *)
Definition recipe_path (id : string) : string := "/api/recipes/" ++ id.

(** A part of a path: a text without a slash. *)
Definition segment (s : string) : bool :=
  forallb (fun c => negb (Ascii.eqb c "/")) (list_ascii_of_string s).

(** The object [getAllRecipes] and [getRecipeById] build from a recipe row
    and the child rows keyed by its id. *)
Definition object_of (db : DB) (row : RecipeRow.t) : value :=
  recipe_object row (parts_rows (RecipeRow.id row) db)
    (labor_rows (RecipeRow.id row) db).

(** [a] is at least as new as [b]. *)
Definition newer (a b : RecipeRow.t) : Prop :=
  (RecipeRow.created_at b <=? RecipeRow.created_at a)%string = true.

(** A step that leaves the store as it found it, however it ends. *)
Definition reads {A : Type} (c : H A) : Prop :=
  forall db db' out, c db = Some (db', out) -> db' = db.

(** Every response of [c] satisfies [P]. *)
Definition answers (P : Response -> Prop) (c : H Response) : Prop :=
  forall db db' r, c db = Some (db', Ok r) -> P r.

(** A step whose responses with a status among [codes] come with the store
    as it was. *)
Definition spares (codes : list nat) (c : H Response) : Prop :=
  forall db db' r,
    c db = Some (db', Ok r) -> In (status r) codes -> db' = db.

(** The response lets a page of any origin read it. *)
Definition allows_origin (r : Response) : Prop := In cors_header (headers r).

(** Every run of [c] ends, and every response of it satisfies [P]. *)
Definition returns (P : Response -> Prop) (c : H Response) : Prop :=
  forall db, exists db' out,
    c db = Some (db', out) /\ (forall r, out = Ok r -> P r).

(** The status of the response is one of [codes]. *)
Definition status_in (codes : list nat) (r : Response) : Prop :=
  In (status r) codes.

(** The two routes that hand a stored recipe to the cost engine. *)
Definition cost_route (request : Request) : bool :=
  (method request =? "GET")
  && ((pathname request =? "/api/recipes/cost/summary")
      || (startsWith (pathname request) "/api/recipes/"
          && endsWith (pathname request) "/cost")).

(** A request with no body, as a browser sends it for [GET] and
    [DELETE]: reading its JSON fails. *)
Definition bodiless (method pathname : string) : Request :=
  mkRequest method pathname (Throw (Error "Unexpected end of JSON input")).

(** Surroundings in which the rate limiter lets every request pass. *)
Definition calm (random : nat -> float) (now : string) : Env :=
  mkEnv (fun _ => true) random now.

End HttpSpec.

(* ================================================================== *)
(** * Theorems *)
(* ================================================================== *)

(** ** Binary64 facts the cost engine rests on *)

Module FloatFacts.
Import CostSpec.

Lemma div_eucl_exact (a b : Z) : (0 < b)%Z -> Z.div_eucl (a * b) b = (a, 0%Z).
Proof.
  intros Hb.
  assert (Hnz : (b <> 0)%Z) by lia.
  pose proof (Z.div_eucl_eq (a * b) b Hnz) as H.
  generalize (Z.mod_pos_bound (a * b) b Hb).
  unfold Z.modulo. destruct (Z.div_eucl (a * b) b) as [q r]. intros Hr.
  assert (q = a) by nia. subst q. f_equal. nia.
Qed.

Lemma bounded_inv (m : positive) (e : Z) :
  bounded prec emax m e = true ->
  (Z.max (Z.pos (digits2_pos m) + e - 53) (-1074) = e /\ e <= 971)%Z.
Proof.
  unfold bounded, canonical_mantissa, fexp, emin, prec, emax.
  intros H. apply andb_true_iff in H. destruct H as [Hc He].
  apply Z.eqb_eq in Hc. apply Z.leb_le in He. split; [exact Hc | lia].
Qed.

Lemma fexp_eq (x : Z) : fexp prec emax x = Z.max (x - 53) (-1074).
Proof. reflexivity. Qed.

(** Rounding a mantissa that is already in canonical position is exact. *)
Lemma binary_round_aux_exact (s : bool) (m : positive) (e : Z) :
  bounded prec emax m e = true ->
  binary_round_aux prec emax s (Z.pos m) e loc_Exact = S754_finite s m e.
Proof.
  intros H. destruct (bounded_inv m e H) as [Hc He].
  unfold binary_round_aux, shr_fexp.
  cbn [Zdigits2 shr_record_of_loc].
  replace (fexp prec emax (Z.pos (digits2_pos m) + e) - e)%Z with 0%Z
    by (rewrite fexp_eq; lia).
  cbn [shr shr_m loc_of_shr_record shr_r shr_s round_nearest_even
       Zdigits2 shr_record_of_loc].
  replace (fexp prec emax (Z.pos (digits2_pos m) + e) - e)%Z with 0%Z
    by (rewrite fexp_eq; lia).
  cbn [shr shr_m].
  replace (e <=? emax - prec)%Z with true; [reflexivity|].
  symmetry. apply Z.leb_le. unfold emax, prec. lia.
Qed.

(** A 53-bit mantissa doubled, one exponent lower, rounds back to itself. *)
Lemma binary_round_aux_double (s : bool) (m : positive) (e : Z) :
  bounded prec emax m e = true -> Z.pos (digits2_pos m) = 53%Z ->
  binary_round_aux prec emax s (Z.pos m~0) (e - 1) loc_Exact = S754_finite s m e.
Proof.
  intros H Hd. destruct (bounded_inv m e H) as [Hc He].
  unfold binary_round_aux, shr_fexp.
  cbn [Zdigits2 shr_record_of_loc digits2_pos].
  rewrite Pos2Z.inj_succ, Hd.
  replace (fexp prec emax (Z.succ 53 + (e - 1)) - (e - 1))%Z with 1%Z
    by (rewrite fexp_eq; lia).
  cbn [shr iter_pos shr_1 orb shr_m loc_of_shr_record shr_r shr_s
       round_nearest_even Zdigits2 shr_record_of_loc].
  rewrite Hd.
  replace (e - 1 + 1)%Z with e by lia.
  replace (fexp prec emax (53 + e) - e)%Z with 0%Z
    by (rewrite fexp_eq; lia).
  cbn [shr shr_m].
  replace (e <=? emax - prec)%Z with true; [reflexivity|].
  symmetry. apply Z.leb_le. unfold emax, prec. lia.
Qed.

Lemma SFdiv_one_finite (s : bool) (m : positive) (e : Z) :
  bounded prec emax m e = true ->
  SF64div (S754_finite s m e) SFone = S754_finite s m e.
Proof.
  intros H. destruct (bounded_inv m e H) as [Hc He].
  set (d := Z.pos (digits2_pos m)) in *.
  assert (Hd : (0 < d)%Z) by (unfold d; lia).
  unfold SF64div, SFdiv, SFone, SFdiv_core_binary.
  change (Zdigits2 (Z.pos m)) with d.
  change (Zdigits2 4503599627370496) with 53%Z.
  rewrite xorb_false_r, fexp_eq.
  change IntDef.Z.div_eucl with Z.div_eucl.
  change IntDef.Z.min with Z.min.
  destruct (Z.eq_dec e (-1074)) as [E|E].
  - (* the least exponent: the quotient is the mantissa itself *)
    replace (Z.min (Z.max (d + e - (53 + -52) - 53) (-1074)) (e - -52))
      with e by lia.
    replace (e - -52 - e)%Z with 52%Z by lia.
    change (IntDef.Z.shiftl (Z.pos m) 52) with (Z.shiftl (Z.pos m) 52).
    rewrite Z.shiftl_mul_pow2 by lia.
    change (2 ^ 52)%Z with 4503599627370496%Z.
    rewrite div_eucl_exact by lia.
    change (new_location 4503599627370496 0) with loc_Exact.
    now apply binary_round_aux_exact.
  - (* a normal number: the quotient is the mantissa doubled *)
    assert (d = 53)%Z by lia.
    replace (Z.min (Z.max (d + e - (53 + -52) - 53) (-1074)) (e - -52))
      with (e - 1)%Z by lia.
    replace (e - -52 - (e - 1))%Z with 53%Z by lia.
    change (IntDef.Z.shiftl (Z.pos m) 53) with (Z.shiftl (Z.pos m) 53).
    rewrite Z.shiftl_mul_pow2 by lia.
    replace (Z.pos m * 2 ^ 53)%Z with (Z.pos m~0 * 4503599627370496)%Z by lia.
    rewrite div_eucl_exact by lia.
    change (new_location 4503599627370496 0) with loc_Exact.
    now apply binary_round_aux_double.
Qed.

Lemma SFdiv_one (x : spec_float) :
  valid_binary x = true -> SF64div x SFone = x.
Proof.
  destruct x as [s|s| |s m e]; intros H; cbn.
  - now rewrite xorb_false_r.
  - now rewrite xorb_false_r.
  - reflexivity.
  - now apply SFdiv_one_finite.
Qed.

(** Dividing by one returns the dividend, whatever it is. *)
Lemma div_one (x : float) : (x / 1)%float = x.
Proof.
  apply Prim2SF_inj. rewrite FloatAxioms.div_spec.
  change (Prim2SF 1) with SFone.
  apply SFdiv_one, Prim2SF_valid.
Qed.

Lemma SFsub_self (x : spec_float) :
  match x with
  | S754_zero _ | S754_finite _ _ _ => True
  | _ => False
  end ->
  SF64sub x x = S754_zero false.
Proof.
  destruct x as [s|s| |s m e]; intros H; try contradiction.
  - now destruct s.
  - unfold SF64sub, SFsub.
    change IntDef.Z.min with Z.min.
    rewrite Z.min_id. unfold shl_align. rewrite Z.sub_diag. cbn [fst].
    reflexivity.
Qed.

Lemma is_finite_SF (x : float) :
  PrimFloat.is_finite x = true ->
  match Prim2SF x with
  | S754_zero _ | S754_finite _ _ _ => True
  | _ => False
  end.
Proof.
  unfold PrimFloat.is_finite, PrimFloat.is_nan, PrimFloat.is_infinity.
  rewrite !FloatAxioms.eqb_spec, FloatAxioms.abs_spec.
  change (Prim2SF infinity) with (S754_infinity false).
  destruct (Prim2SF x) as [s|[]| |s m e]; cbn; easy.
Qed.

(** A finite number minus itself is [+0]. *)
Lemma sub_self (x : float) :
  PrimFloat.is_finite x = true -> (x - x)%float = 0%float.
Proof.
  intros H. apply Prim2SF_inj. rewrite FloatAxioms.sub_spec.
  now apply SFsub_self, is_finite_SF.
Qed.

(** A finite number equals itself. *)
Lemma eqb_refl_finite (x : float) :
  PrimFloat.is_finite x = true -> (x =? x)%float = true.
Proof.
  unfold PrimFloat.is_finite, PrimFloat.is_nan.
  destruct (x =? x)%float; [reflexivity | discriminate].
Qed.

End FloatFacts.

(** ** The cost engine *)

Module CostFacts.
Import Cost CostSpec.

#[local] Open Scope float_scope.

(** [reduce] with an adding callback is the left-to-right sum. *)
Lemma reduce_sum {A : Type} (f : A -> float) (l : list A) (acc : float) :
  reduce (fun total x => total + f x) acc l = sum_from acc (map f l).
Proof.
  unfold reduce. revert acc.
  induction l as [|x l IH]; intros acc; cbn; [reflexivity | apply IH].
Qed.

Lemma number_or_zero (r : Recipe.t) :
  number_or (Recipe.waste_factor r) 0 = waste_factor_used r.
Proof.
  unfold number_or, waste_factor_used, PrimFloat.is_zero, PrimFloat.is_nan.
  destruct (Recipe.waste_factor r); reflexivity.
Qed.

Lemma string_or_piece (r : Recipe.t) :
  string_or (Recipe.unit_of_measure r) "piece" = unit_reported r.
Proof.
  unfold string_or, unit_reported.
  destruct (Recipe.unit_of_measure r); reflexivity.
Qed.

(** The breakdown [calculateRecipeCost] returns for a recipe, field by field. *)
Lemma calculateRecipeCost_eq (r : Recipe.t) :
  calculateRecipeCost (Some r) =
  Ok {| RecipeCostBreakdown.recipe_id := Recipe.id r;
        RecipeCostBreakdown.recipe_name := Recipe.name r;
        RecipeCostBreakdown.cost_summary :=
          {| CostSummary.subtotal := subtotal_of r;
             CostSummary.waste_factor := Recipe.waste_factor r;
             CostSummary.waste_amount := total_of r - subtotal_of r;
             CostSummary.total := total_of r;
             CostSummary.currency := "USD";
             CostSummary.unit_of_measure := unit_reported r |} |}.
Proof.
  unfold calculateRecipeCost, total_of, subtotal_of, parts_cost, labor_cost, fsum.
  rewrite (reduce_sum (fun p => Part.quantity p * Part.cost_per_unit p)).
  rewrite (reduce_sum (fun j => Labor.hours_needed j * Labor.cost_per_hour j)).
  rewrite number_or_zero, string_or_piece. reflexivity.
Qed.

(** C1.  For every recipe [calculateRecipeCost] returns a breakdown: its
    subtotal is the parts cost (the sum of quantity × cost_per_unit over the
    parts) plus the labor cost (the sum of hours_needed × cost_per_hour over
    the labor entries); its total is subtotal / (1 − waste_factor), the
    waste factor being taken as 0 when it is unset or falsy; its waste
    amount is total − subtotal; and it carries the recipe's id and name, the
    currency "USD", and the recipe's unit of measure, or "piece" when that
    is unset or empty.  Sums are floating-point sums taken in list order. *)
Theorem calculateRecipeCost_breakdown (r : Recipe.t) :
  exists b : RecipeCostBreakdown.t,
    calculateRecipeCost (Some r) = Ok b /\
    CostSummary.subtotal (RecipeCostBreakdown.cost_summary b)
      = parts_cost r + labor_cost r /\
    CostSummary.total (RecipeCostBreakdown.cost_summary b)
      = CostSummary.subtotal (RecipeCostBreakdown.cost_summary b)
        / (1 - waste_factor_used r) /\
    CostSummary.waste_amount (RecipeCostBreakdown.cost_summary b)
      = CostSummary.total (RecipeCostBreakdown.cost_summary b)
        - CostSummary.subtotal (RecipeCostBreakdown.cost_summary b) /\
    RecipeCostBreakdown.recipe_id b = Recipe.id r /\
    RecipeCostBreakdown.recipe_name b = Recipe.name r /\
    CostSummary.currency (RecipeCostBreakdown.cost_summary b) = "USD"%string /\
    CostSummary.unit_of_measure (RecipeCostBreakdown.cost_summary b)
      = unit_reported r.
Proof.
  eexists. split; [apply calculateRecipeCost_eq|].
  cbn. repeat split; reflexivity.
Qed.

(** The example of the spec: subtotal 70, total 87.5, waste amount 17.5. *)
Example calculateRecipeCost_example :
  exists b,
    calculateRecipeCost (Some (example_recipe (present 0.2))) = Ok b /\
    CostSummary.subtotal (RecipeCostBreakdown.cost_summary b) = 70 /\
    CostSummary.total (RecipeCostBreakdown.cost_summary b) = 87.5 /\
    CostSummary.waste_amount (RecipeCostBreakdown.cost_summary b) = 17.5 /\
    CostSummary.unit_of_measure (RecipeCostBreakdown.cost_summary b) = "piece"%string.
Proof. eexists. repeat split; vm_compute; reflexivity. Qed.

(** A call with no recipe throws the error of the source. *)
Example calculateRecipeCost_no_recipe :
  calculateRecipeCost None = Throw (Error "Recipe is required for cost calculation").
Proof. reflexivity. Qed.

Lemma summary_item_eq (r : Recipe.t) :
  summary_item r =
  Ok {| SummaryItem.recipe_id := Recipe.id r;
        SummaryItem.recipe_name := Recipe.name r;
        SummaryItem.total_cost := total_of r;
        SummaryItem.parts_cost := parts_cost r;
        SummaryItem.labor_cost := labor_cost r;
        SummaryItem.unit_of_measure := unit_reported r |}.
Proof.
  unfold summary_item. rewrite calculateRecipeCost_eq. cbn.
  unfold parts_cost, labor_cost, fsum.
  rewrite (reduce_sum (fun p => Part.quantity p * Part.cost_per_unit p)).
  rewrite (reduce_sum (fun j => Labor.hours_needed j * Labor.cost_per_hour j)).
  reflexivity.
Qed.

Lemma map_summary_item (recipes : list Recipe.t) :
  exists summary,
    map_result summary_item recipes = Ok summary /\
    List.length summary = List.length recipes /\
    map SummaryItem.total_cost summary = map total_of recipes /\
    map SummaryItem.parts_cost summary = map parts_cost recipes /\
    map SummaryItem.labor_cost summary = map labor_cost recipes.
Proof.
  induction recipes as [|r rs IH].
  - exists []. repeat split.
  - destruct IH as (summary & Hmap & Hlen & Ht & Hp & Hl).
    eexists. cbn [map_result]. rewrite summary_item_eq, Hmap. cbn [JS.bind].
    split; [reflexivity|]. cbn. rewrite Hlen, Ht, Hp, Hl. repeat split.
Qed.

(** C2.  Over any list of recipes the fleet report is produced (nothing
    throws, the empty list included) and its totals are: grand_total, the
    sum of the per-recipe totals, each the total [calculateRecipeCost] gives
    for the recipe; total_parts_cost and total_labor_cost, the sums of the
    per-recipe parts and labor costs; total_recipes, the count; currency
    "USD"; and average_cost_per_recipe, grand_total divided by the count, or
    0 for the empty list. *)
Theorem cost_summary_report_totals (recipes : list Recipe.t) :
  exists report : FleetSummary.t,
    cost_summary_report recipes = Ok report /\
    (forall r : Recipe.t,
       exists b : RecipeCostBreakdown.t,
         calculateRecipeCost (Some r) = Ok b /\
         CostSummary.total (RecipeCostBreakdown.cost_summary b) = total_of r) /\
    map SummaryItem.total_cost (FleetSummary.recipes report)
      = map total_of recipes /\
    Totals.grand_total (FleetSummary.totals report)
      = fsum (map total_of recipes) /\
    Totals.total_parts_cost (FleetSummary.totals report)
      = fsum (map parts_cost recipes) /\
    Totals.total_labor_cost (FleetSummary.totals report)
      = fsum (map labor_cost recipes) /\
    Totals.total_recipes (FleetSummary.totals report) = List.length recipes /\
    Totals.currency (FleetSummary.totals report) = "USD"%string /\
    Totals.average_cost_per_recipe (FleetSummary.totals report)
      = match recipes with
        | [] => 0
        | _ :: _ =>
            fsum (map total_of recipes) / number_of_nat (List.length recipes)
        end.
Proof.
  destruct (map_summary_item recipes) as (summary & Hmap & Hlen & Ht & Hp & Hl).
  unfold cost_summary_report. rewrite Hmap. cbn [JS.bind].
  eexists. split; [reflexivity|].
  split.
  { intros r. eexists. split; [apply calculateRecipeCost_eq | reflexivity]. }
  cbn.
  rewrite !reduce_sum, Ht, Hp, Hl, Hlen. unfold fsum.
  repeat split.
  destruct recipes; reflexivity.
Qed.

(** The empty fleet: no recipes, every total 0, and an average of 0. *)
Example cost_summary_report_empty :
  cost_summary_report [] =
  Ok {| FleetSummary.recipes := [];
        FleetSummary.totals := Totals.mk 0 0 0 0 0 "USD" |}.
Proof. reflexivity. Qed.

(** C3, the counterexample.  A recipe whose waste factor is 0 and whose only
    part costs 1e308 × 10: the subtotal overflows to Infinity, so does the
    total, and the waste amount Infinity − Infinity is NaN, not 0. *)
Lemma zero_waste_overflow :
  ~ (forall (r : Recipe.t) (b : RecipeCostBreakdown.t),
       waste_factor_is_zero r ->
       calculateRecipeCost (Some r) = Ok b ->
       (CostSummary.total (RecipeCostBreakdown.cost_summary b)
          =? CostSummary.subtotal (RecipeCostBreakdown.cost_summary b)) = true /\
       (CostSummary.waste_amount (RecipeCostBreakdown.cost_summary b) =? 0) = true).
Proof.
  intros H.
  destruct (calculateRecipeCost (Some overflowing_recipe)) as [b|e] eqn:E;
    [|discriminate E].
  assert (Hz : waste_factor_is_zero overflowing_recipe)
    by (exists 0; split; reflexivity).
  destruct (H overflowing_recipe b Hz E) as [_ Hw].
  injection E as <-. vm_compute in Hw. discriminate Hw.
Qed.

(** What the code computes on that recipe. *)
Example zero_waste_overflow_values :
  exists b,
    calculateRecipeCost (Some overflowing_recipe) = Ok b /\
    CostSummary.subtotal (RecipeCostBreakdown.cost_summary b) = infinity /\
    CostSummary.total (RecipeCostBreakdown.cost_summary b) = infinity /\
    CostSummary.waste_amount (RecipeCostBreakdown.cost_summary b) = nan.
Proof. eexists. repeat split; vm_compute; reflexivity. Qed.

(** C3, amended.  For every recipe whose waste factor equals 0 and whose
    subtotal is a finite number, the breakdown has total == subtotal (the
    same number) and waste_amount == 0 (it is +0). *)
Theorem zero_waste_total_is_subtotal (r : Recipe.t) :
  waste_factor_is_zero r ->
  PrimFloat.is_finite (subtotal_of r) = true ->
  exists b : RecipeCostBreakdown.t,
    calculateRecipeCost (Some r) = Ok b /\
    CostSummary.subtotal (RecipeCostBreakdown.cost_summary b) = subtotal_of r /\
    CostSummary.total (RecipeCostBreakdown.cost_summary b)
      = CostSummary.subtotal (RecipeCostBreakdown.cost_summary b) /\
    (CostSummary.total (RecipeCostBreakdown.cost_summary b)
       =? CostSummary.subtotal (RecipeCostBreakdown.cost_summary b)) = true /\
    CostSummary.waste_amount (RecipeCostBreakdown.cost_summary b) = 0 /\
    (CostSummary.waste_amount (RecipeCostBreakdown.cost_summary b) =? 0) = true.
Proof.
  intros (x & Hx & Hzero) Hfin.
  assert (Htotal : total_of r = subtotal_of r).
  { unfold total_of, waste_factor_used. rewrite Hx, Hzero. cbn [orb].
    change (1 - 0) with 1. apply FloatFacts.div_one. }
  eexists. split; [apply calculateRecipeCost_eq|].
  cbn [RecipeCostBreakdown.cost_summary CostSummary.subtotal CostSummary.total
       CostSummary.waste_amount].
  rewrite Htotal, (FloatFacts.sub_self _ Hfin), (FloatFacts.eqb_refl_finite _ Hfin).
  repeat split.
Qed.

Lemma zero_waste_total_is_subtotal_witness :
  exists b : RecipeCostBreakdown.t,
    calculateRecipeCost (Some (example_recipe (present 0))) = Ok b /\
    CostSummary.subtotal (RecipeCostBreakdown.cost_summary b)
      = subtotal_of (example_recipe (present 0)) /\
    CostSummary.total (RecipeCostBreakdown.cost_summary b)
      = CostSummary.subtotal (RecipeCostBreakdown.cost_summary b) /\
    (CostSummary.total (RecipeCostBreakdown.cost_summary b)
       =? CostSummary.subtotal (RecipeCostBreakdown.cost_summary b)) = true /\
    CostSummary.waste_amount (RecipeCostBreakdown.cost_summary b) = 0 /\
    (CostSummary.waste_amount (RecipeCostBreakdown.cost_summary b) =? 0) = true.
Proof.
  apply (zero_waste_total_is_subtotal (example_recipe (present 0))).
  - exists 0. split; reflexivity.
  - vm_compute. reflexivity.
Defined.

(** C10, the counterexample.  A recipe with no waste factor whose parts
    cost Infinity and -Infinity: the subtotal is NaN, the total NaN / 1 is
    NaN, and NaN == NaN is false. *)
Lemma unset_waste_factor_nan :
  ~ (forall (r : Recipe.t) (b : RecipeCostBreakdown.t),
       Recipe.waste_factor r = undefined \/ Recipe.waste_factor r = null ->
       calculateRecipeCost (Some r) = Ok b ->
       (CostSummary.total (RecipeCostBreakdown.cost_summary b)
          =? CostSummary.subtotal (RecipeCostBreakdown.cost_summary b)) = true).
Proof.
  intros H.
  destruct (calculateRecipeCost (Some cancelling_recipe)) as [b|e] eqn:E;
    [|discriminate E].
  specialize (H cancelling_recipe b (or_introl eq_refl) E).
  injection E as <-. vm_compute in H. discriminate H.
Qed.

(** What the code computes on that recipe. *)
Example unset_waste_factor_nan_values :
  exists b,
    calculateRecipeCost (Some cancelling_recipe) = Ok b /\
    CostSummary.subtotal (RecipeCostBreakdown.cost_summary b) = nan /\
    CostSummary.total (RecipeCostBreakdown.cost_summary b) = nan /\
    CostSummary.waste_factor (RecipeCostBreakdown.cost_summary b) = undefined.
Proof. eexists. repeat split; vm_compute; reflexivity. Qed.

(** C10, amended.  The default 0 is applied only where the total is
    computed.  For every recipe whose waste factor is unset (undefined or
    null): the breakdown's subtotal is the recipe's parts cost plus labor
    cost, its total is that very number, and [cost_summary.waste_factor] is
    the recipe's own unset value, not 0.  So [total == subtotal] holds
    whenever the subtotal is a number, Infinity included, and fails exactly
    when it is NaN. *)
Theorem unset_waste_factor_copied_through (r : Recipe.t) :
  Recipe.waste_factor r = undefined \/ Recipe.waste_factor r = null ->
  exists b : RecipeCostBreakdown.t,
    calculateRecipeCost (Some r) = Ok b /\
    CostSummary.subtotal (RecipeCostBreakdown.cost_summary b) = subtotal_of r /\
    CostSummary.total (RecipeCostBreakdown.cost_summary b) = subtotal_of r /\
    (CostSummary.total (RecipeCostBreakdown.cost_summary b)
       =? CostSummary.subtotal (RecipeCostBreakdown.cost_summary b))
    = negb (PrimFloat.is_nan (subtotal_of r)) /\
    CostSummary.waste_factor (RecipeCostBreakdown.cost_summary b)
      = Recipe.waste_factor r /\
    CostSummary.waste_factor (RecipeCostBreakdown.cost_summary b) <> present 0.
Proof.
  intros Hunset.
  assert (Hused : waste_factor_used r = 0)
    by (unfold waste_factor_used; destruct Hunset as [-> | ->]; reflexivity).
  eexists. split; [apply calculateRecipeCost_eq|].
  cbn [RecipeCostBreakdown.cost_summary CostSummary.subtotal CostSummary.total
       CostSummary.waste_factor].
  unfold total_of. rewrite Hused. change (1 - 0) with 1.
  rewrite FloatFacts.div_one.
  repeat split.
  - unfold PrimFloat.is_nan. now rewrite negb_involutive.
  - destruct Hunset as [-> | ->]; discriminate.
Qed.

Lemma unset_waste_factor_copied_through_witness :
  exists b : RecipeCostBreakdown.t,
    calculateRecipeCost (Some (example_recipe undefined)) = Ok b /\
    CostSummary.subtotal (RecipeCostBreakdown.cost_summary b)
      = subtotal_of (example_recipe undefined) /\
    CostSummary.total (RecipeCostBreakdown.cost_summary b)
      = subtotal_of (example_recipe undefined) /\
    (CostSummary.total (RecipeCostBreakdown.cost_summary b)
       =? CostSummary.subtotal (RecipeCostBreakdown.cost_summary b))
    = negb (PrimFloat.is_nan (subtotal_of (example_recipe undefined))) /\
    CostSummary.waste_factor (RecipeCostBreakdown.cost_summary b)
      = Recipe.waste_factor (example_recipe undefined) /\
    CostSummary.waste_factor (RecipeCostBreakdown.cost_summary b) <> present 0.
Proof.
  apply (unset_waste_factor_copied_through (example_recipe undefined)).
  left. reflexivity.
Defined.

(** On the example recipe the subtotal is 70, a number, so the comparison
    holds. *)
Example unset_waste_factor_example :
  exists b,
    calculateRecipeCost (Some (example_recipe undefined)) = Ok b /\
    CostSummary.subtotal (RecipeCostBreakdown.cost_summary b) = 70 /\
    (CostSummary.total (RecipeCostBreakdown.cost_summary b)
       =? CostSummary.subtotal (RecipeCostBreakdown.cost_summary b)) = true.
Proof. eexists. repeat split; vm_compute; reflexivity. Qed.

End CostFacts.

(** ** Validation *)

Module ValidationFacts.
Import ValidationSpec.

Lemma get_obj (props : list (string * value)) (k : string) :
  get (VObj props) k = Ok (prop props k).
Proof. reflexivity. Qed.

(** [filter] with a callback that never throws is the list filter. *)
Lemma filter_pure (f : string -> result bool) (p : string -> bool) (l : list string) :
  (forall x, f x = Ok (p x)) -> JS.filter f l = Ok (List.filter p l).
Proof.
  intros Hf. induction l as [|x l IH]; cbn; [reflexivity|].
  rewrite Hf, IH. cbn. destruct (p x); reflexivity.
Qed.

Lemma none_missing (p : string -> bool) (l : list string) :
  (0 <? List.length (List.filter (fun x => negb (p x)) l))%nat = negb (forallb p l).
Proof.
  induction l as [|x l IH]; cbn; [reflexivity|].
  destruct (p x); cbn; [exact IH | reflexivity].
Qed.

(** The dimensions test of full validation is the negation of the shape
    rule, and never throws. *)
Lemma dims_check_full (dims : value) :
  (if negb (truthy dims) then Ok true else dims_incomplete dims)
  = Ok (negb (dims_ok dims)).
Proof.
  destruct dims as [| |b|x|s|l|d]; cbn [truthy negb dims_ok]; try reflexivity.
  - destruct b; reflexivity.
  - destruct (negb _); reflexivity.
  - destruct (negb _); reflexivity.
  - unfold dims_incomplete. cbn [typeof String.eqb Ascii.eqb Bool.eqb negb get JS.bind].
    destruct (truthy _); reflexivity.
  - unfold dims_incomplete. rewrite !get_obj. cbn.
    destruct (truthy (prop d "length")), (truthy (prop d "width")),
      (truthy (prop d "height")), (truthy (prop d "unit")); reflexivity.
Qed.

(** The callback on parts: it throws on [null] and [undefined], and
    otherwise answers the negation of the shape rule. *)
Lemma part_malformed_eq (p : value) :
  part_malformed p = if nullish p then Throw TypeError else Ok (negb (part_ok p)).
Proof.
  destruct p as [| |b|x|s|l|f]; try reflexivity.
  unfold part_malformed. rewrite !get_obj. cbn.
  destruct (truthy (prop f "name")), (is_undefined (prop f "quantity")),
    (is_undefined (prop f "cost_per_unit")); reflexivity.
Qed.

Lemma labor_malformed_eq (j : value) :
  labor_malformed j = if nullish j then Throw TypeError else Ok (negb (labor_ok j)).
Proof.
  destruct j as [| |b|x|s|l|f]; try reflexivity.
  unfold labor_malformed. rewrite !get_obj. cbn.
  destruct (truthy (prop f "type")), (is_undefined (prop f "cost_per_hour")),
    (is_undefined (prop f "hours_needed")); reflexivity.
Qed.

Lemma part_ok_not_nullish (p : value) : nullish p = true -> part_ok p = false.
Proof. destruct p; cbn; congruence. Qed.

Lemma labor_ok_not_nullish (j : value) : nullish j = true -> labor_ok j = false.
Proof. destruct j; cbn; congruence. Qed.

Section Elements.

Variable malformed : value -> result bool.
Variable ok : value -> bool.
Hypothesis malformed_eq :
  forall x, malformed x = if nullish x then Throw TypeError else Ok (negb (ok x)).
Hypothesis ok_not_nullish : forall x, nullish x = true -> ok x = false.

(** [some] finds no malformed element exactly when every element is well
    shaped. *)
Lemma some_false_iff (l : list value) :
  some malformed l = Ok false <-> forallb ok l = true.
Proof.
  induction l as [|x l IH]; cbn; [tauto|].
  rewrite malformed_eq. destruct (nullish x) eqn:Hn.
  - rewrite (ok_not_nullish x Hn). cbn. split; discriminate.
  - cbn. destruct (ok x); cbn; [exact IH|]. split; discriminate.
Qed.

(** Over elements that are neither [null] nor [undefined], [some] returns. *)
Lemma some_returns (l : list value) :
  forallb (fun x => negb (nullish x)) l = true ->
  exists b, some malformed l = Ok b.
Proof.
  induction l as [|x l IH]; cbn; [eauto|].
  intros H. apply andb_true_iff in H. destruct H as [Hx Hl].
  rewrite malformed_eq. destruct (nullish x); [discriminate Hx|]. cbn.
  destruct (ok x); cbn; eauto.
Qed.

(** [some] over any list: it throws when the first element that is not
    well shaped is [null] or [undefined], and otherwise tells whether there
    is such an element. *)
Lemma some_scan (l : list value) :
  some malformed l =
  if stumbles ok (VArr l) then Throw TypeError else Ok (negb (forallb ok l)).
Proof.
  unfold stumbles, first_malformed.
  induction l as [|x l IH]; cbn [some find forallb]; [reflexivity|].
  rewrite malformed_eq. destruct (nullish x) eqn:Hn.
  - rewrite (ok_not_nullish x Hn). cbn [negb]. rewrite Hn. reflexivity.
  - cbn [JS.bind]. destruct (ok x); cbn [negb andb].
    + exact IH.
    + rewrite Hn. reflexivity.
Qed.

Lemma bad_array_scan (v : value) :
  bad_array malformed v =
  if stumbles ok v then Throw TypeError else Ok (negb (all_ok ok v)).
Proof. destruct v; try reflexivity. apply some_scan. Qed.

Lemma bad_array_false_iff (v : value) :
  bad_array malformed v = Ok false <-> all_ok ok v = true.
Proof.
  destruct v; cbn; try (split; discriminate). apply some_false_iff.
Qed.

Lemma bad_array_returns (v : value) :
  no_nullish_element v = true -> exists b, bad_array malformed v = Ok b.
Proof.
  destruct v; cbn; eauto using some_returns.
Qed.

End Elements.

(** Full validation of an object payload, check by check. *)
Lemma validateRecipe_obj (props : list (string * value)) :
  validateRecipe (VObj props) =
  if negb (has_required props) then
    Ok (reject ("Missing required fields: " ++
                join ", " (List.filter
                             (fun f => negb match lookup f props with
                                            | Some _ => true
                                            | None => false
                                            end)
                             requiredFields)))
  else if negb (dims_ok (prop props "dimensions")) then Ok (reject dimensions_message)
  else
    let* bad_parts := bad_array part_malformed (prop props "parts") in
    if bad_parts then Ok (reject parts_message) else
    let* bad_labor := bad_array labor_malformed (prop props "labor") in
    if bad_labor then Ok (reject labor_message) else Ok accept.
Proof.
  unfold validateRecipe.
  rewrite (filter_pure _ (fun f => negb match lookup f props with
                                        | Some _ => true
                                        | None => false
                                        end)) by reflexivity.
  cbn [JS.bind]. rewrite none_missing. fold (has_required props).
  destruct (has_required props); cbn [negb]; [|reflexivity].
  rewrite !get_obj. cbn [JS.bind].
  rewrite dims_check_full. cbn [JS.bind].
  destruct (dims_ok (prop props "dimensions")); reflexivity.
Qed.

(** An array has none of the required fields. *)
Lemma validateRecipe_arr (l : list value) :
  exists msg, validateRecipe (VArr l) = Ok (reject msg).
Proof. eexists. reflexivity. Qed.

(** Full validation accepts exactly the payloads of the right shape. *)
Lemma validateRecipe_accept_iff (recipe : value) :
  validateRecipe recipe = Ok accept <-> shape_ok recipe = true.
Proof.
  destruct recipe as [| |b|x|s|l|props]; try (cbn; split; discriminate).
  rewrite validateRecipe_obj. cbn [shape_ok].
  destruct (has_required props); cbn [negb andb]; [|split; discriminate].
  destruct (dims_ok (prop props "dimensions")); cbn [negb andb];
    [|split; discriminate].
  pose proof (bad_array_false_iff _ _ part_malformed_eq part_ok_not_nullish
                (prop props "parts")) as [Hp1 Hp2].
  pose proof (bad_array_false_iff _ _ labor_malformed_eq labor_ok_not_nullish
                (prop props "labor")) as [Hl1 Hl2].
  destruct (bad_array part_malformed (prop props "parts")) as [[|]|e];
    destruct (all_ok part_ok (prop props "parts"));
    cbn [JS.bind andb];
    try (split; discriminate);
    try (specialize (Hp2 eq_refl); discriminate Hp2);
    try (specialize (Hp1 eq_refl); discriminate Hp1).
  destruct (bad_array labor_malformed (prop props "labor")) as [[|]|e];
    destruct (all_ok labor_ok (prop props "labor"));
    try (split; discriminate);
    try (specialize (Hl2 eq_refl); discriminate Hl2);
    try (specialize (Hl1 eq_refl); discriminate Hl1).
  split; reflexivity.
Qed.

(** Over elements none of which is [null] or [undefined], a list that is not
    well shaped throughout is reported, not thrown on. *)
Lemma bad_array_true (malformed : value -> result bool) (ok : value -> bool)
      (v : value) :
  (forall x, malformed x = if nullish x then Throw TypeError else Ok (negb (ok x))) ->
  (forall x, nullish x = true -> ok x = false) ->
  no_nullish_element v = true -> all_ok ok v = false ->
  bad_array malformed v = Ok true.
Proof.
  intros Heq Hnull Hv Hbad.
  destruct (bad_array_returns _ _ Heq v Hv) as [[|] Hb]; [exact Hb|].
  apply (bad_array_false_iff _ _ Heq Hnull) in Hb. congruence.
Qed.

(** C4, the counterexample.  On the payload [null] the test
    ['name' in recipe] throws a TypeError: full validation does not return
    for every input. *)
Lemma validateRecipe_null_throws :
  ~ (forall payload : value, exists r, validateRecipe payload = Ok r).
Proof.
  intros H. destruct (H VNull) as [r Hr]. cbn in Hr. discriminate Hr.
Qed.

(** Inputs on which the validators throw: [null] and primitives for the
    full validator ([in] needs an object), a [null] element that the scan of
    [parts] or [labor] reaches for both, and [null] for the partial
    validator (it reads [recipe.dimensions]). *)
Example validateRecipe_throws :
  validateRecipe VNull = Throw TypeError /\
  validateRecipe (VNum 5) = Throw TypeError /\
  validateRecipe (VStr "recipe") = Throw TypeError /\
  validateRecipe (payload good_dims (VNum 0.1) (VArr [VNull]) (VArr []))
    = Throw TypeError /\
  validateRecipe (payload good_dims (VNum 0.1) (VArr []) (VArr [VNull]))
    = Throw TypeError /\
  validatePartialRecipe VNull = Throw TypeError /\
  validatePartialRecipe (VObj [("parts", VArr [VNull])]) = Throw TypeError.
Proof. repeat split; reflexivity. Qed.

(** A [null] element that is not reached raises nothing: a required field
    is missing, the dimensions are rejected first, or an element before it
    is already malformed. *)
Example validateRecipe_null_not_reached :
  validateRecipe (VObj [("parts", VArr [VNull])])
    = Ok (reject ("Missing required fields: name, weight, dimensions, "
                  ++ "yield_percentage, waste_factor, unit_of_measure, "
                  ++ "inventory_location, labor")) /\
  validateRecipe (payload VNull (VNum 0.1) (VArr [VNull]) (VArr []))
    = Ok (reject dimensions_message) /\
  validateRecipe (payload good_dims (VNum 0.1) (VArr [VObj []; VNull]) (VArr []))
    = Ok (reject parts_message) /\
  validateRecipe (payload good_dims (VNum 0.1) (VArr [VObj []])
                    (VArr [VNull]))
    = Ok (reject parts_message).
Proof. repeat split; reflexivity. Qed.

(** C4, amended.  Full validation returns [{valid: true}] or
    [{valid: false, message}] on every payload but those of [raises], and on
    those it raises a TypeError: a payload that is not an object ([null],
    [undefined], a primitive); and an object with every required field and
    well-shaped dimensions in which the first element of [parts] that is not
    a well-shaped part is [null] or [undefined], or, [parts] being well
    shaped throughout, the first element of [labor] that is not a
    well-shaped labor entry is. *)
Theorem validateRecipe_returns (recipe : value) :
  match validateRecipe recipe with
  | Ok r => raises recipe = false /\ (r = accept \/ exists msg, r = reject msg)
  | Throw e => raises recipe = true /\ e = TypeError
  end.
Proof.
  destruct recipe as [| |b|x|s|l|props]; try (cbn; split; reflexivity).
  - destruct (validateRecipe_arr l) as [msg ->]. cbn [raises]. eauto.
  - rewrite validateRecipe_obj. cbn [raises].
    destruct (has_required props); cbn [negb andb]; [|eauto].
    destruct (dims_ok (prop props "dimensions")); cbn [negb andb]; [|eauto].
    rewrite (bad_array_scan _ _ part_malformed_eq part_ok_not_nullish).
    destruct (stumbles part_ok (prop props "parts")); cbn [orb JS.bind];
      [split; reflexivity|].
    destruct (all_ok part_ok (prop props "parts")); cbn [negb andb]; [|eauto].
    rewrite (bad_array_scan _ _ labor_malformed_eq labor_ok_not_nullish).
    destruct (stumbles labor_ok (prop props "labor")); cbn [JS.bind];
      [split; reflexivity|].
    destruct (all_ok labor_ok (prop props "labor")); cbn [negb]; eauto.
Qed.

(** In particular a payload that is an object and whose lists hold no
    [null] element is answered. *)
Example validateRecipe_returns_example :
  exists r : Validation,
    validateRecipe (payload good_dims (VNum 0.1)
                      (VArr [part_of (VStr "bolt") (VNum 2) (VNum 5)])
                      (VArr [labor_of (VStr "assembly") (VNum 20) (VNum 3)]))
      = Ok r /\
    (r = accept \/ exists msg, r = reject msg).
Proof. eexists. split; [reflexivity | left; reflexivity]. Qed.

(** C5.  Full validation treats zero asymmetrically.  It accepts exactly the
    payloads of the right shape, where a dimension must be truthy while a
    part's [quantity] and [cost_per_unit] and a labor entry's
    [cost_per_hour] and [hours_needed] need only differ from [undefined],
    the [name] and the [type] being truthy.  So a payload whose dimensions
    object has a falsy [length], [width], [height] or [unit] (0 included) is
    rejected with the dimensions message; a part or labor entry whose
    numbers are 0 is well shaped; and a list with an element that is not
    well shaped (a falsy name, an [undefined] number) is rejected with the
    message of its list. *)
Theorem validateRecipe_zero_asymmetry :
  (forall recipe : value, validateRecipe recipe = Ok accept <-> shape_ok recipe = true) /\
  (forall (props d : list (string * value)) (k : string),
     has_required props = true ->
     prop props "dimensions" = VObj d ->
     In k ["length"; "width"; "height"; "unit"] ->
     truthy (prop d k) = false ->
     validateRecipe (VObj props) = Ok (reject dimensions_message)) /\
  truthy (VNum 0) = false /\
  (forall name : value,
     part_ok (part_of name (VNum 0) (VNum 0)) = truthy name) /\
  (forall type : value,
     labor_ok (labor_of type (VNum 0) (VNum 0)) = truthy type) /\
  (forall name cost : value,
     part_ok (part_of name VUndefined cost) = false /\
     part_ok (part_of name cost VUndefined) = false) /\
  (forall type n : value,
     labor_ok (labor_of type VUndefined n) = false /\
     labor_ok (labor_of type n VUndefined) = false) /\
  (forall props : list (string * value),
     has_required props = true ->
     dims_ok (prop props "dimensions") = true ->
     no_nullish_element (prop props "parts") = true ->
     all_ok part_ok (prop props "parts") = false ->
     validateRecipe (VObj props) = Ok (reject parts_message)) /\
  (forall props : list (string * value),
     has_required props = true ->
     dims_ok (prop props "dimensions") = true ->
     all_ok part_ok (prop props "parts") = true ->
     no_nullish_element (prop props "labor") = true ->
     all_ok labor_ok (prop props "labor") = false ->
     validateRecipe (VObj props) = Ok (reject labor_message)).
Proof.
  split; [exact validateRecipe_accept_iff|].
  split.
  { intros props d k Hreq Hdims Hk Hfalsy.
    rewrite validateRecipe_obj, Hreq, Hdims. cbn [negb dims_ok].
    assert (Hbad : truthy (prop d "length") && truthy (prop d "width")
                   && truthy (prop d "height") && truthy (prop d "unit") = false).
    { cbn [In] in Hk.
      destruct Hk as [<- | [<- | [<- | [<- | []]]]]; rewrite Hfalsy;
        rewrite ?andb_false_r; reflexivity. }
    rewrite Hbad. reflexivity. }
  split; [reflexivity|].
  split.
  { intros name. cbn. rewrite !andb_true_r. reflexivity. }
  split.
  { intros type. cbn. rewrite !andb_true_r. reflexivity. }
  split.
  { intros name cost. cbn. rewrite !andb_false_r. split; reflexivity. }
  split.
  { intros type n. cbn. rewrite !andb_false_r. split; reflexivity. }
  split.
  { intros props Hreq Hdims Hnn Hbad.
    rewrite validateRecipe_obj, Hreq, Hdims. cbn [negb].
    rewrite (bad_array_true _ _ _ part_malformed_eq part_ok_not_nullish Hnn Hbad).
    reflexivity. }
  { intros props Hreq Hdims Hparts Hnn Hbad.
    rewrite validateRecipe_obj, Hreq, Hdims. cbn [negb].
    apply (bad_array_false_iff _ _ part_malformed_eq part_ok_not_nullish) in Hparts.
    rewrite Hparts. cbn [JS.bind].
    rewrite (bad_array_true _ _ _ labor_malformed_eq labor_ok_not_nullish Hnn Hbad).
    reflexivity. }
Qed.

(** A zero length is rejected; zero quantities, costs and hours are accepted. *)
Lemma validateRecipe_zero_asymmetry_witness :
  validateRecipe
    (payload (dims_of (VNum 0) (VNum 20) (VNum 30) (VStr "cm")) (VNum 0.1)
       (VArr [part_of (VStr "bolt") (VNum 2) (VNum 5)])
       (VArr [labor_of (VStr "assembly") (VNum 20) (VNum 3)]))
    = Ok (reject dimensions_message) /\
  validateRecipe
    (payload good_dims (VNum 0.1)
       (VArr [part_of (VStr "bolt") (VNum 0) (VNum 0)])
       (VArr [labor_of (VStr "assembly") (VNum 0) (VNum 0)]))
    = Ok accept.
Proof.
  destruct validateRecipe_zero_asymmetry as (Hacc & Hdims & _).
  split.
  - apply (Hdims _ [ ("length", VNum 0); ("width", VNum 20);
                     ("height", VNum 30); ("unit", VStr "cm") ] "length").
    + reflexivity.
    + reflexivity.
    + left. reflexivity.
    + reflexivity.
  - apply Hacc. reflexivity.
Defined.

(** The same on each field, and for the other falsy values. *)
Example validateRecipe_falsy_dimensions :
  forall waste_factor parts labor : value,
    validateRecipe (payload (dims_of (VNum 10) (VNum 0) (VNum 30) (VStr "cm"))
                      waste_factor parts labor) = Ok (reject dimensions_message) /\
    validateRecipe (payload (dims_of (VNum 10) (VNum 20) (VNum (-0)) (VStr "cm"))
                      waste_factor parts labor) = Ok (reject dimensions_message) /\
    validateRecipe (payload (dims_of (VNum 10) (VNum 20) (VNum 30) (VNum 0))
                      waste_factor parts labor) = Ok (reject dimensions_message) /\
    validateRecipe (payload (dims_of (VNum 10) (VNum 20) (VNum 30) (VStr ""))
                      waste_factor parts labor) = Ok (reject dimensions_message) /\
    validateRecipe (payload VNull waste_factor parts labor)
      = Ok (reject dimensions_message).
Proof. intros. repeat split; reflexivity. Qed.

(** A part with no [quantity], and one with an empty [name], are rejected. *)
Example validateRecipe_part_presence :
  validateRecipe
    (payload good_dims (VNum 0.1)
       (VArr [VObj [("name", VStr "bolt"); ("cost_per_unit", VNum 5)]])
       (VArr [])) = Ok (reject parts_message) /\
  validateRecipe
    (payload good_dims (VNum 0.1)
       (VArr [part_of (VStr "") (VNum 2) (VNum 5)])
       (VArr [])) = Ok (reject parts_message) /\
  validateRecipe
    (payload good_dims (VNum 0.1) (VArr [])
       (VArr [VObj [("type", VStr "assembly"); ("cost_per_hour", VNum 20)]]))
    = Ok (reject labor_message).
Proof. repeat split; reflexivity. Qed.

(** The example of the spec: a payload without [labor] is rejected and the
    message names the field. *)
Example validateRecipe_missing_labor :
  validateRecipe
    (VObj [ ("name", VStr "bracket"); ("weight", VNum 1.5);
            ("dimensions", good_dims); ("yield_percentage", VNum 95);
            ("waste_factor", VNum 0.1); ("unit_of_measure", VStr "piece");
            ("inventory_location", VStr "A1"); ("parts", VArr []) ])
  = Ok (reject "Missing required fields: labor").
Proof. reflexivity. Qed.

(** Reading a property of anything but [null] and [undefined] returns. *)
Lemma get_field (v : value) (k : string) :
  nullish v = false -> get v k = Ok (field v k).
Proof. destruct v; cbn; congruence. Qed.

Lemma dims_check_partial (dims : value) :
  (if is_undefined dims then Ok false
   else if truthy dims then dims_incomplete dims else Ok false)
  = Ok (negb (is_undefined dims || negb (truthy dims) || dims_ok dims)).
Proof.
  pose proof (dims_check_full dims) as H.
  destruct (is_undefined dims); [reflexivity|].
  destruct (truthy dims); cbn in *; [exact H | reflexivity].
Qed.

Lemma array_check_partial (malformed : value -> result bool) (ok : value -> bool)
      (v : value) :
  (forall x, malformed x = if nullish x then Throw TypeError else Ok (negb (ok x))) ->
  (forall x, nullish x = true -> ok x = false) ->
  (if is_undefined v then Ok false else bad_array malformed v) = Ok false
  <-> is_undefined v || all_ok ok v = true.
Proof.
  intros Heq Hnull. destruct (is_undefined v) eqn:E; cbn; [tauto|].
  apply (bad_array_false_iff _ _ Heq Hnull).
Qed.

(** Partial validation accepts exactly the payloads of [partial_ok]. *)
Lemma validatePartialRecipe_accept_iff (recipe : value) :
  validatePartialRecipe recipe = Ok accept <-> partial_ok recipe = true.
Proof.
  unfold partial_ok. destruct (nullish recipe) eqn:Hn.
  { destruct recipe; try discriminate Hn; cbn; split; discriminate. }
  cbn [negb andb]. unfold validatePartialRecipe.
  rewrite !(get_field recipe) by exact Hn. cbn [JS.bind].
  rewrite dims_check_partial. cbn [JS.bind].
  destruct (is_undefined (field recipe "dimensions")
            || negb (truthy (field recipe "dimensions"))
            || dims_ok (field recipe "dimensions"));
    cbn [negb andb]; [|split; discriminate].
  pose proof (array_check_partial _ _ (field recipe "parts")
                part_malformed_eq part_ok_not_nullish) as [Hp1 Hp2].
  destruct (if is_undefined (field recipe "parts") then Ok false
            else bad_array part_malformed (field recipe "parts")) as [[|]|e];
    destruct (is_undefined (field recipe "parts")
              || all_ok part_ok (field recipe "parts"));
    cbn [JS.bind andb];
    try (split; discriminate);
    try (specialize (Hp2 eq_refl); discriminate Hp2);
    try (specialize (Hp1 eq_refl); discriminate Hp1).
  pose proof (array_check_partial _ _ (field recipe "labor")
                labor_malformed_eq labor_ok_not_nullish) as [Hl1 Hl2].
  destruct (if is_undefined (field recipe "labor") then Ok false
            else bad_array labor_malformed (field recipe "labor")) as [[|]|e];
    destruct (is_undefined (field recipe "labor")
              || all_ok labor_ok (field recipe "labor"));
    cbn [JS.bind andb];
    try (split; discriminate);
    try (specialize (Hl2 eq_refl); discriminate Hl2);
    try (specialize (Hl1 eq_refl); discriminate Hl1).
  unfold number_in.
  destruct (field recipe "weight") as [| |b|x|s|l|f]; cbn [is_undefined negb andb orb];
    try (split; discriminate);
    try (destruct (x <? 0)%float; cbn [negb andb]; [split; discriminate|]);
    (destruct (field recipe "yield_percentage") as [| |b'|y|s'|l'|f'];
     cbn [is_undefined negb andb orb];
     try (split; discriminate);
     try (destruct (y <? 0)%float, (100 <? y)%float; cbn [negb andb orb];
          try (split; discriminate));
     (destruct (field recipe "waste_factor") as [| |b''|z|s''|l''|f''];
      cbn [is_undefined negb andb orb];
      try (split; discriminate);
      try (destruct (z <? 0)%float, (1 <=? z)%float; cbn [negb andb orb];
           try (split; discriminate));
      split; reflexivity)).
Qed.

(** The examples of the spec and of the messages: a waste factor of 1 is
    refused (the bound is excluded), as are a negative weight and a yield
    above 100; the bounds 0 and 100 are accepted. *)
Example validatePartialRecipe_ranges :
  validatePartialRecipe (VObj [("waste_factor", VNum 1)])
    = Ok (reject "Waste factor must be a number between 0 and 1") /\
  validatePartialRecipe (VObj [("waste_factor", VNum (-0.5))])
    = Ok (reject "Waste factor must be a number between 0 and 1") /\
  validatePartialRecipe (VObj [("waste_factor", VStr "0.5")])
    = Ok (reject "Waste factor must be a number between 0 and 1") /\
  validatePartialRecipe (VObj [("waste_factor", VNum 0)]) = Ok accept /\
  validatePartialRecipe (VObj [("waste_factor", VNum 0.999)]) = Ok accept /\
  validatePartialRecipe (VObj [("weight", VNum (-1))])
    = Ok (reject "Weight must be a positive number") /\
  validatePartialRecipe (VObj [("weight", VNum 0)]) = Ok accept /\
  validatePartialRecipe (VObj [("yield_percentage", VNum 100.5)])
    = Ok (reject "Yield percentage must be a number between 0 and 100") /\
  validatePartialRecipe (VObj [("yield_percentage", VNum 100)]) = Ok accept /\
  validatePartialRecipe (VObj []) = Ok accept.
Proof. repeat split; vm_compute; reflexivity. Qed.

End ValidationFacts.

(** ** Objects *)

Module ObjectFacts.

Lemma lookup_no_key (k : string) (props : list (string * value)) :
  has_key k props = false -> lookup k props = None.
Proof.
  induction props as [|[k1 v1] rest IH]; cbn; [reflexivity|].
  intros H. apply orb_false_iff in H. destruct H as [Hk Hrest].
  rewrite (IH Hrest), Hk. reflexivity.
Qed.

Lemma lookup_app (k : string) (a b : list (string * value)) :
  lookup k (a ++ b) =
  match lookup k b with
  | Some x => Some x
  | None => lookup k a
  end.
Proof.
  induction a as [|[k1 v1] rest IH]; cbn.
  - destruct (lookup k b); reflexivity.
  - rewrite IH. destruct (lookup k b); reflexivity.
Qed.

Lemma lookup_overwrite (k k' : string) (v : value) (props : list (string * value)) :
  lookup k' (map (fun kv => if k =? fst kv then (k, v) else kv) props) =
  if k' =? k then (if has_key k props then Some v else None)
  else lookup k' props.
Proof.
  induction props as [|[k1 v1] rest IH].
  - cbn. destruct (k' =? k); reflexivity.
  - cbn [map lookup fst]. rewrite IH.
    unfold has_key. cbn [existsb fst]. fold (has_key k rest).
    destruct (k' =? k) eqn:E.
    + apply String.eqb_eq in E. subst k'.
      destruct (has_key k rest), (k =? k1) eqn:E1; cbn;
        rewrite ?String.eqb_refl, ?E1; reflexivity.
    + destruct (lookup k' rest); destruct (k =? k1) eqn:E1; cbn;
        try reflexivity.
      apply String.eqb_eq in E1. subst k1. rewrite E. reflexivity.
Qed.

(** Reading back a property after a write. *)
Lemma lookup_set_prop (k k' : string) (v : value) (props : list (string * value)) :
  lookup k' (set_prop k v props) = if k' =? k then Some v else lookup k' props.
Proof.
  unfold set_prop. destruct (has_key k props) eqn:Hk.
  - rewrite lookup_overwrite, Hk. reflexivity.
  - rewrite lookup_app. cbn. destruct (k' =? k) eqn:E; [reflexivity|].
    reflexivity.
Qed.

(** A spread writes the source's properties over the target's. *)
Lemma lookup_spread (k : string) (target : list (string * value)) (v : value) :
  lookup k (spread target v) =
  match lookup k (own_props v) with
  | Some x => Some x
  | None => lookup k target
  end.
Proof.
  unfold spread. generalize (own_props v) as l. intros l. revert target.
  induction l as [|[k1 v1] rest IH]; intros target; cbn; [reflexivity|].
  rewrite IH, lookup_set_prop.
  destruct (lookup k rest); [reflexivity|].
  destruct (k =? k1); reflexivity.
Qed.

(** A property other than [length] that reads as something defined is an own
    property of an object. *)
Lemma get_defined (v : value) (k : string) (x : value) :
  get v k = Ok x -> x <> VUndefined -> (k =? "length") = false ->
  exists props, v = VObj props /\ lookup k props = Some x.
Proof.
  intros Hget Hx Hk.
  destruct v as [| |b|n|s|l|props]; cbn in Hget; try discriminate Hget;
    try rewrite Hk in Hget; try (injection Hget as <-; congruence).
  exists props. split; [reflexivity|].
  destruct (lookup k props); injection Hget as <-; congruence.
Qed.

End ObjectFacts.

(** ** The recipe repository *)

Module StoreFacts.
Import Store StoreSpec ValidationSpec.

(** A sequence that returns has returned at each step. *)
Lemma bindM_ok {A B : Type} (c : M A) (k : A -> M B) (db db' : DB) (b : B) :
  bindM c k db = (db', Ok b) ->
  exists db1 a, c db = (db1, Ok a) /\ k a db1 = (db', Ok b).
Proof.
  unfold bindM. destruct (c db) as [db1 [a|e]]; [eauto | discriminate].
Qed.

Lemma lift_ok {A : Type} (r : result A) (db db' : DB) (a : A) :
  lift r db = (db', Ok a) -> db' = db /\ r = Ok a.
Proof. unfold lift. intros [= -> ->]. split; reflexivity. Qed.

(** One step of a sequence that returned, the step being a pure read. *)
Tactic Notation "step_lift" hyp(H) "as" ident(x) ident(Hx) :=
  let d := fresh "d" in
  apply bindM_ok in H as (d & x & Hx & H);
  apply lift_ok in Hx as [-> Hx].

Lemma find_stored (id : string) (db : DB) :
  stored id db ->
  exists row, find (fun r => RecipeRow.id r =? id) (recipes db) = Some row.
Proof.
  unfold stored. induction (recipes db) as [|r rs IH]; cbn; [contradiction|].
  intros [Hr | Hin].
  - rewrite Hr, String.eqb_refl. eauto.
  - destruct (RecipeRow.id r =? id); eauto.
Qed.

(** [getRecipeById] reads only; for a stored recipe it returns an object. *)
Lemma getRecipeById_reads (id : string) (db : DB) :
  exists v, getRecipeById id db = (db, Ok v).
Proof.
  unfold getRecipeById, bindM, select_recipe, select_parts, select_labor, ret.
  destruct (find _ (recipes db)); eauto.
Qed.

Lemma getRecipeById_stored (id : string) (db : DB) :
  stored id db ->
  exists props, getRecipeById id db = (db, Ok (VObj props)).
Proof.
  intros H. destruct (find_stored id db H) as [row Hrow].
  unfold getRecipeById, bindM, select_recipe, select_parts, select_labor, ret.
  rewrite Hrow. eauto.
Qed.

(** The loop over the parts appends one row per part, in order, and touches
    nothing else. *)
Lemma for_each_insert_part (id : string) (ps : list value) (db db' : DB) (u : unit) :
  for_each (fun part =>
              let! n := lift (get part "name") in
              let! q := lift (get part "quantity") in
              let! c := lift (get part "cost_per_unit") in
              insert_part (PartRow.mk id n q c)) ps db = (db', Ok u) ->
  exists rows,
    Forall2 (part_stored id) ps rows /\
    db' = mkDB (recipes db) (recipe_parts db ++ rows) (recipe_labor db).
Proof.
  revert db. induction ps as [|p ps IH]; intros db H.
  - cbn in H. injection H as <- _. exists []. split; [constructor|].
    rewrite app_nil_r. destruct db; reflexivity.
  - cbn [for_each] in H.
    apply bindM_ok in H as (db1 & [] & Hbody & Hrest).
    step_lift Hbody as n Hn.
    step_lift Hbody as q Hq.
    step_lift Hbody as c Hc.
    unfold insert_part in Hbody. injection Hbody as <-.
    destruct (IH _ Hrest) as (rows & Hrows & ->). cbn.
    exists (PartRow.mk id n q c :: rows). split.
    + constructor; [|exact Hrows]. repeat split; assumption.
    + rewrite <- app_assoc. reflexivity.
Qed.

Lemma for_each_insert_labor (id : string) (js : list value) (db db' : DB) (u : unit) :
  for_each (fun job =>
              let! t := lift (get job "type") in
              let! c := lift (get job "cost_per_hour") in
              let! h := lift (get job "hours_needed") in
              insert_labor (LaborRow.mk id t c h)) js db = (db', Ok u) ->
  exists rows,
    Forall2 (labor_stored id) js rows /\
    db' = mkDB (recipes db) (recipe_parts db) (recipe_labor db ++ rows).
Proof.
  revert db. induction js as [|j js IH]; intros db H.
  - cbn in H. injection H as <- _. exists []. split; [constructor|].
    rewrite app_nil_r. destruct db; reflexivity.
  - cbn [for_each] in H.
    apply bindM_ok in H as (db1 & [] & Hbody & Hrest).
    step_lift Hbody as t Ht.
    step_lift Hbody as c Hc.
    step_lift Hbody as h Hh.
    unfold insert_labor in Hbody. injection Hbody as <-.
    destruct (IH _ Hrest) as (rows & Hrows & ->). cbn.
    exists (LaborRow.mk id t c h :: rows). split.
    + constructor; [|exact Hrows]. repeat split; assumption.
    + rewrite <- app_assoc. reflexivity.
Qed.

Lemma insert_parts_effect (recipe : value) (id : string) (db db' : DB) (u : unit) :
  insert_parts recipe id db = (db', Ok u) ->
  exists pv ps rows,
    get recipe "parts" = Ok pv /\ iterate pv = Ok ps /\
    Forall2 (part_stored id) ps rows /\
    db' = mkDB (recipes db) (recipe_parts db ++ rows) (recipe_labor db).
Proof.
  unfold insert_parts. intros H.
  step_lift H as pv Hpv.
  step_lift H as ps Hps.
  destruct (for_each_insert_part _ _ _ _ _ H) as (rows & Hrows & ->).
  exists pv, ps, rows. auto.
Qed.

Lemma insert_labors_effect (recipe : value) (id : string) (db db' : DB) (u : unit) :
  insert_labors recipe id db = (db', Ok u) ->
  exists jv js rows,
    get recipe "labor" = Ok jv /\ iterate jv = Ok js /\
    Forall2 (labor_stored id) js rows /\
    db' = mkDB (recipes db) (recipe_parts db) (recipe_labor db ++ rows).
Proof.
  unfold insert_labors. intros H.
  step_lift H as jv Hjv.
  step_lift H as js Hjs.
  destruct (for_each_insert_labor _ _ _ _ _ H) as (rows & Hrows & ->).
  exists jv, js, rows. auto.
Qed.

Section Filters.

Context {A : Type} (key : A -> string) (id : string).

Lemma filter_in_out (table : list A) :
  List.filter (fun r => key r =? id)
    (List.filter (fun r => negb (key r =? id)) table) = [].
Proof.
  induction table as [|r t IH]; cbn; [reflexivity|].
  destruct (key r =? id) eqn:E; cbn; [exact IH|]. rewrite E. exact IH.
Qed.

Lemma filter_out_out (table : list A) :
  List.filter (fun r => negb (key r =? id))
    (List.filter (fun r => negb (key r =? id)) table)
  = List.filter (fun r => negb (key r =? id)) table.
Proof.
  induction table as [|r t IH]; cbn; [reflexivity|].
  destruct (key r =? id) eqn:E; cbn; [exact IH|]. rewrite E. cbn.
  f_equal. exact IH.
Qed.

Lemma filter_own (rows : list A) :
  Forall (fun r => key r = id) rows ->
  List.filter (fun r => key r =? id) rows = rows
  /\ List.filter (fun r => negb (key r =? id)) rows = [].
Proof.
  induction 1 as [|r rs Hr _ [IH1 IH2]]; cbn; [split; reflexivity|].
  rewrite Hr, String.eqb_refl. cbn. rewrite IH1, IH2. split; reflexivity.
Qed.

(** A table cleared of the rows of one recipe and extended with rows of that
    recipe: these are its rows, and the rows of the others are as before. *)
Lemma filter_replaced (table rows : list A) :
  Forall (fun r => key r = id) rows ->
  List.filter (fun r => key r =? id)
    (List.filter (fun r => negb (key r =? id)) table ++ rows) = rows /\
  List.filter (fun r => negb (key r =? id))
    (List.filter (fun r => negb (key r =? id)) table ++ rows)
  = List.filter (fun r => negb (key r =? id)) table.
Proof.
  intros Hrows. destruct (filter_own rows Hrows) as [H3 H4].
  rewrite !filter_app, filter_in_out, filter_out_out, H3, H4, app_nil_r.
  split; reflexivity.
Qed.

End Filters.

Lemma part_stored_key (id : string) (ps : list value) (rows : list PartRow.t) :
  Forall2 (part_stored id) ps rows -> Forall (fun r => PartRow.recipe_id r = id) rows.
Proof.
  induction 1 as [|p r ps rows [Hid _] _ IH]; constructor; assumption.
Qed.

Lemma labor_stored_key (id : string) (js : list value) (rows : list LaborRow.t) :
  Forall2 (labor_stored id) js rows -> Forall (fun r => LaborRow.recipe_id r = id) rows.
Proof.
  induction 1 as [|j r js rows [Hid _] _ IH]; constructor; assumption.
Qed.

(** The object [updateRecipe] builds carries the payload's own properties. *)
Lemma updated_prop (k id now : string) (existing : list (string * value))
      (updateData x : value) :
  get updateData k = Ok x -> x <> VUndefined ->
  (k =? "length") = false -> (k =? "id") = false -> (k =? "updated_at") = false ->
  get (VObj (set_prop "updated_at" (VStr now)
               (set_prop "id" (VStr id)
                  (spread (spread [] (VObj existing)) updateData)))) k = Ok x.
Proof.
  intros Hget Hx Hlen Hid Hupd.
  destruct (ObjectFacts.get_defined _ _ _ Hget Hx Hlen) as (props & -> & Hlk).
  cbn [get]. rewrite !ObjectFacts.lookup_set_prop, Hid, Hupd.
  rewrite ObjectFacts.lookup_spread. cbn [own_props]. rewrite Hlk. reflexivity.
Qed.

(** The block guarded by [updateData.parts !== undefined]. *)
Lemma parts_block_effect (new_parts updated : value) (id : string) (d d' : DB)
      (u : unit) :
  (if negb (is_undefined new_parts)
   then let! _ := delete_parts id in insert_parts updated id
   else ret tt) d = (d', Ok u) ->
  recipes d' = recipes d /\ recipe_labor d' = recipe_labor d /\
  (is_undefined new_parts = true -> recipe_parts d' = recipe_parts d) /\
  (is_undefined new_parts = false ->
   exists pv ps rows,
     get updated "parts" = Ok pv /\ iterate pv = Ok ps /\
     Forall2 (part_stored id) ps rows /\
     recipe_parts d' =
       List.filter (fun r => negb (PartRow.recipe_id r =? id)) (recipe_parts d)
       ++ rows).
Proof.
  destruct (is_undefined new_parts); cbn [negb]; intros H.
  - injection H as <- _. repeat split; intros; first [reflexivity | discriminate].
  - apply bindM_ok in H as (d1 & [] & Hdel & H).
    unfold delete_parts in Hdel. injection Hdel as <-.
    destruct (insert_parts_effect _ _ _ _ _ H) as (pv & ps & rows & Hpv & Hps & Hrows & ->).
    cbn. repeat split; [discriminate|]. exists pv, ps, rows. auto.
Qed.

(** The block guarded by [updateData.labor !== undefined]. *)
Lemma labor_block_effect (new_labor updated : value) (id : string) (d d' : DB)
      (u : unit) :
  (if negb (is_undefined new_labor)
   then let! _ := delete_labor id in insert_labors updated id
   else ret tt) d = (d', Ok u) ->
  recipes d' = recipes d /\ recipe_parts d' = recipe_parts d /\
  (is_undefined new_labor = true -> recipe_labor d' = recipe_labor d) /\
  (is_undefined new_labor = false ->
   exists jv js rows,
     get updated "labor" = Ok jv /\ iterate jv = Ok js /\
     Forall2 (labor_stored id) js rows /\
     recipe_labor d' =
       List.filter (fun r => negb (LaborRow.recipe_id r =? id)) (recipe_labor d)
       ++ rows).
Proof.
  destruct (is_undefined new_labor); cbn [negb]; intros H.
  - injection H as <- _. repeat split; intros; first [reflexivity | discriminate].
  - apply bindM_ok in H as (d1 & [] & Hdel & H).
    unfold delete_labor in Hdel. injection Hdel as <-.
    destruct (insert_labors_effect _ _ _ _ _ H) as (jv & js & rows & Hjv & Hjs & Hrows & ->).
    cbn. repeat split; [discriminate|]. exists jv, js, rows. auto.
Qed.

Lemma is_undefined_false (x : value) : x <> VUndefined -> is_undefined x = false.
Proof. destruct x; cbn; congruence. Qed.

(** C7.  For every stored recipe and every update of it that returns: when
    the payload has no [parts] key the rows of [recipe_parts] are as before,
    and likewise [recipe_labor] when it has no [labor] key (so an update of
    [waste_factor] alone changes neither); when the payload has a [parts]
    key, the rows stored for the recipe afterwards are exactly the rows of
    the payload's parts, in order, so that no former row of the recipe is
    left, the rows of the other recipes being as before; and likewise for
    [labor]. *)
Theorem updateRecipe_parts_labor (id : string) (updateData : value) (now : string)
        (db db' : DB) (r : value) :
  stored id db ->
  updateRecipe id updateData now db = (db', Ok r) ->
  (get updateData "parts" = Ok VUndefined -> recipe_parts db' = recipe_parts db) /\
  (get updateData "labor" = Ok VUndefined -> recipe_labor db' = recipe_labor db) /\
  (forall pv, get updateData "parts" = Ok pv -> pv <> VUndefined ->
     exists ps,
       iterate pv = Ok ps /\
       Forall2 (part_stored id) ps (parts_rows id db') /\
       other_parts_rows id db' = other_parts_rows id db) /\
  (forall jv, get updateData "labor" = Ok jv -> jv <> VUndefined ->
     exists js,
       iterate jv = Ok js /\
       Forall2 (labor_stored id) js (labor_rows id db') /\
       other_labor_rows id db' = other_labor_rows id db).
Proof.
  intros Hst H. unfold updateRecipe in H.
  apply bindM_ok in H as (d0 & existing & Hex & H).
  destruct (getRecipeById_stored id db Hst) as [eprops Heq].
  rewrite Heq in Hex. injection Hex as <- <-.
  cbn [truthy negb] in H. cbv zeta in H.
  step_lift H as row Hrow.
  apply bindM_ok in H as (d2 & [] & Hupd & H).
  unfold update_recipe in Hupd. injection Hupd as <-.
  step_lift H as new_parts Hnp.
  apply bindM_ok in H as (d4 & [] & Hpb & H).
  step_lift H as new_labor Hnl.
  apply bindM_ok in H as (d6 & [] & Hlb & H).
  destruct (getRecipeById_reads id d6) as [v Hv]. rewrite Hv in H.
  injection H as <- _.
  apply parts_block_effect in Hpb as (_ & Hpl & Hpu & Hpd).
  apply labor_block_effect in Hlb as (_ & Hlp & Hlu & Hld).
  cbn [recipe_parts recipe_labor] in Hpl, Hpu, Hpd.
  repeat split.
  - intros Hu. rewrite Hu in Hnp. injection Hnp as <-.
    rewrite Hlp. apply Hpu. reflexivity.
  - intros Hu. rewrite Hu in Hnl. injection Hnl as <-.
    rewrite (Hlu eq_refl). exact Hpl.
  - intros pv Hpv Hdef. rewrite Hpv in Hnp. injection Hnp as <-.
    destruct (Hpd (is_undefined_false _ Hdef)) as (pv' & ps & rows & Hpv' & Hps & Hrows & Htab).
    rewrite (updated_prop "parts" id now eprops updateData pv Hpv Hdef
               eq_refl eq_refl eq_refl) in Hpv'.
    injection Hpv' as <-.
    exists ps. split; [exact Hps|].
    unfold parts_rows, other_parts_rows. rewrite Hlp, Htab.
    destruct (filter_replaced PartRow.recipe_id id (recipe_parts db) rows
                (part_stored_key _ _ _ Hrows)) as [-> ->].
    split; [exact Hrows | reflexivity].
  - intros jv Hjv Hdef. rewrite Hjv in Hnl. injection Hnl as <-.
    destruct (Hld (is_undefined_false _ Hdef)) as (jv' & js & rows & Hjv' & Hjs & Hrows & Htab).
    rewrite (updated_prop "labor" id now eprops updateData jv Hjv Hdef
               eq_refl eq_refl eq_refl) in Hjv'.
    injection Hjv' as <-.
    exists js. split; [exact Hjs|].
    unfold labor_rows, other_labor_rows. rewrite Htab, Hpl.
    destruct (filter_replaced LaborRow.recipe_id id (recipe_labor db) rows
                (labor_stored_key _ _ _ Hrows)) as [-> ->].
    split; [exact Hrows | reflexivity].
Qed.

Lemma updateRecipe_parts_labor_witness :
  exists (db' : DB) (r : value),
    updateRecipe "r1" parts_update "2024-02-01T00:00:00.000Z" example_db
      = (db', Ok r) /\
    ((get parts_update "parts" = Ok VUndefined ->
      recipe_parts db' = recipe_parts example_db) /\
     (get parts_update "labor" = Ok VUndefined ->
      recipe_labor db' = recipe_labor example_db) /\
     (forall pv, get parts_update "parts" = Ok pv -> pv <> VUndefined ->
        exists ps,
          iterate pv = Ok ps /\
          Forall2 (part_stored "r1") ps (parts_rows "r1" db') /\
          other_parts_rows "r1" db' = other_parts_rows "r1" example_db) /\
     (forall jv, get parts_update "labor" = Ok jv -> jv <> VUndefined ->
        exists js,
          iterate jv = Ok js /\
          Forall2 (labor_stored "r1") js (labor_rows "r1" db') /\
          other_labor_rows "r1" db' = other_labor_rows "r1" example_db)).
Proof.
  eexists. eexists. split.
  - vm_compute. reflexivity.
  - eapply (updateRecipe_parts_labor "r1" parts_update "2024-02-01T00:00:00.000Z"
              example_db).
    + left. reflexivity.
    + vm_compute. reflexivity.
Defined.

(** Updating the waste factor alone: the recipe row takes the new value and
    both child tables are as before. *)
Example updateRecipe_waste_factor_only :
  exists (db' : DB) (r : value),
    updateRecipe "r1" (waste_update (VNum 0.25)) "2024-02-01T00:00:00.000Z"
      example_db = (db', Ok r) /\
    recipe_parts db' = recipe_parts example_db /\
    recipe_labor db' = recipe_labor example_db /\
    map RecipeRow.waste_factor (recipes db') = [VNum 0.25; VNum 0.2] /\
    get r "waste_factor" = Ok (VNum 0.25).
Proof.
  eexists. eexists. split; [vm_compute; reflexivity|].
  repeat split; vm_compute; reflexivity.
Qed.

(** Updating the parts: the two former parts of ["r1"] are gone, the new one
    is stored, the part of ["r2"] and the labor rows are as before. *)
Example updateRecipe_parts_replaced :
  exists (db' : DB) (r : value),
    updateRecipe "r1" parts_update "2024-02-01T00:00:00.000Z" example_db
      = (db', Ok r) /\
    parts_rows "r1" db' = [ PartRow.mk "r1" (VStr "washer") (VNum 4) (VNum 0.5) ] /\
    parts_rows "r2" db' = [ PartRow.mk "r2" (VStr "pin") (VNum 1) (VNum 3) ] /\
    recipe_labor db' = recipe_labor example_db.
Proof.
  eexists. eexists. split; [vm_compute; reflexivity|].
  repeat split; vm_compute; reflexivity.
Qed.

(** An id that is not stored: [null], and nothing is written. *)
Example updateRecipe_not_found :
  updateRecipe "r3" parts_update "2024-02-01T00:00:00.000Z" example_db
  = (example_db, Ok VNull).
Proof. vm_compute. reflexivity. Qed.

Lemma bindM_step {A B : Type} (c : M A) (k : A -> M B) (db db1 : DB) (a : A) :
  c db = (db1, Ok a) -> bindM c k db = k a db1.
Proof. unfold bindM. intros ->. reflexivity. Qed.

Lemma getRecipeById_shape (id : string) (db : DB) :
  stored id db ->
  exists row,
    getRecipeById id db
    = (db, Ok (recipe_object row (parts_rows id db) (labor_rows id db))).
Proof.
  intros H. destruct (find_stored id db H) as [row Hrow].
  exists row.
  unfold getRecipeById, bindM, select_recipe, select_parts, select_labor, ret.
  rewrite Hrow. reflexivity.
Qed.

(** An update of the waste factor alone, of a stored recipe, returns, and
    both child tables are as before. *)
Lemma updateRecipe_waste_factor_returns (id : string) (w : value) (now : string)
      (db : DB) :
  stored id db ->
  exists (db' : DB) (r : value),
    updateRecipe id (waste_update w) now db = (db', Ok r) /\
    recipe_parts db' = recipe_parts db /\
    recipe_labor db' = recipe_labor db.
Proof.
  intros Hst. destruct (getRecipeById_shape id db Hst) as [row Hget].
  destruct (updateRecipe id (waste_update w) now db) as [db' res] eqn:E.
  unfold updateRecipe in E. rewrite (bindM_step _ _ _ _ _ Hget) in E.
  cbn [recipe_object truthy negb] in E. cbv zeta in E.
  match type of E with
  | context [lift (bound_row ?u id now now)] =>
      assert (Hrow : exists new, bound_row u id now now = Ok new)
        by (eexists; vm_compute; reflexivity)
  end.
  destruct Hrow as [new Hrow]. rewrite Hrow in E.
  rewrite (bindM_step (lift (Ok new)) _ db db new eq_refl) in E.
  rewrite (bindM_step (update_recipe new id) _ db _ tt eq_refl) in E.
  rewrite (bindM_step (lift (get (waste_update w) "parts")) _ _ _ VUndefined eq_refl) in E.
  cbn [is_undefined negb] in E.
  rewrite (bindM_step (ret tt) _ _ _ tt eq_refl) in E.
  rewrite (bindM_step (lift (get (waste_update w) "labor")) _ _ _ VUndefined eq_refl) in E.
  cbn [is_undefined negb] in E.
  rewrite (bindM_step (ret tt) _ _ _ tt eq_refl) in E.
  match type of E with
  | getRecipeById id ?d = _ => destruct (getRecipeById_reads id d) as [v Hv]
  end.
  rewrite Hv in E. injection E as <- <-.
  eexists. exists v. repeat split.
Qed.

Lemma filter_stored (id : string) (db : DB) :
  stored id db ->
  List.filter (fun r => RecipeRow.id r =? id) (recipes db) <> [].
Proof.
  unfold stored. induction (recipes db) as [|r rs IH]; cbn; [contradiction|].
  intros [Hr | Hin].
  - rewrite Hr, String.eqb_refl. discriminate.
  - destruct (RecipeRow.id r =? id); [discriminate | auto].
Qed.

(** C9.  For every stored recipe id, deleting it removes the recipe:
    afterwards no recipe has that id and no row of [recipe_parts] or
    [recipe_labor] is keyed by it, and the rows of the other recipes are as
    before.  The cascade is the schema's, modelled from the spec in
    [delete_recipe].  The function itself then returns [false], as for an id
    that is not stored: it reads [result.changes], which the result of
    [run()] does not have. *)
Theorem deleteRecipe_cascades (id : string) (db : DB) :
  stored id db ->
  exists db' : DB,
    deleteRecipe id db = (db', Ok false) /\
    ~ stored id db' /\
    parts_rows id db' = [] /\
    labor_rows id db' = [] /\
    other_parts_rows id db' = other_parts_rows id db /\
    other_labor_rows id db' = other_labor_rows id db.
Proof.
  intros Hst. pose proof (filter_stored id db Hst) as Hgone.
  unfold deleteRecipe, bindM, delete_recipe, ret.
  destruct (List.filter (fun r => RecipeRow.id r =? id) (recipes db))
    as [|g gone]; [congruence|].
  eexists. split; [reflexivity|].
  unfold stored, parts_rows, labor_rows, other_parts_rows, other_labor_rows. cbn.
  repeat split.
  - rewrite in_map_iff. intros (row & Hid & Hin).
    apply filter_In in Hin. destruct Hin as [_ Hne].
    rewrite Hid, String.eqb_refl in Hne. discriminate Hne.
  - apply (filter_in_out PartRow.recipe_id).
  - apply (filter_in_out LaborRow.recipe_id).
  - apply (filter_out_out PartRow.recipe_id).
  - apply (filter_out_out LaborRow.recipe_id).
Qed.

Lemma deleteRecipe_cascades_witness :
  exists db' : DB,
    deleteRecipe "r1" example_db = (db', Ok false) /\
    ~ stored "r1" db' /\
    parts_rows "r1" db' = [] /\
    labor_rows "r1" db' = [] /\
    other_parts_rows "r1" db' = other_parts_rows "r1" example_db /\
    other_labor_rows "r1" db' = other_labor_rows "r1" example_db.
Proof.
  apply (deleteRecipe_cascades "r1" example_db). left. reflexivity.
Defined.

(** Deleting ["r1"] from the example store leaves ["r2"] and its part; the
    function returns [false], and the route answers 404. *)
Example deleteRecipe_example :
  deleteRecipe "r1" example_db
  = ({| recipes :=
          [ RecipeRow.mk "r2" (VStr "hinge") (VNum 0.5) (VNum 1) (VNum 2)
              (VNum 3) (VStr "cm") (VNum 90) (VNum 0.2) (VStr "piece") (VStr "B2")
              "2024-01-02T00:00:00.000Z" "2024-01-02T00:00:00.000Z" ];
        recipe_parts := [ PartRow.mk "r2" (VStr "pin") (VNum 1) (VNum 3) ];
        recipe_labor := [] |}, Ok false) /\
  snd (catch_all (delete_recipe_route "r1") example_db)
  = sendJSON (error_body (Some "Recipe not found")) 404.
Proof. split; vm_compute; reflexivity. Qed.

(** An id that is not stored: [false], and the 404 response. *)
Example deleteRecipe_not_found :
  deleteRecipe "r3" example_db = (example_db, Ok false) /\
  catch_all (delete_recipe_route "r3") example_db
  = (example_db, sendJSON (error_body (Some "Recipe not found")) 404).
Proof. split; vm_compute; reflexivity. Qed.

(** What the statement of [deleteRecipe] does by itself: over a schema
    without the cascade the child rows of the deleted recipe stay. *)
Example delete_without_cascade_keeps_rows :
  exists db',
    delete_recipe_no_cascade "r1" example_db = (db', Ok (RunResult.mk true 1)) /\
    recipe_parts db' = recipe_parts example_db /\
    recipe_labor db' = recipe_labor example_db.
Proof. eexists. repeat split; reflexivity. Qed.

End StoreFacts.

(** ** Where the validators part from one another *)

Module Defects.
Import Store StoreSpec ValidationSpec.

(** C6, at the failing input.  The update payload [{dimensions: null}]
    passes partial validation, although full validation refuses a [null]
    dimensions under the same message; [updateRecipe] then reads
    [updatedRecipe.dimensions.length] and throws, so the request ends in the
    500 response with nothing written. *)
Theorem validatePartialRecipe_accepts_null_dimensions :
  validatePartialRecipe (VObj [("dimensions", VNull)]) = Ok accept /\
  (forall w parts labor : value,
     validateRecipe (payload VNull w parts labor) = Ok (reject dimensions_message)) /\
  updateRecipe "r1" (VObj [("dimensions", VNull)]) "2024-02-01T00:00:00.000Z"
    example_db = (example_db, Throw TypeError) /\
  catch_all (put_recipe "r1" (VObj [("dimensions", VNull)])
               "2024-02-01T00:00:00.000Z") example_db
  = (example_db, sendJSON (error_body (Some "Something went wrong!")) 500).
Proof.
  repeat split; vm_compute; reflexivity.
Qed.

(** The other falsy values pass as well. *)
Example validatePartialRecipe_falsy_dimensions :
  validatePartialRecipe (VObj [("dimensions", VNum 0)]) = Ok accept /\
  validatePartialRecipe (VObj [("dimensions", VBool false)]) = Ok accept /\
  validatePartialRecipe (VObj [("dimensions", VStr "")]) = Ok accept /\
  validatePartialRecipe
    (VObj [("dimensions", dims_of (VNum 0) (VNum 20) (VNum 30) (VStr "cm"))])
  = Ok (reject dimensions_message).
Proof. repeat split; vm_compute; reflexivity. Qed.

(** C8, at the failing input.  Full validation looks at no number: whatever
    the waste factor of a create payload is, the payload is accepted, the
    response is 201 and the stored row has that very waste factor; with 1
    the invariant [waste_factor < 1] is broken. *)
Theorem post_recipes_stores_any_waste_factor (w : value) :
  validateRecipe (create_payload w) = Ok accept /\
  exists (db' : DB) (body : value) (row : RecipeRow.t),
    post_recipes (create_payload w) "r9" "2024-02-01T00:00:00.000Z" empty_db
      = (db', Ok (mkResponse 201 body)) /\
    recipes db' = [row] /\
    RecipeRow.waste_factor row = w.
Proof.
  split; [reflexivity|].
  eexists. eexists. eexists. split; [vm_compute; reflexivity|].
  split; reflexivity.
Qed.

(** With a waste factor of 1, and of 1.5: created, stored, and returned. *)
Example post_recipes_waste_factor_one :
  exists (db' : DB) (body : value),
    post_recipes (create_payload (VNum 1)) "r9" "2024-02-01T00:00:00.000Z" empty_db
      = (db', Ok (mkResponse 201 body)) /\
    map RecipeRow.waste_factor (recipes db') = [VNum 1] /\
    get body "waste_factor" = Ok (VNum 1).
Proof.
  eexists. eexists. split; [vm_compute; reflexivity|].
  split; vm_compute; reflexivity.
Qed.

(** The update path refuses the same value. *)
Example put_recipe_waste_factor_one :
  put_recipe "r1" (waste_update (VNum 1)) "2024-02-01T00:00:00.000Z" example_db
  = (example_db,
     Ok (sendJSON (error_body (Some "Waste factor must be a number between 0 and 1"))
           400)).
Proof. vm_compute. reflexivity. Qed.

(** What the cost engine makes of a waste factor of 1: a division by zero. *)
Example calculateRecipeCost_waste_factor_one :
  exists b,
    Cost.calculateRecipeCost (Some (CostSpec.example_recipe (Cost.present 1%float)))
      = Ok b /\
    Cost.CostSummary.total (Cost.RecipeCostBreakdown.cost_summary b) = infinity.
Proof. eexists. split; vm_compute; reflexivity. Qed.

End Defects.

(** ** More on the recipe repository *)

Module RepositoryFacts.
Import Store StoreSpec ValidationSpec RepositorySpec.

(** *** What a step leaves alone *)

Lemma keeps_ret {T A : Type} (proj : DB -> T) (a : A) : keeps proj (ret a).
Proof. intros db. reflexivity. Qed.

Lemma keeps_lift {T A : Type} (proj : DB -> T) (r : result A) : keeps proj (lift r).
Proof. intros db. reflexivity. Qed.

Lemma keeps_bind {T A B : Type} (proj : DB -> T) (c : M A) (k : A -> M B) :
  keeps proj c -> (forall a, keeps proj (k a)) -> keeps proj (bindM c k).
Proof.
  intros Hc Hk db. unfold bindM. specialize (Hc db).
  destruct (c db) as [d [a|e]]; cbn in *; [|exact Hc].
  rewrite (Hk a d). exact Hc.
Qed.

Lemma keeps_for_each {T A : Type} (proj : DB -> T) (body : A -> M unit)
      (l : list A) :
  (forall x, keeps proj (body x)) -> keeps proj (for_each body l).
Proof.
  intros Hbody. induction l as [|x l IH]; cbn [for_each].
  - apply keeps_ret.
  - apply keeps_bind; [apply Hbody | intros _; exact IH].
Qed.

Lemma keeps_getRecipeById {T : Type} (proj : DB -> T) (id : string) :
  keeps proj (getRecipeById id).
Proof.
  intros db. destruct (StoreFacts.getRecipeById_reads id db) as [v ->]. reflexivity.
Qed.

(** Composite steps are taken apart; a statement is looked at directly. *)
Ltac keeps_steps :=
  repeat first
    [ apply keeps_ret
    | apply keeps_lift
    | apply keeps_getRecipeById
    | apply keeps_bind; [|intros ?]
    | apply keeps_for_each; intros ?
    | match goal with |- keeps _ (if ?b then _ else _) => destruct b end
    | (intros ?; reflexivity) ].

Lemma insert_parts_keeps_recipes (recipe : value) (id : string) :
  keeps recipes (insert_parts recipe id).
Proof. unfold insert_parts. keeps_steps. Qed.

Lemma insert_parts_keeps_labor (recipe : value) (id : string) :
  keeps recipe_labor (insert_parts recipe id).
Proof. unfold insert_parts. keeps_steps. Qed.

Lemma insert_labors_keeps_recipes (recipe : value) (id : string) :
  keeps recipes (insert_labors recipe id).
Proof. unfold insert_labors. keeps_steps. Qed.

Lemma insert_labors_keeps_parts (recipe : value) (id : string) :
  keeps recipe_parts (insert_labors recipe id).
Proof. unfold insert_labors. keeps_steps. Qed.

(** *** Reading a recipe *)

Lemma first_row_stored (id : string) (db : DB) :
  stored id db <-> exists row, first_row id db = Some row.
Proof.
  split.
  - apply StoreFacts.find_stored.
  - intros [row Hrow]. apply find_some in Hrow. destruct Hrow as [Hin Hid].
    apply String.eqb_eq in Hid. unfold stored. rewrite <- Hid.
    apply in_map. exact Hin.
Qed.

Lemma first_row_absent (id : string) (db : DB) :
  ~ stored id db <-> first_row id db = None.
Proof.
  rewrite first_row_stored. destruct (first_row id db) as [row|].
  - split; [intros H; exfalso; eauto | discriminate].
  - split; [reflexivity | intros _ [row H]; discriminate H].
Qed.

Lemma getRecipeById_first (id : string) (db : DB) :
  getRecipeById id db =
  (db, Ok match first_row id db with
          | Some row => recipe_object row (parts_rows id db) (labor_rows id db)
          | None => VNull
          end).
Proof.
  unfold getRecipeById, bindM, select_recipe, select_parts, select_labor, ret,
    first_row.
  destruct (find _ (recipes db)); reflexivity.
Qed.

(** X1.  [getRecipeById] never writes and never throws; it returns [null]
    exactly when no recipe row has the id, and otherwise the object built
    from the first such row and the child rows keyed by the id. *)
Theorem getRecipeById_result (id : string) (db : DB) :
  exists v : value,
    getRecipeById id db = (db, Ok v) /\
    (v = VNull <-> ~ stored id db) /\
    (stored id db ->
     exists row,
       first_row id db = Some row /\
       v = recipe_object row (parts_rows id db) (labor_rows id db)).
Proof.
  eexists. split; [apply getRecipeById_first|]. split.
  - rewrite first_row_absent. unfold recipe_object.
    destruct (first_row id db); split; congruence.
  - intros Hst. apply first_row_stored in Hst. destruct Hst as [row Hrow].
    exists row. rewrite Hrow. split; reflexivity.
Qed.

(** *** Deleting and updating what is not there *)

(** X2.  Deleting an id that no recipe row has returns [false] and leaves
    every table as it was. *)
Theorem deleteRecipe_absent (id : string) (db : DB) :
  ~ stored id db -> deleteRecipe id db = (db, Ok false).
Proof.
  intros Hno. apply first_row_absent in Hno.
  unfold deleteRecipe, bindM, delete_recipe, ret.
  assert (Hnone : List.filter (fun r => RecipeRow.id r =? id) (recipes db) = []).
  { unfold first_row in Hno.
    induction (recipes db) as [|r rs IH]; cbn in *; [reflexivity|].
    destruct (RecipeRow.id r =? id); [discriminate Hno | exact (IH Hno)]. }
  rewrite Hnone. reflexivity.
Qed.

Lemma deleteRecipe_absent_witness :
  deleteRecipe "r3" example_db = (example_db, Ok false).
Proof.
  apply deleteRecipe_absent. unfold stored. cbn.
  intros [H | [H | []]]; discriminate H.
Defined.

Lemma updateRecipe_unstored (id : string) (updateData : value) (now : string)
      (db : DB) :
  first_row id db = None -> updateRecipe id updateData now db = (db, Ok VNull).
Proof.
  intros Hno. unfold updateRecipe.
  rewrite (StoreFacts.bindM_step _ _ _ _ _ (getRecipeById_first id db)), Hno.
  reflexivity.
Qed.

(** X3.  Updating an id that no recipe row has returns [null] and writes
    nothing, whatever the payload is (it is not even read). *)
Theorem updateRecipe_absent (id : string) (updateData : value) (now : string)
        (db : DB) :
  ~ stored id db -> updateRecipe id updateData now db = (db, Ok VNull).
Proof.
  intros Hno. apply updateRecipe_unstored. now apply first_row_absent.
Qed.

Lemma updateRecipe_absent_witness :
  updateRecipe "r3" VNull "2024-02-01T00:00:00.000Z" example_db
  = (example_db, Ok VNull).
Proof.
  apply updateRecipe_absent. unfold stored. cbn.
  intros [H | [H | []]]; discriminate H.
Defined.

(** *** What an update writes *)

(** The object [updateRecipe] builds: a property other than [id] and
    [updated_at] is the payload's own when it has one, the one read
    otherwise. *)
Lemma lookup_updated (k id now : string) (existing : list (string * value))
      (data : value) :
  (k =? "id") = false -> (k =? "updated_at") = false ->
  lookup k (set_prop "updated_at" (VStr now)
              (set_prop "id" (VStr id)
                 (spread (spread [] (VObj existing)) data)))
  = match lookup k (own_props data) with
    | Some x => Some x
    | None => lookup k existing
    end.
Proof.
  intros Hid Hupd.
  rewrite !ObjectFacts.lookup_set_prop, Hid, Hupd.
  rewrite !ObjectFacts.lookup_spread. cbn [own_props lookup].
  destruct (lookup k (own_props data)); [reflexivity|].
  destruct (lookup k existing); reflexivity.
Qed.

(** The row bound from that object, when binding it returns. *)
Lemma bound_row_updated (id now : string) (row0 : RecipeRow.t)
      (ps : list PartRow.t) (js : list LaborRow.t) (data : value)
      (new : RecipeRow.t) :
  bound_row
    (VObj (set_prop "updated_at" (VStr now)
             (set_prop "id" (VStr id)
                (spread (spread [] (recipe_object row0 ps js)) data))))
    id now now = Ok new ->
  forall r, RecipeRow.mk (RecipeRow.id r)
              (RecipeRow.name new) (RecipeRow.weight new)
              (RecipeRow.length_unit new) (RecipeRow.width new)
              (RecipeRow.height new) (RecipeRow.dimension_unit new)
              (RecipeRow.yield_percentage new) (RecipeRow.waste_factor new)
              (RecipeRow.unit_of_measure new) (RecipeRow.inventory_location new)
              (RecipeRow.created_at r) (RecipeRow.updated_at new)
            = updated_row row0 r data now.
Proof.
  unfold bound_row, recipe_object. cbn [get].
  rewrite !lookup_updated by reflexivity.
  unfold updated_row, merged, merged_dim.
  destruct (lookup "name" (own_props data)),
           (lookup "weight" (own_props data)),
           (lookup "yield_percentage" (own_props data)),
           (lookup "waste_factor" (own_props data)),
           (lookup "unit_of_measure" (own_props data)),
           (lookup "inventory_location" (own_props data));
    cbn [JS.bind lookup String.eqb Ascii.eqb Bool.eqb];
    (destruct (lookup "dimensions" (own_props data)) as [d|];
     cbn [JS.bind lookup String.eqb Ascii.eqb Bool.eqb get];
     [ unfold field;
       destruct (get d "length") as [l|]; cbn [JS.bind]; [|discriminate];
       destruct (get d "width") as [w|]; cbn [JS.bind]; [|discriminate];
       destruct (get d "height") as [h|]; cbn [JS.bind]; [|discriminate];
       destruct (get d "unit") as [u|]; cbn [JS.bind]; [|discriminate]
     | ];
     intros [= <-]; intros r; reflexivity).
Qed.

(** However an update of a stored recipe ends, the table of recipes is as it
    was (the update threw before its [UPDATE]) or every row with the id has
    been rewritten. *)
Lemma updateRecipe_recipes (id : string) (updateData : value) (now : string)
      (db db' : DB) (row0 : RecipeRow.t) (out : result value) :
  first_row id db = Some row0 ->
  updateRecipe id updateData now db = (db', out) ->
  (db' = db /\ exists e, out = Throw e) \/
  recipes db' =
    map (fun r => if RecipeRow.id r =? id
                  then updated_row row0 r updateData now else r)
        (recipes db).
Proof.
  intros Hfirst H. unfold updateRecipe in H.
  rewrite (StoreFacts.bindM_step _ _ _ _ _ (getRecipeById_first id db)), Hfirst in H.
  cbn [recipe_object truthy negb] in H. cbv zeta in H.
  fold (recipe_object row0 (parts_rows id db) (labor_rows id db)) in H.
  match type of H with
  | context [lift (bound_row ?u id now now)] =>
      destruct (bound_row u id now now) as [new|e] eqn:Hrow
  end.
  - right.
    rewrite (StoreFacts.bindM_step (lift (Ok new)) _ db db new eq_refl) in H.
    rewrite (StoreFacts.bindM_step (update_recipe new id) _ db _ tt eq_refl) in H.
    match type of H with
    | ?c ?d = _ =>
        assert (Hk : keeps recipes c)
          by (unfold insert_parts, insert_labors; keeps_steps)
    end.
    match type of H with
    | ?c ?d = _ => specialize (Hk d)
    end.
    rewrite H in Hk. cbn [fst recipes] in Hk. rewrite Hk.
    apply map_ext. intros r.
    rewrite (bound_row_updated _ _ _ _ _ _ _ Hrow r). reflexivity.
  - left. unfold bindM at 1 in H. cbn [lift] in H. injection H as <- <-.
    split; [reflexivity | eauto].
Qed.

(** X4.  An update of a stored recipe that returns rewrites every row with
    the id, and no other: each column takes the payload's own property when
    the payload has one (a [dimensions] of the payload replacing all four
    dimension columns at once) and the stored value otherwise, a falsy
    stored value turning into 0 or the empty string; [id] and [created_at]
    stay, and [updated_at] is the new stamp. *)
Theorem updateRecipe_row (id : string) (updateData : value) (now : string)
        (db db' : DB) (r : value) :
  stored id db ->
  updateRecipe id updateData now db = (db', Ok r) ->
  exists row0 : RecipeRow.t,
    first_row id db = Some row0 /\
    recipes db' =
      map (fun row => if RecipeRow.id row =? id
                      then updated_row row0 row updateData now else row)
          (recipes db).
Proof.
  intros Hst H. apply first_row_stored in Hst. destruct Hst as [row0 Hfirst].
  exists row0. split; [exact Hfirst|].
  destruct (updateRecipe_recipes _ _ _ _ _ _ _ Hfirst H) as [[_ [e He]] | Hmap];
    [discriminate He | exact Hmap].
Qed.

Lemma updateRecipe_row_witness :
  exists (db' : DB) (row0 : RecipeRow.t),
    first_row "r1" example_db = Some row0 /\
    recipes db' =
      map (fun row => if RecipeRow.id row =? "r1"
                      then updated_row row0 row (waste_update (VNum 0.25))
                             "2024-02-01T00:00:00.000Z"
                      else row)
          (recipes example_db).
Proof.
  exists (fst (updateRecipe "r1" (waste_update (VNum 0.25))
                 "2024-02-01T00:00:00.000Z" example_db)).
  eapply (updateRecipe_row "r1" (waste_update (VNum 0.25))
            "2024-02-01T00:00:00.000Z" example_db).
  - left. reflexivity.
  - vm_compute. reflexivity.
Defined.

(** X5.  An update cannot move a recipe: after an update that returns, the
    ids of the recipe rows and their [created_at] stamps are what they were,
    in the same order, even when the payload carries an [id] or a
    [created_at]; the rows with another id are untouched; and every row with
    the id has the new [updated_at]. *)
Theorem updateRecipe_keeps_identity (id : string) (updateData : value)
        (now : string) (db db' : DB) (r : value) :
  stored id db ->
  updateRecipe id updateData now db = (db', Ok r) ->
  map RecipeRow.id (recipes db') = map RecipeRow.id (recipes db) /\
  map RecipeRow.created_at (recipes db') = map RecipeRow.created_at (recipes db) /\
  List.filter (fun row => negb (RecipeRow.id row =? id)) (recipes db')
    = List.filter (fun row => negb (RecipeRow.id row =? id)) (recipes db) /\
  (forall row, In row (recipes db') -> RecipeRow.id row = id ->
               RecipeRow.updated_at row = now).
Proof.
  intros Hst H. apply first_row_stored in Hst. destruct Hst as [row0 Hfirst].
  destruct (updateRecipe_recipes _ _ _ _ _ _ _ Hfirst H) as [[_ [e He]] | Hmap];
    [discriminate He|].
  rewrite Hmap. clear Hmap H. repeat split.
  - rewrite map_map. apply map_ext. intros row.
    destruct (RecipeRow.id row =? id); reflexivity.
  - rewrite map_map. apply map_ext. intros row.
    destruct (RecipeRow.id row =? id); reflexivity.
  - induction (recipes db) as [|row rows IH]; cbn; [reflexivity|].
    destruct (RecipeRow.id row =? id) eqn:E; cbn; rewrite E; cbn;
      [exact IH | f_equal; exact IH].
  - intros row Hin Hid. apply in_map_iff in Hin. destruct Hin as (old & <- & _).
    destruct (RecipeRow.id old =? id) eqn:E; [reflexivity|].
    apply String.eqb_neq in E. contradiction.
Qed.

Lemma updateRecipe_keeps_identity_witness :
  exists db' : DB,
    map RecipeRow.id (recipes db') = map RecipeRow.id (recipes example_db) /\
    map RecipeRow.created_at (recipes db')
      = map RecipeRow.created_at (recipes example_db) /\
    List.filter (fun row => negb (RecipeRow.id row =? "r1")) (recipes db')
      = List.filter (fun row => negb (RecipeRow.id row =? "r1")) (recipes example_db) /\
    (forall row, In row (recipes db') -> RecipeRow.id row = "r1" ->
                 RecipeRow.updated_at row = "2024-02-01T00:00:00.000Z").
Proof.
  exists (fst (updateRecipe "r1"
                 (VObj [("id", VStr "r2"); ("created_at", VStr "1999");
                        ("name", VStr "renamed")])
                 "2024-02-01T00:00:00.000Z" example_db)).
  eapply (updateRecipe_keeps_identity "r1"
            (VObj [("id", VStr "r2"); ("created_at", VStr "1999");
                   ("name", VStr "renamed")])
            "2024-02-01T00:00:00.000Z" example_db).
  - left. reflexivity.
  - vm_compute. reflexivity.
Defined.

(** *** The waste factor through the update path *)

Lemma SFcompare_antisym (x y : spec_float) :
  SFcompare y x = option_map CompOpp (SFcompare x y).
Proof.
  destruct x as [sx|sx| |sx mx ex], y as [sy|sy| |sy my ey]; cbn;
    try reflexivity; try (destruct sx; reflexivity);
    try (destruct sy; reflexivity); try (destruct sx, sy; reflexivity).
  destruct sx, sy; try reflexivity.
  - rewrite (Z.compare_antisym ex ey). destruct (ex ?= ey)%Z; cbn; try reflexivity.
    rewrite (Pos.compare_cont_antisym my mx Eq). cbn.
    now rewrite CompOpp_involutive.
  - rewrite (Z.compare_antisym ex ey). destruct (ex ?= ey)%Z; cbn; try reflexivity.
    rewrite (Pos.compare_cont_antisym mx my Eq). cbn. reflexivity.
Qed.

(** Two numbers, neither of them [NaN], are comparable. *)
Lemma ltb_false_leb (x c : float) :
  PrimFloat.is_nan x = false -> PrimFloat.is_nan c = false ->
  (x <? c)%float = false -> (c <=? x)%float = true.
Proof.
  unfold PrimFloat.is_nan.
  rewrite !FloatAxioms.eqb_spec, FloatAxioms.ltb_spec, FloatAxioms.leb_spec.
  unfold SFeqb, SFltb, SFleb. rewrite (SFcompare_antisym (Prim2SF x) (Prim2SF c)).
  destruct (Prim2SF x) as [sx|sx| |sx mx ex], (Prim2SF c) as [sy|sy| |sy my ey];
    cbn; try discriminate; try reflexivity;
    try (destruct sx; cbn; congruence); try (destruct sy; cbn; congruence);
    try (destruct sx, sy; cbn; congruence).
  destruct sx, sy; cbn; try congruence; destruct (ex ?= ey)%Z; cbn; try congruence;
    destruct (Pos.compare_cont Eq mx my); cbn; congruence.
Qed.

Lemma leb_false_ltb (x c : float) :
  PrimFloat.is_nan x = false -> PrimFloat.is_nan c = false ->
  (c <=? x)%float = false -> (x <? c)%float = true.
Proof.
  unfold PrimFloat.is_nan.
  rewrite !FloatAxioms.eqb_spec, FloatAxioms.ltb_spec, FloatAxioms.leb_spec.
  unfold SFeqb, SFltb, SFleb. rewrite (SFcompare_antisym (Prim2SF x) (Prim2SF c)).
  destruct (Prim2SF x) as [sx|sx| |sx mx ex], (Prim2SF c) as [sy|sy| |sy my ey];
    cbn; try discriminate; try reflexivity;
    try (destruct sx; cbn; congruence); try (destruct sy; cbn; congruence);
    try (destruct sx, sy; cbn; congruence).
  destruct sx, sy; cbn; try congruence; destruct (ex ?= ey)%Z; cbn; try congruence;
    destruct (Pos.compare_cont Eq mx my); cbn; congruence.
Qed.

(** What the range test of partial validation lets through, on a number
    that is not [NaN], is within the range. *)
Lemma range_test_waste_ok (x : float) :
  PrimFloat.is_nan x = false ->
  negb (x <? 0)%float && negb (1 <=? x)%float = true ->
  waste_ok (VNum x) = true.
Proof.
  intros Hnan H. apply andb_true_iff in H. destruct H as [H0 H1].
  apply negb_true_iff in H0, H1. cbn [waste_ok].
  rewrite (ltb_false_leb x 0 Hnan eq_refl H0), (leb_false_ltb x 1 Hnan eq_refl H1).
  reflexivity.
Qed.

Lemma is_json_lookup (k : string) (props : list (string * value)) (x : value) :
  forallb (fun kv => is_json (snd kv)) props = true ->
  lookup k props = Some x -> is_json x = true.
Proof.
  induction props as [|[k1 v1] rest IH]; cbn [forallb lookup snd]; [discriminate|].
  intros H Hl. apply andb_true_iff in H. destruct H as [Hv Hrest].
  destruct (lookup k rest) as [y|].
  - injection Hl as <-. apply (IH Hrest eq_refl).
  - destruct (k =? k1); [injection Hl as <-; exact Hv | discriminate Hl].
Qed.

(** The index names of an array or a string are not [waste_factor]. *)
Lemma lookup_indexed_waste_factor (i : nat) (l : list value) :
  lookup "waste_factor" (indexed i l) = None.
Proof.
  revert i. induction l as [|x l IH]; intros i; cbn [indexed lookup]; [reflexivity|].
  rewrite IH. unfold index_name.
  destruct (Nat.to_uint i); reflexivity.
Qed.

Lemma own_waste_factor (body x : value) :
  lookup "waste_factor" (own_props body) = Some x ->
  exists props, body = VObj props /\ lookup "waste_factor" props = Some x.
Proof.
  destruct body as [| |b|n|s|l|props]; cbn [own_props lookup]; try discriminate.
  - rewrite lookup_indexed_waste_factor. discriminate.
  - rewrite lookup_indexed_waste_factor. discriminate.
  - eauto.
Qed.

Lemma merged_waste_ok (body old : value) :
  is_json body = true -> partial_ok body = true -> waste_ok old = true ->
  waste_ok (merged "waste_factor" body old (VNum 0)) = true.
Proof.
  intros Hjson Hok Hold. unfold merged.
  destruct (lookup "waste_factor" (own_props body)) as [x|] eqn:Hl.
  - destruct (own_waste_factor _ _ Hl) as (props & -> & Hlk).
    unfold partial_ok in Hok. apply andb_true_iff in Hok. destruct Hok as [_ Hw].
    unfold field in Hw. cbn [get] in Hw. rewrite Hlk in Hw.
    cbn [is_json] in Hjson. pose proof (is_json_lookup _ _ _ Hjson Hlk) as Hx.
    unfold number_in in Hw.
    destruct x as [| |b|n|s|l|f]; cbn [is_undefined orb] in Hw;
      try discriminate Hw; try discriminate Hx.
    cbn [is_json] in Hx. apply negb_true_iff in Hx.
    apply (range_test_waste_ok n Hx Hw).
  - unfold or_else. destruct (truthy old); [exact Hold | reflexivity].
Qed.

(** A validator answers [{valid: true}] or [{valid: false, message}]. *)
Lemma validatePartialRecipe_verdict (recipe : value) (v : Validation) :
  validatePartialRecipe recipe = Ok v -> v = accept \/ exists msg, v = reject msg.
Proof.
  unfold validatePartialRecipe.
  repeat match goal with
         | |- context [JS.bind ?c _] => destruct c; cbn [JS.bind]
         | |- context [if ?b then _ else _] => destruct b
         end;
    intros [= <-]; eauto.
Qed.

Lemma updateRecipe_keeps_waste (id : string) (body : value) (now : string)
      (db db' : DB) (out : result value) :
  is_json body = true -> partial_ok body = true -> waste_invariant db ->
  updateRecipe id body now db = (db', out) -> waste_invariant db'.
Proof.
  intros Hjson Hok Hinv H.
  destruct (first_row id db) as [row0|] eqn:Hfirst.
  - destruct (updateRecipe_recipes _ _ _ _ _ _ _ Hfirst H) as [[-> _] | Hmap];
      [exact Hinv|].
    intros row Hin. rewrite Hmap in Hin. apply in_map_iff in Hin.
    destruct Hin as (old & <- & Hold).
    destruct (RecipeRow.id old =? id); [|exact (Hinv old Hold)].
    cbn [updated_row RecipeRow.waste_factor].
    apply (merged_waste_ok body _ Hjson Hok).
    apply Hinv. unfold first_row in Hfirst. apply find_some in Hfirst. tauto.
  - rewrite (updateRecipe_unstored id body now db Hfirst) in H.
    injection H as <- _. exact Hinv.
Qed.

(** X6.  The update route keeps the waste factor within range: if every
    stored recipe has [0 <= waste_factor < 1] before a [PUT] whose body is a
    JSON value, every stored recipe has it afterwards, whether the request
    is answered 200, 400 or 404 or ends in an exception. *)
Theorem put_recipe_keeps_waste_invariant (id : string) (body : value)
        (now : string) (db : DB) :
  is_json body = true ->
  waste_invariant db ->
  waste_invariant (fst (put_recipe id body now db)).
Proof.
  intros Hjson Hinv. unfold put_recipe, bindM at 1, lift.
  destruct (validatePartialRecipe body) as [v|e] eqn:Hv; [|exact Hinv].
  destruct (validatePartialRecipe_verdict _ _ Hv) as [-> | [msg ->]];
    [|exact Hinv].
  cbn [valid accept negb]. unfold bindM.
  apply ValidationFacts.validatePartialRecipe_accept_iff in Hv.
  destruct (updateRecipe id body now db) as [db1 out] eqn:Hu.
  pose proof (updateRecipe_keeps_waste _ _ _ _ _ _ Hjson Hv Hinv Hu) as H1.
  destruct out as [u|e]; [|exact H1].
  destruct (negb (truthy u)); exact H1.
Qed.

Lemma put_recipe_keeps_waste_invariant_witness :
  waste_invariant
    (fst (put_recipe "r1" (waste_update (VNum 0.25))
            "2024-02-01T00:00:00.000Z" example_db)).
Proof.
  apply put_recipe_keeps_waste_invariant.
  - reflexivity.
  - intros row [<- | [<- | []]]; reflexivity.
Defined.

(** *** Creating a recipe *)

Lemma bound_row_id (recipe : value) (id created updated : string)
      (row : RecipeRow.t) :
  bound_row recipe id created updated = Ok row -> RecipeRow.id row = id.
Proof.
  unfold bound_row.
  repeat match goal with
         | |- context [JS.bind ?c _] => destruct c; cbn [JS.bind]
         end;
    intros [= <-]; reflexivity.
Qed.

(** However the payload is shaped, a [createRecipe] that returns has added
    one recipe row and child rows, all keyed by the new id, after the rows
    that were there. *)
Lemma createRecipe_effect (body : value) (id now : string) (db db' : DB)
      (obj : value) :
  createRecipe body id now db = (db', Ok obj) ->
  exists row rowsP rowsL,
    RecipeRow.id row = id /\
    Forall (fun r => PartRow.recipe_id r = id) rowsP /\
    Forall (fun r => LaborRow.recipe_id r = id) rowsL /\
    db' = with_recipe db row rowsP rowsL.
Proof.
  unfold createRecipe. intros H.
  apply StoreFacts.bindM_ok in H as (d1 & row & Hrow & H).
  apply StoreFacts.lift_ok in Hrow as [-> Hrow].
  apply StoreFacts.bindM_ok in H as (d2 & [] & Hins & H).
  unfold insert_recipe in Hins. injection Hins as <-.
  apply StoreFacts.bindM_ok in H as (d3 & [] & Hp & H).
  apply StoreFacts.insert_parts_effect in Hp as (pv & ps & rowsP & _ & _ & HrowsP & ->).
  apply StoreFacts.bindM_ok in H as (d4 & [] & Hl & H).
  apply StoreFacts.insert_labors_effect in Hl as (jv & js & rowsL & _ & _ & HrowsL & ->).
  destruct (StoreFacts.getRecipeById_reads id
              (with_recipe db row rowsP rowsL)) as [v Hv].
  cbn [recipes recipe_parts recipe_labor] in H.
  change (mkDB (recipes db ++ [row]) (recipe_parts db ++ rowsP)
            (recipe_labor db ++ rowsL))
    with (with_recipe db row rowsP rowsL) in H.
  rewrite Hv in H. injection H as <- _.
  exists row, rowsP, rowsL. repeat split.
  - apply (bound_row_id _ _ _ _ _ Hrow).
  - apply (StoreFacts.part_stored_key _ _ _ HrowsP).
  - apply (StoreFacts.labor_stored_key _ _ _ HrowsL).
Qed.

Lemma filter_none_all {A : Type} (p : A -> bool) (l : list A) :
  List.filter p l = [] -> List.filter (fun x => negb (p x)) l = l.
Proof.
  induction l as [|x l IH]; cbn; [reflexivity|].
  destruct (p x); cbn; [discriminate|]. intros H. f_equal. exact (IH H).
Qed.

Lemma fresh_recipes (id : string) (db : DB) :
  ~ stored id db ->
  List.filter (fun r => RecipeRow.id r =? id) (recipes db) = [].
Proof.
  unfold stored. induction (recipes db) as [|r rs IH]; cbn; [reflexivity|].
  intros Hno. destruct (RecipeRow.id r =? id) eqn:E.
  - apply String.eqb_eq in E. exfalso. apply Hno. left. exact E.
  - apply IH. intros Hin. apply Hno. right. exact Hin.
Qed.

(** X7.  Creating and then deleting is a round trip on the store: when no
    row of any table is keyed by the new id, deleting the id after a
    [createRecipe] that returned gives back the very store there was before
    the creation (the child rows going with the schema's cascade).  The
    deletion returns [false] all the same. *)
Theorem create_then_delete (body : value) (id now : string) (db db1 : DB)
        (obj : value) :
  fresh id db ->
  createRecipe body id now db = (db1, Ok obj) ->
  deleteRecipe id db1 = (db, Ok false).
Proof.
  intros (Hno & Hparts & Hlabor) H.
  apply createRecipe_effect in H as (row & rowsP & rowsL & Hid & HP & HL & ->).
  unfold parts_rows in Hparts. unfold labor_rows in Hlabor.
  pose proof (fresh_recipes id db Hno) as Hrec.
  unfold deleteRecipe, bindM, delete_recipe, ret, with_recipe.
  cbn [recipes recipe_parts recipe_labor].
  rewrite !filter_app. cbn [List.filter].
  rewrite Hid, String.eqb_refl, Hrec. cbn [app negb].
  rewrite (filter_none_all _ _ Hrec), (filter_none_all _ _ Hparts),
    (filter_none_all _ _ Hlabor).
  destruct (StoreFacts.filter_own PartRow.recipe_id id rowsP HP) as [_ ->].
  destruct (StoreFacts.filter_own LaborRow.recipe_id id rowsL HL) as [_ ->].
  rewrite !app_nil_r. destruct db; reflexivity.
Qed.

Lemma create_then_delete_witness :
  deleteRecipe "r9"
    (fst (createRecipe (create_payload (VNum 0.1)) "r9"
            "2024-02-01T00:00:00.000Z" example_db))
  = (example_db, Ok false).
Proof.
  eapply (create_then_delete (create_payload (VNum 0.1)) "r9"
            "2024-02-01T00:00:00.000Z" example_db).
  - unfold fresh, stored. cbn. repeat split.
    intros [H | [H | []]]; discriminate H.
  - vm_compute. reflexivity.
Defined.

Lemma first_row_added (id : string) (db : DB) (row : RecipeRow.t)
      (ps : list PartRow.t) (js : list LaborRow.t) :
  ~ stored id db -> RecipeRow.id row = id ->
  first_row id (with_recipe db row ps js) = Some row.
Proof.
  intros Hno Hid. unfold first_row, with_recipe. cbn [recipes].
  unfold stored in Hno. induction (recipes db) as [|r rs IH]; cbn.
  - rewrite Hid, String.eqb_refl. reflexivity.
  - destruct (RecipeRow.id r =? id) eqn:E.
    + apply String.eqb_eq in E. exfalso. apply Hno. left. exact E.
    + apply IH. intros Hin. apply Hno. right. exact Hin.
Qed.

Lemma bound_row_created (recipe : value) (id now : string) (row : RecipeRow.t) :
  bound_row recipe id now now = Ok row -> row = created_row recipe id now.
Proof.
  unfold bound_row, created_row, field.
  repeat match goal with
         | |- context [JS.bind ?c _] => destruct c; cbn [JS.bind]
         end;
    intros [= <-]; reflexivity.
Qed.

Lemma part_stored_rows (id : string) (ps : list value) (rows : list PartRow.t) :
  Forall2 (part_stored id) ps rows -> rows = map (part_row id) ps.
Proof.
  induction 1 as [|p row ps rows (Hid & Hn & Hq & Hc) _ IH]; [reflexivity|].
  cbn [map]. rewrite IH. f_equal.
  unfold part_row, field. rewrite Hn, Hq, Hc, <- Hid. destruct row; reflexivity.
Qed.

Lemma labor_stored_rows (id : string) (js : list value) (rows : list LaborRow.t) :
  Forall2 (labor_stored id) js rows -> rows = map (labor_row id) js.
Proof.
  induction 1 as [|j row js rows (Hid & Ht & Hc & Hh) _ IH]; [reflexivity|].
  cbn [map]. rewrite IH. f_equal.
  unfold labor_row, field. rewrite Ht, Hc, Hh, <- Hid. destruct row; reflexivity.
Qed.

(** A [createRecipe] that returns has issued these statements, and returns
    what a read of the id then gives. *)
Lemma createRecipe_written (body : value) (id now : string) (db db' : DB)
      (obj : value) :
  createRecipe body id now db = (db', Ok obj) ->
  exists ps js : list value,
    iterate (field body "parts") = Ok ps /\
    iterate (field body "labor") = Ok js /\
    db' = with_recipe db (created_row body id now)
            (map (part_row id) ps) (map (labor_row id) js) /\
    getRecipeById id db' = (db', Ok obj).
Proof.
  unfold createRecipe. intros H.
  apply StoreFacts.bindM_ok in H as (d1 & row & Hrow & H).
  apply StoreFacts.lift_ok in Hrow as [-> Hrow].
  apply bound_row_created in Hrow. subst row.
  apply StoreFacts.bindM_ok in H as (d2 & [] & Hins & H).
  unfold insert_recipe in Hins. injection Hins as <-.
  apply StoreFacts.bindM_ok in H as (d3 & [] & Hp & H).
  apply StoreFacts.insert_parts_effect in Hp as (pv & ps & rowsP & Hpv & Hps & HrowsP & ->).
  apply StoreFacts.bindM_ok in H as (d4 & [] & Hl & H).
  apply StoreFacts.insert_labors_effect in Hl as (jv & js & rowsL & Hjv & Hjs & HrowsL & ->).
  apply part_stored_rows in HrowsP. apply labor_stored_rows in HrowsL. subst rowsP rowsL.
  cbn [recipes recipe_parts recipe_labor] in H.
  change (mkDB (recipes db ++ [created_row body id now])
            (recipe_parts db ++ map (part_row id) ps)
            (recipe_labor db ++ map (labor_row id) js))
    with (with_recipe db (created_row body id now)
            (map (part_row id) ps) (map (labor_row id) js)) in H.
  destruct (StoreFacts.getRecipeById_reads id
              (with_recipe db (created_row body id now)
                 (map (part_row id) ps) (map (labor_row id) js))) as [v Hv].
  rewrite Hv in H. injection H as <- <-.
  exists ps, js. unfold field. rewrite Hpv, Hjv. auto.
Qed.

(** X8.  A [createRecipe] that returns has written exactly this, after the
    rows that were there: one recipe row to which the payload's fields are
    bound (its four dimension columns from [dimensions]), with both stamps
    the creation time; one part row per element of [parts] and one labor row
    per element of [labor], in order, each keyed by the new id and bound to
    the three named properties of its element and to nothing else of it. *)
Theorem createRecipe_stores_payload (body : value) (id now : string)
        (db db' : DB) (obj : value) :
  createRecipe body id now db = (db', Ok obj) ->
  exists ps js : list value,
    iterate (field body "parts") = Ok ps /\
    iterate (field body "labor") = Ok js /\
    db' = with_recipe db (created_row body id now)
            (map (part_row id) ps) (map (labor_row id) js).
Proof.
  intros H. destruct (createRecipe_written _ _ _ _ _ _ H) as (ps & js & Hps & Hjs & Hdb & _).
  exists ps, js. auto.
Qed.

Lemma createRecipe_stores_payload_witness :
  exists (db' : DB) (ps js : list value),
    iterate (field (create_payload (VNum 0.1)) "parts") = Ok ps /\
    iterate (field (create_payload (VNum 0.1)) "labor") = Ok js /\
    db' = with_recipe example_db
            (created_row (create_payload (VNum 0.1)) "r9" "2024-02-01T00:00:00.000Z")
            (map (part_row "r9") ps) (map (labor_row "r9") js).
Proof.
  eexists.
  eapply (createRecipe_stores_payload (create_payload (VNum 0.1)) "r9"
            "2024-02-01T00:00:00.000Z" example_db).
  vm_compute. reflexivity.
Defined.

Lemma part_objects (id : string) (ps : list value) :
  Forall2 (fun _ o => exists n q c, o = part_of n q c) ps
          (map part_object (map (part_row id) ps)).
Proof.
  induction ps as [|p ps IH]; cbn [map]; constructor; [|exact IH].
  unfold part_object, part_of. eauto.
Qed.

Lemma labor_objects (id : string) (js : list value) :
  Forall2 (fun _ o => exists t c h, o = labor_of t c h) js
          (map labor_object (map (labor_row id) js)).
Proof.
  induction js as [|j js IH]; cbn [map]; constructor; [|exact IH].
  unfold labor_object, labor_of. eauto.
Qed.

(** X9.  What a read of a created recipe is sure to give back.  When no row
    was keyed by the new id, the recipe a [createRecipe] returns has the new
    id and the creation time as both stamps, and its [parts] and [labor]
    hold one object per element sent, in order, each with the three named
    properties and no other.  (Whether a value comes back as it was sent is
    the store's to decide, and is not stated.) *)
Theorem createRecipe_read_back (body : value) (id now : string) (db db' : DB)
        (obj : value) :
  fresh id db ->
  createRecipe body id now db = (db', Ok obj) ->
  field obj "id" = VStr id /\
  field obj "created_at" = VStr now /\
  field obj "updated_at" = VStr now /\
  exists (ps js parts labor : list value),
    iterate (field body "parts") = Ok ps /\
    iterate (field body "labor") = Ok js /\
    field obj "parts" = VArr parts /\
    field obj "labor" = VArr labor /\
    Forall2 (fun _ o => exists n q c, o = part_of n q c) ps parts /\
    Forall2 (fun _ o => exists t c h, o = labor_of t c h) js labor.
Proof.
  intros (Hno & Hparts & Hlabor) H.
  destruct (createRecipe_written _ _ _ _ _ _ H) as (ps & js & Hps & Hjs & -> & Hread).
  rewrite getRecipeById_first in Hread.
  rewrite (first_row_added id db (created_row body id now) _ _ Hno eq_refl) in Hread.
  unfold parts_rows, labor_rows, with_recipe in *.
  cbn [recipe_parts recipe_labor] in Hread.
  rewrite !filter_app, Hparts, Hlabor in Hread.
  assert (HP : Forall (fun r => PartRow.recipe_id r = id) (map (part_row id) ps))
    by (apply Forall_forall; intros r Hr; apply in_map_iff in Hr;
        destruct Hr as (p & <- & _); reflexivity).
  assert (HL : Forall (fun r => LaborRow.recipe_id r = id) (map (labor_row id) js))
    by (apply Forall_forall; intros r Hr; apply in_map_iff in Hr;
        destruct Hr as (j & <- & _); reflexivity).
  destruct (StoreFacts.filter_own PartRow.recipe_id id _ HP) as [HfP _].
  destruct (StoreFacts.filter_own LaborRow.recipe_id id _ HL) as [HfL _].
  rewrite HfP, HfL in Hread. cbn [app] in Hread.
  injection Hread as <-.
  assert (Hstamp : or_else (VStr now) (VStr "") = VStr now).
  { unfold or_else. cbn [truthy]. destruct (now =? "") eqn:E; [|reflexivity].
    apply String.eqb_eq in E. subst. reflexivity. }
  split; [reflexivity|].
  split; [cbn; exact Hstamp|].
  split; [cbn; exact Hstamp|].
  exists ps, js, (map part_object (map (part_row id) ps)),
    (map labor_object (map (labor_row id) js)).
  repeat split; try assumption.
  - apply part_objects.
  - apply labor_objects.
Qed.

Lemma createRecipe_read_back_witness :
  exists obj : value,
    field obj "id" = VStr "r9" /\
    field obj "created_at" = VStr "2024-02-01T00:00:00.000Z" /\
    field obj "updated_at" = VStr "2024-02-01T00:00:00.000Z" /\
    exists (ps js parts labor : list value),
      iterate (field (create_payload (VNum 0.1)) "parts") = Ok ps /\
      iterate (field (create_payload (VNum 0.1)) "labor") = Ok js /\
      field obj "parts" = VArr parts /\
      field obj "labor" = VArr labor /\
      Forall2 (fun _ o => exists n q c, o = part_of n q c) ps parts /\
      Forall2 (fun _ o => exists t c h, o = labor_of t c h) js labor.
Proof.
  eexists.
  eapply (createRecipe_read_back (create_payload (VNum 0.1)) "r9"
            "2024-02-01T00:00:00.000Z" example_db).
  - unfold fresh, stored. cbn. repeat split.
    intros [H | [H | []]]; discriminate H.
  - vm_compute. reflexivity.
Defined.

End RepositoryFacts.

(** ** Identifiers *)

(** A draw of [Math.random] times sixteen, truncated: the product is exact
    in binary64, so the digit is between 0 and 15. *)
Module DrawFacts.
Import UuidSpec.

Lemma iter_pos_nat {A : Type} (f : A -> A) (p : positive) (x : A) :
  iter_pos f p x = Nat.iter (Pos.to_nat p) f x.
Proof.
  revert x. induction p as [p IH|p IH|]; intros x; cbn [iter_pos].
  - rewrite !IH, Pos2Nat.inj_xI.
    change (S (2 * Pos.to_nat p)) with (1 + (2 * Pos.to_nat p))%nat.
    replace (1 + 2 * Pos.to_nat p)%nat with (Pos.to_nat p + (Pos.to_nat p + 1))%nat by lia.
    rewrite !Nat.iter_add. reflexivity.
  - rewrite !IH, Pos2Nat.inj_xO.
    replace (2 * Pos.to_nat p)%nat with (Pos.to_nat p + Pos.to_nat p)%nat by lia.
    rewrite Nat.iter_add. reflexivity.
  - reflexivity.
Qed.

Lemma shr_doubled (n k : nat) (p : positive) :
  (n <= k)%nat ->
  Nat.iter n shr_1 (Build_shr_record (Z.pos (doubled k p)) false false)
  = Build_shr_record (Z.pos (doubled (k - n) p)) false false.
Proof.
  induction n as [|n IH]; intros Hn.
  - now rewrite Nat.sub_0_r.
  - rewrite Nat.iter_succ, IH by lia.
    replace (k - n)%nat with (S (k - S n)) by lia.
    reflexivity.
Qed.

Lemma digits_doubled (k : nat) (p : positive) :
  Z.pos (digits2_pos (doubled k p)) = (Z.pos (digits2_pos p) + Z.of_nat k)%Z.
Proof.
  induction k as [|k IH].
  - cbn. lia.
  - cbn [doubled digits2_pos]. rewrite Pos2Z.inj_succ, IH. lia.
Qed.

Lemma digits_bound (p : positive) : (Z.pos p < 2 ^ Z.pos (digits2_pos p))%Z.
Proof.
  induction p as [p IH|p IH|]; cbn [digits2_pos].
  - rewrite Pos2Z.inj_succ, Z.pow_succ_r by lia. lia.
  - rewrite Pos2Z.inj_succ, Z.pow_succ_r by lia. lia.
  - reflexivity.
Qed.

Lemma digits_lower (p : positive) :
  (2 ^ (Z.pos (digits2_pos p) - 1) <= Z.pos p)%Z.
Proof.
  induction p as [p IH|p IH|]; cbn [digits2_pos].
  - rewrite Pos2Z.inj_succ.
    replace (Z.succ (Z.pos (digits2_pos p)) - 1)%Z
      with (Z.succ (Z.pos (digits2_pos p) - 1)) by lia.
    rewrite Z.pow_succ_r by lia. lia.
  - rewrite Pos2Z.inj_succ.
    replace (Z.succ (Z.pos (digits2_pos p)) - 1)%Z
      with (Z.succ (Z.pos (digits2_pos p) - 1)) by lia.
    rewrite Z.pow_succ_r by lia. lia.
  - reflexivity.
Qed.

Lemma mul_doubled (m : positive) :
  (m * 4503599627370496)%positive = doubled 52 m.
Proof. rewrite Pos.mul_comm. reflexivity. Qed.

(** Sixteen times a number below one: the product is exact and below
    sixteen. *)
Lemma SFmul_16 (m : positive) (e : Z) :
  bounded prec emax m e = true -> (e <= -53)%Z ->
  exists (m' : positive) (e' : Z),
    SF64mul (S754_finite false m e) (S754_finite false 4503599627370496 (-48))
    = S754_finite false m' e' /\
    (e' < 0)%Z /\ (Z.pos m' < 16 * 2 ^ (- e'))%Z.
Proof.
  intros Hb He. destruct (FloatFacts.bounded_inv m e Hb) as [Hc _].
  set (d := Z.pos (digits2_pos m)) in *.
  assert (Hd : (0 < d)%Z) by (unfold d; lia).
  set (F := Z.max (d + e - 49) (-1074)).
  assert (Hn : (48 <= F - e + 48 <= 52)%Z) by (unfold F; lia).
  destruct (F - e + 48)%Z as [|p|p] eqn:Ep; try lia.
  set (n := Pos.to_nat p).
  assert (Hp : Z.of_nat n = Z.pos p) by (unfold n; lia).
  exists (doubled (52 - n) m), F.
  split; [|split].
  - unfold SF64mul, SFmul. cbn [xorb]. rewrite mul_doubled.
    unfold binary_round_aux, shr_fexp.
    cbn [Zdigits2 shr_record_of_loc].
    rewrite digits_doubled. fold d.
    replace (fexp prec emax (d + Z.of_nat 52 + (e + -48)) - (e + -48))%Z
      with (Z.pos p) by (rewrite FloatFacts.fexp_eq; unfold F in Ep |- *; lia).
    cbn [shr]. rewrite iter_pos_nat. fold n.
    rewrite shr_doubled by lia.
    cbn [shr_m loc_of_shr_record shr_r shr_s round_nearest_even
         Zdigits2 shr_record_of_loc].
    rewrite digits_doubled. fold d.
    replace (e + -48 + Z.pos p)%Z with F by lia.
    replace (fexp prec emax (d + Z.of_nat (52 - n) + F) - F)%Z with 0%Z
      by (rewrite FloatFacts.fexp_eq; unfold F in Ep |- *; lia).
    cbn [shr shr_m].
    replace (F <=? emax - prec)%Z with true; [reflexivity|].
    symmetry. apply Z.leb_le. unfold emax, prec, F. lia.
  - unfold F. lia.
  - pose proof (digits_bound (doubled (52 - n) m)) as Hlt.
    rewrite digits_doubled in Hlt. fold d in Hlt.
    change 16%Z with (2 ^ 4)%Z. rewrite <- Z.pow_add_r by (unfold F; lia).
    eapply Z.lt_le_trans; [exact Hlt|].
    apply Z.pow_le_mono_r; [lia|]. unfold F in Ep |- *. lia.
Qed.

Lemma truncate_draw (x : float) :
  (0 <=? x)%float = true -> (x <? 1)%float = true ->
  (0 <= Uuid.truncate (x * 16) <= 15)%Z.
Proof.
  rewrite FloatAxioms.leb_spec, FloatAxioms.ltb_spec.
  unfold Uuid.truncate. rewrite FloatAxioms.mul_spec.
  pose proof (Prim2SF_valid x) as Hv.
  change (Prim2SF 16) with (S754_finite false 4503599627370496 (-48)).
  change (Prim2SF 1) with (S754_finite false 4503599627370496 (-52)).
  change (Prim2SF 0) with (S754_zero false).
  destruct (Prim2SF x) as [s|s| |s m e].
  - cbn. lia.
  - destruct s; discriminate.
  - discriminate.
  - intros H0 H1. destruct s; [discriminate|].
    cbn in Hv. destruct (FloatFacts.bounded_inv m e Hv) as [Hc _].
    assert (He : (e <= -53)%Z).
    { unfold SFltb, SFcompare in H1.
      destruct (e ?= -52)%Z eqn:Ee; try discriminate.
      - apply Z.compare_eq in Ee. subst e.
        assert (Hd : Z.pos (digits2_pos m) = 53%Z) by lia.
        pose proof (digits_bound m) as Hlt.
        destruct (PosDef.Pos.compare_cont Eq m 4503599627370496) eqn:Em;
          try discriminate.
        assert (Em' : (m < 4503599627370496)%positive) by exact Em.
        pose proof (digits_lower m) as Hge.
        rewrite Hd in Hge.
        assert (Hp : (2 ^ (53 - 1) = 4503599627370496)%Z) by reflexivity.
        rewrite Hp in Hge.
        apply Pos2Z.pos_lt_pos in Em'. clear - Em' Hge. lia.
      - rewrite Z.compare_lt_iff in Ee. lia. }
    destruct (SFmul_16 m e Hv He) as (m' & e' & Hm & He' & Hlt).
    rewrite Hm. cbn beta iota zeta.
    replace (0 <=? e')%Z with false by (symmetry; apply Z.leb_gt; lia).
    split.
    + apply Z.div_pos; [lia|]. apply Z.pow_pos_nonneg; lia.
    + assert (Z.pos m' / 2 ^ (- e') < 16)%Z; [|lia].
      apply Z.div_lt_upper_bound; [apply Z.pow_pos_nonneg; lia|]. lia.
Qed.

Lemma ToInt32_draw (x : float) :
  (0 <=? x)%float = true -> (x <? 1)%float = true ->
  (0 <= Uuid.ToInt32 (x * 16) <= 15)%Z.
Proof.
  intros H0 H1. pose proof (truncate_draw x H0 H1) as Ht.
  unfold Uuid.ToInt32. rewrite Z.mod_small by lia.
  replace (Uuid.truncate (x * 16) <? 2 ^ 31)%Z with true; [exact Ht|].
  symmetry. apply Z.ltb_lt. lia.
Qed.

End DrawFacts.

Module UuidFacts.
Import Uuid UuidSpec.

Lemma chars_app (a b : string) :
  list_ascii_of_string (a ++ b) = list_ascii_of_string a ++ list_ascii_of_string b.
Proof. induction a as [|c a IH]; cbn; [reflexivity | now rewrite IH]. Qed.

Lemma hex_digits_text (d : Hexadecimal.uint) :
  forallb hex_digit
    (list_ascii_of_string (HexadecimalString.NilEmpty.string_of_uint d)) = true.
Proof. induction d; cbn; auto. Qed.

Lemma hex_text (d : Hexadecimal.uint) :
  uuid_text (HexadecimalString.NilZero.string_of_uint d) = true.
Proof.
  unfold uuid_text, uuid_char.
  assert (H : forall s, forallb hex_digit (list_ascii_of_string s) = true ->
                        forallb (fun c => hex_digit c || Ascii.eqb c "-")
                          (list_ascii_of_string s) = true).
  { intros s. induction (list_ascii_of_string s) as [|c l IH]; cbn; [reflexivity|].
    intros Hc. apply andb_true_iff in Hc. destruct Hc as [-> Hl]. now apply IH. }
  destruct d; try reflexivity; apply H;
    match goal with
    | |- context [HexadecimalString.NilZero.string_of_uint ?u] =>
        exact (hex_digits_text u)
    end.
Qed.

(** Whatever the draw, a replacement is written in hexadecimal digits and,
    for a negative number, a sign. *)
Lemma toString16_text (v : Z) : uuid_text (toString16 v) = true.
Proof.
  destruct v as [|p|p]; cbn [toString16].
  - reflexivity.
  - apply hex_text.
  - unfold uuid_text. rewrite chars_app, forallb_app. apply andb_true_iff.
    split; [reflexivity | apply hex_text].
Qed.

Lemma replace_xy_text (template : string) (random : nat -> float) (i : nat) :
  forallb (fun c => Ascii.eqb c "x" || Ascii.eqb c "y" || uuid_char c)
    (list_ascii_of_string template) = true ->
  uuid_text (replace_xy template random i) = true.
Proof.
  revert i. induction template as [|c t IH]; intros i H; [reflexivity|].
  cbn [list_ascii_of_string forallb] in H.
  apply andb_true_iff in H. destruct H as [Hc Ht].
  cbn [replace_xy]. destruct (Ascii.eqb c "x" || Ascii.eqb c "y").
  - unfold uuid_text. rewrite chars_app, forallb_app. apply andb_true_iff. split.
    + apply toString16_text.
    + now apply IH.
  - unfold uuid_text. cbn [list_ascii_of_string forallb].
    cbn [orb] in Hc. rewrite Hc. now apply IH.
Qed.

Lemma digit_text (v : Z) :
  (0 <= v <= 15)%Z ->
  exists c, toString16 v = String c EmptyString /\ hex_digit c = true /\
            ((8 <= v <= 11)%Z -> variant_digit c = true).
Proof.
  intros H.
  assert (Hv : In v [0; 1; 2; 3; 4; 5; 6; 7; 8; 9; 10; 11; 12; 13; 14; 15]%Z).
  { cbn. lia. }
  cbn in Hv.
  repeat (destruct Hv as [<- | Hv];
          [eexists; split; [reflexivity|]; split; [reflexivity|];
           intros; first [reflexivity | lia] |]).
  contradiction.
Qed.

Lemma variant_bits (r : Z) :
  (0 <= r <= 15)%Z -> (8 <= Z.lor (Z.land r 3) 8 <= 11)%Z.
Proof.
  intros H.
  assert (Hr : In r [0; 1; 2; 3; 4; 5; 6; 7; 8; 9; 10; 11; 12; 13; 14; 15]%Z).
  { cbn. lia. }
  cbn in Hr.
  repeat (destruct Hr as [<- | Hr]; [cbn; lia|]).
  contradiction.
Qed.

Lemma replace_xy_shaped (template : string) (random : nat -> float) (i : nat) :
  unit_draws random -> shaped template (replace_xy template random i) = true.
Proof.
  intros Hdraws. revert i. induction template as [|c t IH]; intros i; [reflexivity|].
  cbn [replace_xy]. unfold replacement.
  destruct (Hdraws i) as [H0 H1].
  pose proof (DrawFacts.ToInt32_draw _ H0 H1) as Hr.
  destruct (Ascii.eqb c "x") eqn:Ex.
  - cbn [orb].
    destruct (digit_text _ Hr) as (d & -> & Hd & _).
    cbn [append shaped]. rewrite Ex, Hd. apply IH.
  - cbn [orb]. destruct (Ascii.eqb c "y") eqn:Ey.
    + pose proof (variant_bits _ Hr) as Hv.
      destruct (digit_text (Z.lor (Z.land (ToInt32 (random i * 16)) 3) 8))
        as (d & -> & _ & Hd); [lia|].
      cbn [append shaped]. rewrite Ex, Ey, (Hd Hv). apply IH.
    + cbn [shaped]. rewrite Ex, Ey, Ascii.eqb_refl. apply IH.
Qed.

(** X10.  When every draw of [Math.random] is in the interval from 0 to 1,
    as it promises, [generateUUID] returns a version 4 identifier in
    canonical form: 36 characters, dashes after the 8th, 12th, 16th and 20th
    digit, the version digit 4, a variant digit 8, 9, a or b, and lower-case
    hexadecimal digits elsewhere. *)
Theorem generateUUID_is_v4 (random : nat -> float) :
  unit_draws random -> is_uuid_v4 (generateUUID random) = true.
Proof. intros H. apply (replace_xy_shaped _ random 0 H). Qed.

Lemma generateUUID_is_v4_witness :
  unit_draws (fun i => if Nat.even i then 0.5%float else 0.99%float) /\
  is_uuid_v4 (generateUUID (fun i => if Nat.even i then 0.5%float else 0.99%float))
  = true.
Proof.
  assert (H : unit_draws (fun i => if Nat.even i then 0.5%float else 0.99%float)).
  { intros i. destruct (Nat.even i); split; reflexivity. }
  split; [exact H | apply generateUUID_is_v4; exact H].
Defined.

Lemma generateUUID_text (random : nat -> float) :
  uuid_text (generateUUID random) = true.
Proof. apply replace_xy_text. reflexivity. Qed.

Example generateUUID_example :
  generateUUID (fun i => if Nat.even i then 0.5%float else 0.99%float)
  = "8f8f8f8f-8f8f-48f8-b8f8-f8f8f8f8f8f8".
Proof. vm_compute. reflexivity. Qed.

End UuidFacts.

(** ** Reading every recipe *)

Module ListingFacts.
Import JS Store StoreSpec RepositorySpec Http HttpSpec.

Lemma push_recipes_objects (rows : list RecipeRow.t) (db : DB) :
  push_recipes rows db = (db, Ok (map (object_of db) rows)).
Proof.
  induction rows as [|row rows IH]; [reflexivity|].
  cbn [push_recipes map].
  unfold bindM at 1, select_parts. unfold bindM at 1, select_labor.
  unfold bindM at 1. rewrite IH. reflexivity.
Qed.

Lemma insert_desc_permutation (row : RecipeRow.t) (l : list RecipeRow.t) :
  Permutation (row :: l) (insert_desc row l).
Proof.
  induction l as [|r l IH]; cbn [insert_desc]; [reflexivity|].
  destruct (RecipeRow.created_at r <=? RecipeRow.created_at row)%string.
  - reflexivity.
  - rewrite perm_swap. now apply perm_skip.
Qed.

Lemma order_permutation (rows : list RecipeRow.t) :
  Permutation (order_by_created_at_desc rows) rows.
Proof.
  induction rows as [|row rows IH]; cbn; [constructor|].
  rewrite <- insert_desc_permutation. now apply perm_skip.
Qed.

Lemma leb_false_newer (a b : string) :
  (a <=? b)%string = false -> (b <=? a)%string = true.
Proof.
  intros H. destruct (String.leb_total a b) as [H1|H1]; [congruence | exact H1].
Qed.

Lemma insert_desc_sorted (row : RecipeRow.t) (l : list RecipeRow.t) :
  Sorted newer l -> Sorted newer (insert_desc row l).
Proof.
  induction l as [|r l IH]; intros Hs; cbn [insert_desc].
  - repeat constructor.
  - destruct (RecipeRow.created_at r <=? RecipeRow.created_at row)%string eqn:E.
    + constructor; [exact Hs|]. constructor. exact E.
    + apply Sorted_inv in Hs. destruct Hs as [Hs Hhd].
      constructor; [now apply IH|].
      apply leb_false_newer in E.
      destruct l as [|r' l]; cbn [insert_desc].
      * constructor. exact E.
      * destruct (RecipeRow.created_at r' <=? RecipeRow.created_at row)%string.
        -- constructor. exact E.
        -- constructor. now apply HdRel_inv in Hhd.
Qed.

Lemma order_sorted (rows : list RecipeRow.t) :
  Sorted newer (order_by_created_at_desc rows).
Proof.
  induction rows as [|row rows IH]; cbn; [constructor|].
  now apply insert_desc_sorted.
Qed.

Lemma getAllRecipes_rows (db : DB) :
  getAllRecipes db
  = (db, Ok (map (object_of db) (order_by_created_at_desc (recipes db)))).
Proof.
  unfold getAllRecipes, bindM, select_recipes. apply push_recipes_objects.
Qed.

(** X11.  [getAllRecipes] never writes and never throws. It returns one
    object per recipe row, built like the object of [getRecipeById] from the
    row and the child rows keyed by its id, and the objects come newest
    first by [created_at]. *)
Theorem getAllRecipes_newest_first (db : DB) :
  exists rows : list RecipeRow.t,
    Permutation rows (recipes db) /\
    Sorted newer rows /\
    getAllRecipes db = (db, Ok (map (object_of db) rows)).
Proof.
  exists (order_by_created_at_desc (recipes db)).
  split; [apply order_permutation|]. split; [apply order_sorted|].
  apply getAllRecipes_rows.
Qed.

Lemma first_row_unique (row : RecipeRow.t) (db : DB) :
  NoDup (map RecipeRow.id (recipes db)) -> In row (recipes db) ->
  first_row (RecipeRow.id row) db = Some row.
Proof.
  unfold first_row. induction (recipes db) as [|r rs IH]; intros Hnd Hin.
  - contradiction.
  - cbn [map] in Hnd. apply NoDup_cons_iff in Hnd. destruct Hnd as [Hr Hnd].
    cbn [find]. destruct Hin as [-> | Hin].
    + now rewrite String.eqb_refl.
    + destruct (RecipeRow.id r =? RecipeRow.id row) eqn:E.
      * apply String.eqb_eq in E. exfalso. apply Hr. rewrite E.
        now apply in_map.
      * now apply IH.
Qed.

(** X12.  When no two recipe rows share an id, the list of [getAllRecipes]
    holds exactly what [getRecipeById] returns for the stored ids: every
    element is the recipe [getRecipeById] returns for some stored id, and
    the recipe of every stored id is an element. *)
Theorem getAllRecipes_agrees_with_getRecipeById (db : DB) (all : list value) :
  NoDup (map RecipeRow.id (recipes db)) ->
  getAllRecipes db = (db, Ok all) ->
  forall v : value,
    In v all <->
    exists id, stored id db /\ getRecipeById id db = (db, Ok v).
Proof.
  intros Hnd Hall v.
  pose proof (order_permutation (recipes db)) as Hperm.
  rewrite getAllRecipes_rows in Hall. injection Hall as <-.
  split.
  - intros Hin. apply in_map_iff in Hin. destruct Hin as (row & <- & Hrow).
    apply (Permutation_in _ Hperm) in Hrow.
    exists (RecipeRow.id row). split.
    + unfold stored. now apply in_map.
    + rewrite RepositoryFacts.getRecipeById_first, (first_row_unique row db Hnd Hrow).
      reflexivity.
  - intros (id & Hst & Hget).
    apply RepositoryFacts.first_row_stored in Hst. destruct Hst as [row Hrow].
    rewrite RepositoryFacts.getRecipeById_first, Hrow in Hget.
    injection Hget as <-.
    unfold first_row in Hrow. apply find_some in Hrow. destruct Hrow as [Hin Hid].
    apply String.eqb_eq in Hid. subst id.
    apply in_map_iff. exists row. split; [reflexivity|].
    apply (Permutation_in _ (Permutation_sym Hperm)). exact Hin.
Qed.

Lemma getAllRecipes_agrees_with_getRecipeById_witness :
  exists all,
    getAllRecipes example_db = (example_db, Ok all) /\
    forall v : value,
      In v all <->
      exists id, stored id example_db /\ getRecipeById id example_db = (example_db, Ok v).
Proof.
  eexists. split; [vm_compute; reflexivity|].
  apply getAllRecipes_agrees_with_getRecipeById.
  - cbn. repeat constructor; cbn; intuition discriminate.
  - vm_compute. reflexivity.
Defined.

End ListingFacts.

(** ** The request handler *)

Module HandlerFacts.
Import JS Store StoreSpec ValidationSpec RepositorySpec Http HttpSpec UuidSpec.

(** *** Steps *)

Lemma reads_ret {A : Type} (a : A) : reads (retH a).
Proof. intros db db' out [= <- _]. reflexivity. Qed.

Lemma reads_typed {A : Type} (o : option A) : reads (typed o).
Proof. intros db db' out. unfold typed. destruct o; [intros [= <- _]|]; easy. Qed.

Lemma reads_await {A : Type} (c : M A) :
  keeps (fun db => db) c -> reads (await c).
Proof.
  intros Hk db db' out. unfold await. intros [= H]. specialize (Hk db).
  rewrite H in Hk. exact Hk.
Qed.

Lemma reads_bind {A B : Type} (c : H A) (k : A -> H B) :
  reads c -> (forall a, reads (k a)) -> reads (bindH c k).
Proof.
  intros Hc Hk db db' out. unfold bindH.
  destruct (c db) as [[d [a|e]]|] eqn:E; [| |discriminate].
  - intros H. apply Hk in H. apply Hc in E. congruence.
  - intros [= <- _]. now apply Hc in E.
Qed.

Lemma keeps_getAllRecipes : keeps (fun db => db) getAllRecipes.
Proof. intros db. now rewrite ListingFacts.getAllRecipes_rows. Qed.

Ltac reads_steps :=
  repeat first
    [ apply reads_ret
    | apply reads_typed
    | apply reads_await;
      first [ apply keeps_getAllRecipes
            | apply RepositoryFacts.keeps_getRecipeById
            | apply RepositoryFacts.keeps_lift ]
    | apply reads_bind; [|intros ?]
    | match goal with
      | |- reads (if ?b then _ else _) => destruct b
      end ].

Lemma reads_cost_summary_route : reads cost_summary_route.
Proof. unfold cost_summary_route. reads_steps. Qed.

Lemma reads_recipe_cost_route (pathname : string) : reads (recipe_cost_route pathname).
Proof. unfold recipe_cost_route. cbv zeta. reads_steps. Qed.

Lemma reads_list_route : reads list_route.
Proof. unfold list_route. reads_steps. Qed.

Lemma reads_recipe_route (pathname : string) : reads (recipe_route pathname).
Proof. unfold recipe_route. cbv zeta. reads_steps. Qed.

Lemma spares_reads (codes : list nat) (c : H Response) : reads c -> spares codes c.
Proof. intros Hc db db' r H _. exact (Hc _ _ _ H). Qed.

(** *** The routes that write *)

Lemma validateRecipe_verdict (recipe : value) (v : Validation) :
  validateRecipe recipe = Ok v -> v = accept \/ exists msg, v = reject msg.
Proof.
  unfold validateRecipe.
  repeat match goal with
         | |- context [JS.bind ?c _] => destruct c; cbn [JS.bind]
         | |- context [if ?b then _ else _] => destruct b
         end;
    intros [= <-]; eauto.
Qed.

(** An update that returns [null] has written nothing: it returns what a
    read of the id gives once the statements are through, and the recipe
    row is still there then. *)
Lemma updateRecipe_null (id : string) (body : value) (now : string)
      (db db' : DB) (u : value) :
  updateRecipe id body now db = (db', Ok u) -> truthy u = false -> db' = db.
Proof.
  intros H Hu.
  destruct (first_row id db) as [row0|] eqn:Hfirst.
  - exfalso.
    assert (Hst : stored id db)
      by (apply RepositoryFacts.first_row_stored; eauto).
    destruct (RepositoryFacts.updateRecipe_recipes _ _ _ _ _ _ _ Hfirst H)
      as [[_ [e He]] | Hmap]; [discriminate He|].
    unfold updateRecipe in H.
    apply StoreFacts.bindM_ok in H as (d0 & existing & Hex & H).
    destruct (StoreFacts.getRecipeById_stored id db Hst) as [eprops Heq].
    rewrite Heq in Hex. injection Hex as <- <-.
    cbn [truthy negb] in H. cbv zeta in H.
    apply StoreFacts.bindM_ok in H as (d1 & row & _ & H).
    apply StoreFacts.bindM_ok in H as (d2 & [] & _ & H).
    apply StoreFacts.bindM_ok in H as (d3 & new_parts & _ & H).
    apply StoreFacts.bindM_ok in H as (d4 & [] & _ & H).
    apply StoreFacts.bindM_ok in H as (d5 & new_labor & _ & H).
    apply StoreFacts.bindM_ok in H as (d6 & [] & _ & H).
    rewrite RepositoryFacts.getRecipeById_first in H. injection H as -> <-.
    destruct (first_row id db') as [row'|] eqn:Hf'; [discriminate Hu|].
    apply RepositoryFacts.first_row_absent in Hf'. apply Hf'.
    unfold stored in *. rewrite Hmap, map_map.
    erewrite map_ext; [exact Hst|].
    intros r. cbn beta. destruct (RecipeRow.id r =? id); reflexivity.
  - rewrite (RepositoryFacts.updateRecipe_unstored id body now db Hfirst) in H.
    injection H as <- _. reflexivity.
Qed.

(** Deleting a stored id removes its row, and returns [false]. *)
Lemma deleteRecipe_stored (id : string) (db : DB) :
  stored id db ->
  exists db', deleteRecipe id db = (db', Ok false) /\ ~ stored id db'.
Proof.
  intros Hst. pose proof (StoreFacts.filter_stored id db Hst) as Hgone.
  unfold deleteRecipe, bindM, delete_recipe, ret.
  destruct (List.filter (fun r => RecipeRow.id r =? id) (recipes db))
    as [|g gone]; [congruence|].
  eexists. split; [reflexivity|].
  unfold stored. cbn. rewrite in_map_iff. intros (row & Hid & Hin).
  apply filter_In in Hin. destruct Hin as [_ Hne].
  rewrite Hid, String.eqb_refl in Hne. discriminate Hne.
Qed.

Lemma spares_incl (codes codes' : list nat) (c : H Response) :
  incl codes' codes -> spares codes c -> spares codes' c.
Proof. intros Hi Hc db db' r H Hin. exact (Hc _ _ _ H (Hi _ Hin)). Qed.

Ltac not_among Hin :=
  cbn in Hin;
  repeat match type of Hin with
         | _ \/ _ => destruct Hin as [Hin | Hin]
         end;
  first [discriminate Hin | contradiction].

Lemma spares_create_route (request : Request) (env : Env) :
  spares [400; 404; 429] (create_route request env).
Proof.
  intros db db' r. unfold create_route, bindH at 1, await at 1, lift at 1.
  destruct (json request) as [body|e]; [|discriminate].
  unfold bindH at 1, await at 1, lift at 1.
  destruct (validateRecipe body) as [v|e]; [|discriminate].
  destruct (negb (valid v)); [intros [= <- _] _; reflexivity|].
  unfold bindH, await.
  destruct (createRecipe _ _ _ db) as [d [obj|e]]; [|discriminate].
  intros [= _ <-] Hin. not_among Hin.
Qed.

Lemma spares_update_route (request : Request) (env : Env) :
  spares [400; 404; 429] (update_route request env).
Proof.
  intros db db' r. unfold update_route. cbv zeta.
  unfold bindH at 1, await at 1, lift at 1.
  destruct (json request) as [body|e]; [|discriminate].
  unfold bindH at 1, await at 1, lift at 1.
  destruct (validatePartialRecipe body) as [v|e]; [|discriminate].
  destruct (negb (valid v)); [intros [= <- _] _; reflexivity|].
  unfold bindH, await.
  destruct (updateRecipe _ _ _ db) as [d [u|e]] eqn:Hu; [|discriminate].
  destruct (truthy u) eqn:Ht; cbn [negb].
  - intros [= _ <-] Hin. not_among Hin.
  - intros [= <- _] _. exact (updateRecipe_null _ _ _ _ _ _ Hu Ht).
Qed.

Lemma spares_delete_route (pathname : string) :
  spares [400; 429] (delete_route pathname).
Proof.
  intros db db' r. unfold delete_route. cbv zeta. unfold bindH, await.
  destruct (deleteRecipe _ db) as [d [[|]|e]]; [| |discriminate];
    cbn [negb]; intros [= _ <-] Hin; not_among Hin.
Qed.

Ltac spares_route :=
  first [ apply spares_create_route
        | apply spares_update_route
        | apply spares_delete_route
        | apply (spares_incl [400; 404; 429]);
          [ intros ? ?; cbn in *; tauto
          | first [apply spares_create_route | apply spares_update_route] ]
        | apply spares_reads;
          first [ apply reads_cost_summary_route
                | apply reads_recipe_cost_route
                | apply reads_list_route
                | apply reads_recipe_route
                | apply reads_ret ] ].

(** However a request ends, a 400 or a 429 of the routes comes with the
    store as it was. *)
Lemma spares_routes (request : Request) (env : Env) :
  spares [400; 429] (routes request env).
Proof.
  unfold routes. cbv zeta.
  repeat match goal with
         | |- spares _ (if ?b then _ else _) => destruct b
         end;
    spares_route.
Qed.

(** And so does a 404, unless the method is [DELETE]. *)
Lemma spares_routes_but_delete (request : Request) (env : Env) :
  (method request =? "DELETE") = false ->
  spares [400; 404; 429] (routes request env).
Proof.
  intros Hm. unfold routes. cbv zeta. rewrite Hm. cbn [andb].
  repeat match goal with
         | |- spares _ (if ?b then _ else _) => destruct b
         end;
    spares_route.
Qed.

Lemma reads_routes (request : Request) (env : Env) :
  writes (method request) = false -> reads (routes request env).
Proof.
  unfold writes. intros Hw.
  apply orb_false_iff in Hw. destruct Hw as [Hw Hdelete].
  apply orb_false_iff in Hw. destruct Hw as [Hpost Hput].
  unfold routes. cbv zeta. rewrite Hpost, Hput, Hdelete. cbn [andb].
  repeat match goal with
         | |- reads (if ?b then _ else _) => destruct b
         end;
    first [ apply reads_cost_summary_route
          | apply reads_recipe_cost_route
          | apply reads_list_route
          | apply reads_recipe_route
          | apply reads_ret ].
Qed.

(** *** Responses *)

Lemma answers_ret (P : Response -> Prop) (r : Response) : P r -> answers P (retH r).
Proof. intros H db db' r' [= _ <-]. exact H. Qed.

Lemma answers_bind {A : Type} (P : Response -> Prop) (c : H A)
      (k : A -> H Response) :
  (forall a, answers P (k a)) -> answers P (bindH c k).
Proof.
  intros Hk db db' r. unfold bindH.
  destruct (c db) as [[d [a|e]]|]; [apply Hk | discriminate | discriminate].
Qed.

Lemma allows_origin_sendJSON (data : value) (status : nat) :
  allows_origin (sendJSON data status).
Proof. right. left. reflexivity. Qed.

Lemma answers_routes (request : Request) (env : Env) :
  answers (fun r => allows_origin r \/ r = respond 204 [] NoBody)
          (routes request env).
Proof.
  unfold routes, info_route, cost_summary_route, recipe_cost_route, list_route,
    recipe_route, create_route, update_route, delete_route, not_found,
    validation_error.
  cbv zeta.
  repeat first
    [ apply answers_ret;
      first [ right; reflexivity
            | left; apply allows_origin_sendJSON
            | left; right; left; reflexivity ]
    | apply answers_bind; intros ?
    | match goal with
      | |- answers _ (if ?b then _ else _) => destruct b
      end ].
Qed.

(** X13.  Whatever the request, the store changes only under [POST], [PUT]
    and [DELETE]: the response to any other method comes with the store as
    it was. *)
Theorem fetch_reading_keeps_store (request : Request) (env : Env) (db db' : DB)
        (r : Response) :
  writes (method request) = false ->
  fetch request env db = Some (db', r) ->
  db' = db.
Proof.
  intros Hw. unfold fetch.
  destruct (handleCORS request); [intros [= <- _]; reflexivity|].
  destruct (startsWith _ _ && negb _); [intros [= <- _]; reflexivity|].
  unfold try_catch.
  destruct (routes request env db) as [[d out]|] eqn:Hr; [|discriminate].
  apply (reads_routes request env Hw) in Hr. subst d.
  destruct out; intros [= <- _]; reflexivity.
Qed.

Lemma fetch_reading_keeps_store_witness :
  exists db' r,
    fetch (bodiless "GET" "/api/recipes/cost/summary")
      (calm (fun _ => 0.5%float) "2024-02-01T00:00:00.000Z") example_db
    = Some (db', r) /\ db' = example_db.
Proof.
  eexists. eexists. split; [vm_compute; reflexivity|].
  eapply (fetch_reading_keeps_store (bodiless "GET" "/api/recipes/cost/summary")
            (calm (fun _ => 0.5%float) "2024-02-01T00:00:00.000Z"));
    [reflexivity | vm_compute; reflexivity].
Defined.

(** X14.  A request that is refused has changed nothing: when the answer
    is 400 or 429, or is 404 and the method is not [DELETE], the store is as
    it was before the request.  (A [DELETE] answers 404 whether or not it
    deleted, and a 500 may follow statements that went through: the
    sequences of statements are not wrapped in a transaction.) *)
Theorem fetch_failure_keeps_store (request : Request) (env : Env) (db db' : DB)
        (r : Response) :
  fetch request env db = Some (db', r) ->
  status r = 400 \/ status r = 429 \/
  (status r = 404 /\ method request <> "DELETE") ->
  db' = db.
Proof.
  unfold fetch.
  destruct (handleCORS request); [intros [= <- _]; reflexivity|].
  destruct (startsWith _ _ && negb _); [intros [= <- _]; reflexivity|].
  unfold try_catch.
  destruct (routes request env db) as [[d [r'|e]]|] eqn:Hr; [| |discriminate].
  - intros [= <- <-] [H | [H | [H Hm]]].
    + apply (spares_routes request env _ _ _ Hr). rewrite H. cbn. tauto.
    + apply (spares_routes request env _ _ _ Hr). rewrite H. cbn. tauto.
    + apply String.eqb_neq in Hm.
      apply (spares_routes_but_delete request env Hm _ _ _ Hr).
      rewrite H. cbn. tauto.
  - intros [= _ <-] [H | [H | [H _]]]; discriminate H.
Qed.

Lemma fetch_failure_keeps_store_witness :
  exists db' r,
    fetch (mkRequest "PUT" "/api/recipes/r1" (Ok (waste_update (VNum 1))))
      (calm (fun _ => 0.5%float) "2024-02-01T00:00:00.000Z") example_db
    = Some (db', r) /\ status r = 400 /\ db' = example_db.
Proof.
  eexists. eexists. split; [vm_compute; reflexivity|]. split; [reflexivity|].
  eapply (fetch_failure_keeps_store
            (mkRequest "PUT" "/api/recipes/r1" (Ok (waste_update (VNum 1))))
            (calm (fun _ => 0.5%float) "2024-02-01T00:00:00.000Z"));
    [vm_compute; reflexivity | left; reflexivity].
Defined.

(** X15.  Every response but one carries [Access-Control-Allow-Origin: *]:
    the exception is the 204 of a successful [DELETE], which has no header
    at all. *)
Theorem fetch_allows_origin (request : Request) (env : Env) (db db' : DB)
        (r : Response) :
  fetch request env db = Some (db', r) ->
  allows_origin r \/ (r = respond 204 [] NoBody /\ method request = "DELETE").
Proof.
  unfold fetch, handleCORS.
  destruct (method request =? "OPTIONS");
    [intros [= _ <-]; left; left; reflexivity|].
  destruct (startsWith _ _ && negb _);
    [intros [= _ <-]; left; left; reflexivity|].
  unfold try_catch.
  destruct (routes request env db) as [[d out]|] eqn:Hr; [|discriminate].
  destruct out as [r'|e]; intros [= _ <-];
    [|left; apply allows_origin_sendJSON].
  destruct (answers_routes request env _ _ _ Hr) as [H | ->]; [now left|].
  right. split; [reflexivity|].
  destruct (method request =? "DELETE") eqn:Hm; [now apply String.eqb_eq|].
  exfalso.
  assert (Ha : answers allows_origin (routes request env)).
  { unfold routes, info_route, cost_summary_route, recipe_cost_route, list_route,
      recipe_route, create_route, update_route, not_found, validation_error.
    cbv zeta. rewrite Hm. cbn [andb].
    repeat first
      [ apply answers_ret;
        first [ apply allows_origin_sendJSON | right; left; reflexivity ]
      | apply answers_bind; intros ?
      | match goal with
        | |- answers _ (if ?b then _ else _) => destruct b
        end ]. }
  apply Ha in Hr. destruct Hr as [].
Qed.

Lemma fetch_allows_origin_witness :
  exists db' r,
    fetch (bodiless "DELETE" "/api/recipes/r1")
      (calm (fun _ => 0.5%float) "2024-02-01T00:00:00.000Z") example_db
    = Some (db', r) /\
    (allows_origin r \/ (r = respond 204 [] NoBody /\ "DELETE" = "DELETE")).
Proof.
  eexists. eexists. split; [vm_compute; reflexivity|].
  eapply (fetch_allows_origin (bodiless "DELETE" "/api/recipes/r1")
            (calm (fun _ => 0.5%float) "2024-02-01T00:00:00.000Z") example_db).
  vm_compute. reflexivity.
Defined.

(** *** Every request is answered *)

Lemma returns_ret (P : Response -> Prop) (r : Response) : P r -> returns P (retH r).
Proof. intros H db. exists db, (Ok r). split; [reflexivity|]. now intros _ [= <-]. Qed.

Lemma returns_await {A : Type} (P : Response -> Prop) (c : M A)
      (k : A -> H Response) :
  (forall a, returns P (k a)) -> returns P (bindH (await c) k).
Proof.
  intros Hk db. unfold bindH, await. destruct (c db) as [d [a|e]].
  - apply Hk.
  - exists d, (Throw e). split; [reflexivity | discriminate].
Qed.

Lemma returns_routes (request : Request) (env : Env) :
  cost_route request = false ->
  returns (status_in [200; 201; 204; 400; 404]) (routes request env).
Proof.
  unfold cost_route, routes. cbv zeta. intros Hc.
  destruct (method request =? "GET"); cbn [andb] in *.
  - apply orb_false_iff in Hc. destruct Hc as [-> ->].
    unfold info_route, list_route, recipe_route, not_found. cbv zeta.
    change ("GET" =? "POST") with false.
    repeat first
      [ apply returns_ret; unfold status_in; cbn; tauto
      | apply returns_await; intros ?
      | match goal with
        | |- returns _ (if ?b then _ else _) => destruct b
        end ].
  - unfold create_route, update_route, delete_route, not_found, validation_error.
    cbv zeta.
    repeat first
      [ apply returns_ret; unfold status_in; cbn; tauto
      | apply returns_await; intros ?
      | match goal with
        | |- returns _ (if ?b then _ else _) => destruct b
        end ].
Qed.

(** X16.  Outside the two cost routes every request is answered, whatever
    the payload and the store: no exception escapes the handler, and the
    status is one of 200, 201, 204, 400, 404, 429 and 500. *)
Theorem fetch_answers (request : Request) (env : Env) (db : DB) :
  cost_route request = false ->
  exists db' r,
    fetch request env db = Some (db', r) /\
    In (status r) [200; 201; 204; 400; 404; 429; 500].
Proof.
  intros Hc. unfold fetch, handleCORS.
  destruct (method request =? "OPTIONS");
    [eexists; eexists; split; [reflexivity | cbn; tauto]|].
  destruct (startsWith _ _ && negb _);
    [eexists; eexists; split; [reflexivity | cbn; tauto]|].
  unfold try_catch.
  destruct (returns_routes request env Hc db) as (d & out & -> & Hout).
  destruct out as [r|e].
  - exists d, r. split; [reflexivity|].
    specialize (Hout r eq_refl). unfold status_in in Hout. cbn in *. tauto.
  - eexists; eexists; split; [reflexivity | cbn; tauto].
Qed.

Lemma fetch_answers_witness :
  exists db' r,
    fetch (mkRequest "POST" "/api/recipes" (Ok VNull))
      (calm (fun _ => 0.5%float) "2024-02-01T00:00:00.000Z") example_db
    = Some (db', r) /\
    In (status r) [200; 201; 204; 400; 404; 429; 500].
Proof. apply fetch_answers. reflexivity. Defined.


(** *** The preflight and the rate limiter *)

(** X17.  A request under [/api/] that the rate limiter refuses is answered
    429 with the store untouched, whatever its method and payload; except a
    preflight, which is answered 200 before the limiter is asked. *)
Theorem refused_request_is_answered (request : Request) (env : Env) (db : DB) :
  startsWith (pathname request) "/api/" = true ->
  limit env (pathname request) = false ->
  fetch request env db
  = Some (db,
          if method request =? "OPTIONS"
          then respond 200
                 [ ("Access-Control-Allow-Origin", "*");
                   ("Access-Control-Allow-Methods", "GET, POST, PUT, DELETE, OPTIONS");
                   ("Access-Control-Allow-Headers", "Content-Type") ]
                 NoBody
          else respond 429 [cors_header]
                 (Text ("429 Failure – rate limit exceeded for "
                        ++ pathname request))).
Proof.
  intros Hp Hl. unfold fetch, handleCORS. rewrite Hp, Hl.
  destruct (method request =? "OPTIONS"); reflexivity.
Qed.

Lemma refused_request_is_answered_witness :
  fetch (mkRequest "POST" "/api/recipes" (Ok (create_payload (VNum 0.1))))
    (mkEnv (fun _ => false) (fun _ => 0.5%float) "2024-02-01T00:00:00.000Z")
    example_db
  = Some (example_db,
          respond 429 [cors_header]
            (Text "429 Failure – rate limit exceeded for /api/recipes")).
Proof.
  apply (refused_request_is_answered
           (mkRequest "POST" "/api/recipes" (Ok (create_payload (VNum 0.1))))
           (mkEnv (fun _ => false) (fun _ => 0.5%float) "2024-02-01T00:00:00.000Z"));
    reflexivity.
Defined.


(** *** Paths *)

Lemma prefix_append (p s : string) :
  prefix p s = true -> exists x, s = (p ++ x)%string.
Proof.
  revert s. induction p as [|c p IH]; intros s H.
  - exists s. reflexivity.
  - destruct s as [|c' s]; [discriminate|]. cbn [prefix] in H.
    destruct (ascii_dec c c') as [->|]; [|discriminate].
    destruct (IH _ H) as [x ->]. exists x. reflexivity.
Qed.

Lemma split_cons (sep : ascii) (s : string) :
  exists first others, split sep s = first :: others.
Proof.
  induction s as [|c s (first & others & IH)]; cbn [split]; [eauto|].
  destruct (Ascii.eqb c sep); [eauto|]. rewrite IH. eauto.
Qed.

Lemma split_recipes (x : string) :
  split "/" ("/api/recipes/" ++ x)%string = "" :: "api" :: "recipes" :: split "/" x.
Proof. reflexivity. Qed.

Lemma split_segment (id rest : string) :
  segment id = true ->
  split "/" (id ++ String "/" rest)%string = id :: split "/" rest.
Proof.
  unfold segment. induction id as [|c id IH]; intros H.
  - reflexivity.
  - cbn [list_ascii_of_string forallb] in H. apply andb_true_iff in H.
    destruct H as [Hc Hid]. apply negb_true_iff in Hc.
    cbn [append split]. rewrite Hc, (IH Hid). reflexivity.
Qed.

Lemma split_one (id : string) : segment id = true -> split "/" id = [id].
Proof.
  unfold segment. induction id as [|c id IH]; intros H.
  - reflexivity.
  - cbn [list_ascii_of_string forallb] in H. apply andb_true_iff in H.
    destruct H as [Hc Hid]. apply negb_true_iff in Hc.
    cbn [split]. rewrite Hc, (IH Hid). reflexivity.
Qed.

(** X18.  Under the prefix [/api/recipes/] a path always has a fourth part:
    the guards [pathParts.length >= 4] of [PUT] and [DELETE] never fail, and
    [pathParts[3]] is never [undefined]. *)
Theorem recipes_path_has_four_parts (pathname : string) :
  startsWith pathname "/api/recipes/" = true ->
  exists id rest,
    split "/" pathname = "" :: "api" :: "recipes" :: id :: rest /\
    nth 3 (split "/" pathname) "" = id /\
    (4 <=? List.length (split "/" pathname))%nat = true.
Proof.
  intros H. apply prefix_append in H. destruct H as [x ->].
  rewrite split_recipes.
  destruct (split_cons "/" x) as (id & rest & ->).
  exists id, rest. repeat split.
Qed.

Lemma recipes_path_has_four_parts_witness :
  exists id rest,
    split "/" "/api/recipes/r1/cost" = "" :: "api" :: "recipes" :: id :: rest /\
    nth 3 (split "/" "/api/recipes/r1/cost") "" = id /\
    (4 <=? List.length (split "/" "/api/recipes/r1/cost"))%nat = true.
Proof. apply recipes_path_has_four_parts. reflexivity. Defined.

Lemma endsWith_segment (id : string) :
  segment id = true -> endsWith id "/cost" = false.
Proof.
  unfold segment. induction id as [|c id IH]; intros H; [reflexivity|].
  cbn [list_ascii_of_string forallb] in H. apply andb_true_iff in H.
  destruct H as [Hc Hid]. apply negb_true_iff in Hc.
  cbn [endsWith]. rewrite (IH Hid), orb_false_r.
  cbn [String.eqb]. now rewrite Hc.
Qed.


Lemma startsWith_append (p x : string) : startsWith (p ++ x) p = true.
Proof.
  unfold startsWith. induction p as [|c p IH]; cbn [append prefix].
  - destruct x; reflexivity.
  - destruct (ascii_dec c c) as [_|Hc]; [exact IH | now destruct Hc].
Qed.

Lemma append_assoc (a b c : string) : ((a ++ b) ++ c = a ++ (b ++ c))%string.
Proof. induction a as [|x a IH]; cbn; [reflexivity | now rewrite IH]. Qed.

Lemma parts_of_recipe_path (id : string) :
  segment id = true ->
  split "/" (recipe_path id) = [""; "api"; "recipes"; id].
Proof. intros H. unfold recipe_path. now rewrite split_recipes, split_one. Qed.

Lemma parts_of_longer_path (id rest : string) :
  segment id = true ->
  split "/" (recipe_path id ++ "/" ++ rest)
  = "" :: "api" :: "recipes" :: id :: split "/" rest.
Proof.
  intros H. unfold recipe_path. rewrite append_assoc, split_recipes.
  change ("/" ++ rest)%string with (String "/" rest).
  now rewrite split_segment.
Qed.

Lemma startsWith_api (x : string) : startsWith ("/api/recipes/" ++ x) "/api/" = true.
Proof.
  change ("/api/recipes/" ++ x)%string with ("/api/" ++ ("recipes/" ++ x))%string.
  apply startsWith_append.
Qed.

(** The request passes the preflight test and the rate limiter. *)
Lemma fetch_routes (request : Request) (env : Env) (db : DB) :
  (method request =? "OPTIONS") = false ->
  limit env (pathname request) = true ->
  fetch request env db = try_catch (routes request env) db.
Proof.
  intros Hm Hl. unfold fetch, handleCORS. rewrite Hm, Hl.
  now rewrite andb_false_r.
Qed.

Lemma routes_put (request : Request) (env : Env) (x : string) :
  method request = "PUT" -> pathname request = ("/api/recipes/" ++ x)%string ->
  routes request env = update_route request env.
Proof.
  intros Hm Hp. unfold routes. cbv zeta. rewrite Hm, Hp.
  change ("PUT" =? "GET") with false. change ("PUT" =? "POST") with false.
  change ("PUT" =? "PUT") with true. cbn [andb].
  rewrite startsWith_append, split_recipes.
  destruct (split_cons "/" x) as (id & rest & ->). reflexivity.
Qed.

Lemma routes_delete (request : Request) (env : Env) (x : string) :
  method request = "DELETE" -> pathname request = ("/api/recipes/" ++ x)%string ->
  routes request env = delete_route (pathname request).
Proof.
  intros Hm Hp. unfold routes. cbv zeta. rewrite Hm, Hp.
  change ("DELETE" =? "GET") with false. change ("DELETE" =? "POST") with false.
  change ("DELETE" =? "PUT") with false. change ("DELETE" =? "DELETE") with true.
  cbn [andb].
  rewrite startsWith_append, split_recipes.
  destruct (split_cons "/" x) as (id & rest & ->). reflexivity.
Qed.

(** X19.  [PUT] and [DELETE] read the recipe id from the fourth part of the
    path and look no further: a request to [/api/recipes/<id>/<anything>] is
    answered, and changes the store, exactly as the request to
    [/api/recipes/<id>]. *)
Theorem write_ignores_trailing_segments (method id rest : string)
        (body : result value) (env : Env) (db : DB) :
  method = "PUT" \/ method = "DELETE" ->
  segment id = true ->
  limit env (recipe_path id) = true ->
  limit env (recipe_path id ++ "/" ++ rest) = true ->
  fetch (mkRequest method (recipe_path id ++ "/" ++ rest) body) env db
  = fetch (mkRequest method (recipe_path id) body) env db.
Proof.
  intros Hm Hid Hl Hl'.
  assert (Hlong : (recipe_path id ++ "/" ++ rest
                   = "/api/recipes/" ++ (id ++ "/" ++ rest))%string)
    by (unfold recipe_path; apply append_assoc).
  destruct Hm as [-> | ->].
  - rewrite !fetch_routes by (first [reflexivity | assumption]).
    rewrite (routes_put (mkRequest "PUT" (recipe_path id ++ "/" ++ rest) body) env
               (id ++ "/" ++ rest) eq_refl Hlong).
    rewrite (routes_put (mkRequest "PUT" (recipe_path id) body) env id
               eq_refl eq_refl).
    unfold try_catch, update_route. cbn [pathname json].
    now rewrite parts_of_recipe_path, parts_of_longer_path.
  - rewrite !fetch_routes by (first [reflexivity | assumption]).
    rewrite (routes_delete (mkRequest "DELETE" (recipe_path id ++ "/" ++ rest) body)
               env (id ++ "/" ++ rest) eq_refl Hlong).
    rewrite (routes_delete (mkRequest "DELETE" (recipe_path id) body) env id
               eq_refl eq_refl).
    unfold try_catch, delete_route. cbn [pathname].
    now rewrite parts_of_recipe_path, parts_of_longer_path.
Qed.

Lemma write_ignores_trailing_segments_witness :
  fetch (mkRequest "DELETE" (recipe_path "r1" ++ "/" ++ "cost")
           (Throw (Error "Unexpected end of JSON input")))
    (calm (fun _ => 0.5%float) "2024-02-01T00:00:00.000Z") example_db
  = fetch (mkRequest "DELETE" (recipe_path "r1")
             (Throw (Error "Unexpected end of JSON input")))
      (calm (fun _ => 0.5%float) "2024-02-01T00:00:00.000Z") example_db.
Proof.
  apply write_ignores_trailing_segments; [right | | |]; reflexivity.
Defined.

(** *** Deleting through the handler *)

(** X24.  A [DELETE] is never acknowledged.  For a stored recipe the
    request to [/api/recipes/<id>] deletes the recipe and yet is answered
    404 "Recipe not found", the answer for an id that is not stored:
    [deleteRecipe] looks for the count of deleted rows in [result.changes],
    which the result of [run()] does not have, so it returns [false] and the
    204 is not reached. *)
Theorem delete_is_answered_not_found (id : string) (body : result value)
        (env : Env) (db : DB) :
  stored id db ->
  segment id = true ->
  limit env (recipe_path id) = true ->
  exists db' : DB,
    fetch (mkRequest "DELETE" (recipe_path id) body) env db
    = Some (db', not_found "Recipe not found") /\
    ~ stored id db'.
Proof.
  intros Hst Hseg Hl.
  rewrite fetch_routes by (first [reflexivity | assumption]).
  rewrite (routes_delete (mkRequest "DELETE" (recipe_path id) body) env id
             eq_refl eq_refl).
  unfold try_catch, delete_route. cbn [pathname].
  rewrite (parts_of_recipe_path id Hseg). cbn [nth].
  destruct (deleteRecipe_stored id db Hst) as (db' & Hd & Hno).
  unfold bindH, await. rewrite Hd. cbn [negb].
  exists db'. split; [reflexivity | exact Hno].
Qed.

Lemma delete_is_answered_not_found_witness :
  exists db' : DB,
    fetch (bodiless "DELETE" (recipe_path "r1"))
      (calm (fun _ => 0.5%float) "2024-02-01T00:00:00.000Z") example_db
    = Some (db', not_found "Recipe not found") /\
    ~ stored "r1" db'.
Proof.
  apply (delete_is_answered_not_found "r1");
    [left; reflexivity | reflexivity | reflexivity].
Defined.

(** *** Creating, then reading *)

Lemma uuid_text_segment (id : string) : uuid_text id = true -> segment id = true.
Proof.
  unfold uuid_text, segment. induction (list_ascii_of_string id) as [|c l IH];
    [reflexivity|].
  cbn [forallb]. intros H. apply andb_true_iff in H. destruct H as [Hc Hl].
  rewrite (IH Hl), andb_true_r.
  destruct (Ascii.eqb c "/") eqn:E; [|reflexivity].
  apply Ascii.eqb_eq in E. subst c. discriminate Hc.
Qed.

Lemma routes_get_recipe (request : Request) (env : Env) (id : string) :
  method request = "GET" -> pathname request = recipe_path id ->
  segment id = true -> id <> "cost" ->
  routes request env = recipe_route (recipe_path id).
Proof.
  intros Hm Hp Hid Hcost. unfold routes. cbv zeta. rewrite Hm, Hp.
  change ("GET" =? "GET") with true. cbn [andb].
  change (recipe_path id =? "/") with false.
  change (recipe_path id =? "/api/recipes/cost/summary") with (id =? "cost/summary").
  destruct (id =? "cost/summary") eqn:E;
    [apply String.eqb_eq in E; subst id; discriminate Hid|].
  unfold recipe_path at 1. rewrite startsWith_append. cbn [andb].
  change (endsWith (recipe_path id) "/cost")
    with ((id =? "cost") || endsWith id "/cost").
  rewrite (endsWith_segment id Hid), orb_false_r.
  destruct (id =? "cost") eqn:E'; [apply String.eqb_eq in E'; contradiction|].
  change (recipe_path id =? "/api/recipes") with false.
  unfold recipe_path at 1. rewrite startsWith_append. cbn [andb].
  rewrite (parts_of_recipe_path id Hid). reflexivity.
Qed.

(** X20.  The recipe a [POST] answered with status 201 is the recipe a [GET]
    of its path then returns: the identifier [generateUUID] wrote is one
    path part, whatever [Math.random] drew, and the response has the same
    body and headers, with status 200, and reads the store without changing
    it. *)
Theorem post_then_get (post get : Request) (env env' : Env) (db db1 : DB)
        (r : Response) :
  method post = "POST" ->
  fetch post env db = Some (db1, r) ->
  status r = 201 ->
  method get = "GET" ->
  pathname get = recipe_path (Uuid.generateUUID (random env)) ->
  limit env' (pathname get) = true ->
  fetch get env' db1 = Some (db1, respond 200 (headers r) (body r)).
Proof.
  intros Hm Hpost Hstatus Hg Hpath Hlimit.
  set (id := Uuid.generateUUID (random env)) in *.
  assert (Htext : uuid_text id = true) by apply UuidFacts.generateUUID_text.
  assert (Hseg : segment id = true) by now apply uuid_text_segment.
  assert (Hcost : id <> "cost") by (intros E; rewrite E in Htext; discriminate Htext).
  (* the request that created the recipe *)
  unfold fetch, handleCORS in Hpost. rewrite Hm in Hpost.
  change ("POST" =? "OPTIONS") with false in Hpost.
  destruct (startsWith _ _ && negb _);
    [injection Hpost as _ <-; discriminate Hstatus|].
  unfold try_catch, routes in Hpost. cbv zeta in Hpost. rewrite Hm in Hpost.
  change ("POST" =? "GET") with false in Hpost.
  change ("POST" =? "POST") with true in Hpost.
  change ("POST" =? "PUT") with false in Hpost.
  change ("POST" =? "DELETE") with false in Hpost.
  cbn [andb] in Hpost.
  destruct (pathname post =? "/api/recipes");
    [|injection Hpost as _ <-; discriminate Hstatus].
  unfold create_route, bindH at 1, await at 1, lift at 1 in Hpost.
  destruct (json post) as [payload|e];
    [|injection Hpost as _ <-; discriminate Hstatus].
  unfold bindH at 1, await at 1, lift at 1 in Hpost.
  destruct (validateRecipe payload) as [v|e] eqn:Hv;
    [|injection Hpost as _ <-; discriminate Hstatus].
  destruct (validateRecipe_verdict _ _ Hv) as [-> | [msg ->]];
    cbn [valid accept reject negb] in Hpost;
    [|injection Hpost as _ <-; discriminate Hstatus].
  unfold bindH, await in Hpost. fold id in Hpost.
  destruct (createRecipe payload id (now env) db) as [d [obj|e]] eqn:Hc;
    [|injection Hpost as _ <-; discriminate Hstatus].
  injection Hpost as <- <-.
  destruct (RepositoryFacts.createRecipe_written _ _ _ _ _ _ Hc)
    as (ps & js & _ & _ & Hdb & Hread).
  assert (Htruthy : truthy obj = true).
  { pose proof Hread as Hfirst.
    rewrite RepositoryFacts.getRecipeById_first in Hfirst.
    injection Hfirst as <-.
    destruct (first_row id d) as [row|] eqn:Hrow; [reflexivity|].
    apply RepositoryFacts.first_row_absent in Hrow. exfalso. apply Hrow.
    rewrite Hdb. unfold stored, with_recipe. cbn [recipes].
    rewrite map_app. apply in_or_app. right. left. reflexivity. }
  (* the request that reads it *)
  rewrite fetch_routes by (first [now rewrite Hg | assumption]).
  rewrite (routes_get_recipe get env' id Hg Hpath Hseg Hcost).
  unfold try_catch, recipe_route. cbv zeta.
  rewrite (parts_of_recipe_path id Hseg). cbn [nth].
  unfold bindH, await. rewrite Hread, Htruthy. reflexivity.
Qed.

Lemma post_then_get_witness :
  exists db1 r,
    fetch (mkRequest "POST" "/api/recipes" (Ok (create_payload (VNum 0.1))))
      (calm (fun _ => 0.5%float) "2024-02-01T00:00:00.000Z") example_db
    = Some (db1, r) /\
    status r = 201 /\
    fetch (bodiless "GET" (recipe_path "88888888-8888-4888-8888-888888888888"))
      (calm (fun _ => 0.25%float) "2024-02-02T00:00:00.000Z") db1
    = Some (db1, respond 200 (headers r) (body r)).
Proof.
  eexists. eexists. split; [vm_compute; reflexivity|].
  split; [reflexivity|].
  eapply (post_then_get
            (mkRequest "POST" "/api/recipes" (Ok (create_payload (VNum 0.1))))
            (bodiless "GET" (recipe_path "88888888-8888-4888-8888-888888888888"))
            (calm (fun _ => 0.5%float) "2024-02-01T00:00:00.000Z")
            (calm (fun _ => 0.25%float) "2024-02-02T00:00:00.000Z")
            example_db);
    first [reflexivity | vm_compute; reflexivity].
Defined.

End HandlerFacts.

(** ** Partial validation and the fleet report *)

Module PartialFacts.
Import JS Cost CostSpec ValidationSpec.

(** *** Partial validation *)

(** X21.  Partial validation accepts exactly the payloads that are neither
    [null] nor [undefined] and whose fields, where present, pass these
    tests: [dimensions] falsy or an object with truthy [length], [width],
    [height] and [unit]; [parts] and [labor] arrays of well-shaped elements;
    [weight] a number not below 0; [yield_percentage] a number from 0 to
    100; [waste_factor] a number from 0 (included) to 1 (excluded). What is
    absent is not checked. *)
Theorem validatePartialRecipe_accepts_exactly (recipe : value) :
  validatePartialRecipe recipe = Ok accept <-> partial_ok recipe = true.
Proof. apply ValidationFacts.validatePartialRecipe_accept_iff. Qed.

Lemma array_check_returns (malformed : value -> result bool) (ok : value -> bool)
      (v : value) :
  (forall x, malformed x = if nullish x then Throw TypeError else Ok (negb (ok x))) ->
  no_nullish_element v = true ->
  exists b, (if is_undefined v then Ok false else bad_array malformed v) = Ok b.
Proof.
  intros Heq Hv. destruct (is_undefined v); [eauto|].
  eapply ValidationFacts.bad_array_returns; eauto.
Qed.

(** X22.  Partial validation returns, with [{valid: true}] or a message, on
    every payload that is neither [null] nor [undefined] and whose [parts]
    and [labor], where they are arrays, hold no [null] element. *)
Theorem validatePartialRecipe_returns (recipe : value) :
  nullish recipe = false ->
  no_nullish_element (field recipe "parts") = true ->
  no_nullish_element (field recipe "labor") = true ->
  exists r : Validation,
    validatePartialRecipe recipe = Ok r /\
    (r = accept \/ exists msg, r = reject msg).
Proof.
  intros Hn Hp Hl.
  assert (H : exists r, validatePartialRecipe recipe = Ok r).
  { unfold validatePartialRecipe.
    rewrite !(ValidationFacts.get_field recipe) by exact Hn. cbn [JS.bind].
    rewrite ValidationFacts.dims_check_partial. cbn [JS.bind].
    destruct (negb _); [eauto|].
    destruct (array_check_returns _ _ _ ValidationFacts.part_malformed_eq Hp)
      as [[|] ->]; cbn [JS.bind]; [eauto|].
    destruct (array_check_returns _ _ _ ValidationFacts.labor_malformed_eq Hl)
      as [[|] ->]; cbn [JS.bind]; [eauto|].
    repeat match goal with
           | |- context [if ?b then _ else _] => destruct b
           end; eauto. }
  destruct H as [r Hr]. exists r. split; [exact Hr|].
  exact (RepositoryFacts.validatePartialRecipe_verdict _ _ Hr).
Qed.

Lemma validatePartialRecipe_returns_witness :
  exists r : Validation,
    validatePartialRecipe (VObj [("parts", VArr [VNum 1]); ("weight", VStr "heavy")])
      = Ok r /\
    (r = accept \/ exists msg, r = reject msg).
Proof. apply validatePartialRecipe_returns; reflexivity. Defined.

(** *** The lines of the fleet report *)

(** X23.  The line of a recipe in the fleet report agrees with the breakdown
    the single-recipe route gives for it: the same total and unit of
    measure, and a parts cost and a labor cost that add up to the
    breakdown's subtotal. *)
Theorem summary_item_matches_breakdown (r : Recipe.t) :
  exists (item : SummaryItem.t) (b : RecipeCostBreakdown.t),
    summary_item r = Ok item /\
    calculateRecipeCost (Some r) = Ok b /\
    SummaryItem.total_cost item
      = CostSummary.total (RecipeCostBreakdown.cost_summary b) /\
    SummaryItem.unit_of_measure item
      = CostSummary.unit_of_measure (RecipeCostBreakdown.cost_summary b) /\
    (SummaryItem.parts_cost item + SummaryItem.labor_cost item)%float
      = CostSummary.subtotal (RecipeCostBreakdown.cost_summary b) /\
    SummaryItem.recipe_id item = RecipeCostBreakdown.recipe_id b /\
    SummaryItem.recipe_name item = RecipeCostBreakdown.recipe_name b.
Proof.
  eexists. eexists.
  rewrite CostFacts.summary_item_eq, CostFacts.calculateRecipeCost_eq.
  repeat split.
Qed.

End PartialFacts.
